(** * Lead capture webhook and dashboard: classification, validation, aggregation

    A shallow embedding of [webhook_api.py] and of the classifier of
    [dashboard_streamlit.py].  Python values are modelled as the interpreter
    has them: a [str] is a sequence of Unicode code points, a JSON payload is
    a dictionary from [str] to JSON values, a float is an IEEE binary64
    value (the Standard Library's [spec_float] at precision 53), the clock,
    the random source and the spreadsheet are passed explicitly. *)

From Stdlib Require Import ZArith NArith List Bool Lia String Ascii DecimalString.
From Stdlib Require Import Floats.SpecFloat.
From stdpp Require Import gmap list.
Import ListNotations.

Local Open Scope N_scope.

(** ** Python strings *)

(** A Python [str] is a list of code points. *)
Abbreviation str := (list N) (only parsing).

(** Source literals are written as Rocq strings (UTF-8 bytes) and decoded to
    code points. *)
Fixpoint utf8_decode (bs : list N) : str :=
  match bs with
  | [] => []
  | b :: r =>
    if b <? 128 then b :: utf8_decode r
    else if b <? 224 then
      match r with
      | b2 :: r2 => ((b - 192) * 64 + (b2 - 128)) :: utf8_decode r2
      | [] => [b]
      end
    else if b <? 240 then
      match r with
      | b2 :: b3 :: r3 =>
        ((b - 224) * 4096 + (b2 - 128) * 64 + (b3 - 128)) :: utf8_decode r3
      | _ => [b]
      end
    else
      match r with
      | b2 :: b3 :: b4 :: r4 =>
        ((b - 240) * 262144 + (b2 - 128) * 4096 + (b3 - 128) * 64 + (b4 - 128))
          :: utf8_decode r4
      | _ => [b]
      end
  end.

Definition lit (s : string) : str :=
  utf8_decode (List.map N_of_ascii (list_ascii_of_string s)).

(** [str.startswith]. *)
Fixpoint startswith (s prefix : str) {struct prefix} : bool :=
  match prefix, s with
  | [], _ => true
  | p :: ps, c :: cs => (c =? p) && startswith cs ps
  | _ :: _, [] => false
  end.

(** [sub in s] for strings: [sub] occurs in [s] as a contiguous run. *)
Fixpoint contains (sub s : str) : bool :=
  startswith s sub ||
  match s with
  | [] => false
  | _ :: t => contains sub t
  end.

(** [==] on two strings. *)
Definition str_eqb (a b : str) : bool := bool_decide (a = b).

(** [s in [l1, l2, ...]] for a string [s] and a list of strings. *)
Definition str_in (s : str) (l : list str) : bool := existsb (str_eqb s) l.

(** [sep.join(parts)]. *)
Fixpoint join (sep : str) (parts : list str) : str :=
  match parts with
  | [] => []
  | [p] => p
  | p :: rest => p ++ sep ++ join sep rest
  end.

(** [str.isspace] on one code point: the code points CPython's
    [_PyUnicode_IsWhitespace] accepts. *)
Definition is_whitespace (c : N) : bool :=
  ((9 <=? c) && (c <=? 13)) || ((28 <=? c) && (c <=? 32))
  || (c =? 133) || (c =? 160) || (c =? 5760)
  || ((8192 <=? c) && (c <=? 8202))
  || (c =? 8232) || (c =? 8233) || (c =? 8239) || (c =? 8287) || (c =? 12288).

Fixpoint lstrip (s : str) : str :=
  match s with
  | [] => []
  | c :: t => if is_whitespace c then lstrip t else s
  end.

Definition rstrip (s : str) : str := rev (lstrip (rev s)).

(** [str.strip()] with no argument. *)
Definition py_strip (s : str) : str := rstrip (lstrip s).

(** The values [request.get_json()] yields.  An object nested inside a value
    is kept as its list of items, in order. *)
#[warnings="-register-all"]
Inductive json :=
| JNull
| JBool (b : bool)
| JInt (z : Z)
| JFloat (f : spec_float)
| JStr (s : str)
| JArr (l : list json)
| JObj (l : list (str * json)).

(** The values of a cell as [get_all_records] returns them: text, or a
    number where the text reads as one. *)
Inductive cell :=
| CStr (s : str)
| CInt (z : Z)
| CFloat (f : spec_float).

#[global] Instance json_inhabited : Inhabited json := populate JNull.

(** The [TypeError]s the handlers can run into: [field in v] and
    [v[field]] on a value [v] that is [None], a boolean or a number;
    [v[field]], with [field] a string, on a string or a list; and [sorted] on
    dictionary keys that mix text and numbers. *)
Inductive type_error :=
| NotIterable (v : json)
| NotSubscriptable (v : json)
| BadIndex (v : json)
| Unorderable (keys : list cell).

(** The parts of the Python runtime that are tables or algorithms of the
    interpreter: the Unicode case mappings of code points outside ASCII, the
    choice of lower-case sigma, [repr] of floats and of strings, and the
    message [str(e)] of a [TypeError] (its wording and, for [sorted], the
    pair of keys the sort compares first differ between versions). *)
Class PyRuntime := {
  to_upper_full : N -> str;
  to_lower_full : N -> str;
  handle_capital_sigma : str -> nat -> N;
  float_repr : spec_float -> str;
  str_repr : str -> str;
  type_error_str : type_error -> str
}.

Definition ascii_upper (c : N) : N :=
  if (97 <=? c) && (c <=? 122) then c - 32 else c.

Definition ascii_lower (c : N) : N :=
  if (65 <=? c) && (c <=? 90) then c + 32 else c.

Section Case.
Context `{PyRuntime}.

Definition upper_cp (c : N) : str :=
  if c <? 128 then [ascii_upper c] else to_upper_full c.

(** [str.upper()]: every code point is replaced by its full upper-case
    mapping. *)
Definition py_upper (s : str) : str := flat_map upper_cp s.

Definition lower_cp (s : str) (i : nat) (c : N) : str :=
  if c <? 128 then [ascii_lower c]
  else if c =? 931 then [handle_capital_sigma s i]
  else to_lower_full c.

(** [str.lower()]: as [upper], but a capital sigma is mapped by its
    position in the whole string. *)
Definition py_lower (s : str) : str := concat (imap (lower_cp s) s).
End Case.

(** A sample runtime, used to instantiate statements on concrete inputs
    (ASCII and Latin-1 text, no floats or containers printed), on which
    every runtime agrees with it: its case tables cover Latin-1 and leave
    other code points unchanged, its [repr] functions are placeholders, and
    its messages are worded as CPython 3.11 words them. *)
Definition latin1_upper (c : N) : str :=
  if c =? 181 then [924]
  else if c =? 223 then [83; 83]
  else if c =? 255 then [376]
  else if (224 <=? c) && (c <=? 254) && negb (c =? 247) then [c - 32]
  else [c].

Definition latin1_lower (c : N) : str :=
  if (192 <=? c) && (c <=? 222) && negb (c =? 215) then [c + 32] else [c].

(** [type(v).__name__]. *)
Definition type_name (v : json) : str :=
  match v with
  | JNull => lit "NoneType"
  | JBool _ => lit "bool"
  | JInt _ => lit "int"
  | JFloat _ => lit "float"
  | JStr _ => lit "str"
  | JArr _ => lit "list"
  | JObj _ => lit "dict"
  end.

Definition cell_type_name (c : cell) : str :=
  match c with
  | CStr _ => lit "str"
  | CInt _ => lit "int"
  | CFloat _ => lit "float"
  end.

(** The first key that is not of the type of the key before it, with that
    key. *)
Fixpoint first_mixed_pair (keys : list cell) : option (cell * cell) :=
  match keys with
  | earlier :: (later :: _) as rest =>
    if bool_decide (cell_type_name later = cell_type_name earlier)
    then first_mixed_pair rest
    else Some (later, earlier)
  | _ => None
  end.

Definition cpython311_type_error_str (e : type_error) : str :=
  match e with
  | NotIterable v => lit "argument of type '" ++ type_name v ++ lit "' is not iterable"
  | NotSubscriptable v => lit "'" ++ type_name v ++ lit "' object is not subscriptable"
  | BadIndex (JStr _) => lit "string indices must be integers, not 'str'"
  | BadIndex _ => lit "list indices must be integers or slices, not str"
  | Unorderable keys =>
    match first_mixed_pair keys with
    | Some (later, earlier) =>
      lit "'<' not supported between instances of '" ++ cell_type_name later
      ++ lit "' and '" ++ cell_type_name earlier ++ lit "'"
    | None => []
    end
  end.

Definition latin1_runtime : PyRuntime := {|
  to_upper_full := latin1_upper;
  to_lower_full := latin1_lower;
  handle_capital_sigma := fun _ _ => 963;
  float_repr := fun _ => lit "0.0";
  str_repr := fun s => lit "'" ++ s ++ lit "'";
  type_error_str := cpython311_type_error_str
|}.

(** ** Python values *)

Definition float_is_zero (f : spec_float) : bool :=
  match f with S754_zero _ => true | _ => false end.

Definition float_is_nan (f : spec_float) : bool :=
  match f with S754_nan => true | _ => false end.

Definition is_nil {A} (l : list A) : bool :=
  match l with [] => true | _ => false end.

(** Truth value of a JSON value ([bool(v)]): [None], [False], zero, and
    empty strings and containers are false. *)
Definition truthy (v : json) : bool :=
  match v with
  | JNull => false
  | JBool b => b
  | JInt z => negb (z =? 0)%Z
  | JFloat f => negb (float_is_zero f)
  | JStr s => negb (is_nil s)
  | JArr l => negb (is_nil l)
  | JObj l => negb (is_nil l)
  end.

(** [repr] of an integer: its decimal digits. *)
Definition int_repr (z : Z) : str := lit (NilEmpty.string_of_int (Z.to_int z)).

Section Str.
Context `{PyRuntime}.

Fixpoint py_repr (v : json) : str :=
  match v with
  | JNull => lit "None"
  | JBool true => lit "True"
  | JBool false => lit "False"
  | JInt z => int_repr z
  | JFloat f => float_repr f
  | JStr s => str_repr s
  | JArr l => lit "[" ++ join (lit ", ") (List.map py_repr l) ++ lit "]"
  | JObj l =>
    lit "{"
    ++ join (lit ", ")
         (List.map (fun kv => str_repr (fst kv) ++ lit ": " ++ py_repr (snd kv)) l)
    ++ lit "}"
  end.

(** [str(v)]: a string is itself, anything else prints as its [repr]. *)
Definition py_str (v : json) : str :=
  match v with
  | JStr s => s
  | _ => py_repr v
  end.

Definition cell_str (c : cell) : str :=
  match c with
  | CStr s => s
  | CInt z => int_repr z
  | CFloat f => float_repr f
  end.
End Str.

(** ** Floats and exceptions *)

(** A computation that returns a value or raises an exception; the
    exception is kept as the message [str(e)] the handlers report. *)
Inductive outcome (A : Type) :=
| Return (a : A)
| Raise (message : str).
Arguments Return {A} a.
Arguments Raise {A} message.

#[global] Instance outcome_bind : MBind outcome := fun A B k m =>
  match m with
  | Return a => k a
  | Raise e => Raise e
  end.

Local Open Scope Z_scope.

(** The float nearest to an integer ([float(n)]). *)
Definition float_of_int (n : Z) : spec_float := binary_normalize 53 1024 n 0 false.

(** An integer as an exact (not yet rounded) binary number. *)
Definition exact_int (n : Z) : spec_float :=
  match n with
  | Z0 => S754_zero false
  | Zpos p => S754_finite false p 0
  | Zneg p => S754_finite true p 0
  end.

(** [a / b] on two integers: the float nearest to the quotient. *)
Definition int_truediv (a b : Z) : outcome spec_float :=
  if b =? 0 then Raise (lit "division by zero")
  else Return (SFdiv 53 1024 (exact_int a) (exact_int b)).

(** [x * n] for a float [x] and an integer [n]. *)
Definition float_mul_int (x : spec_float) (n : Z) : spec_float :=
  SFmul 53 1024 x (float_of_int n).

(** The integer nearest to [m * 2^e], ties to the even one. *)
Definition round_half_even (m : positive) (e : Z) : Z :=
  match e with
  | Zneg k =>
    let d := Z.pow_pos 2 k in
    let q := Z.pos m / d in
    let r := Z.pos m mod d in
    match 2 * r ?= d with
    | Lt => q
    | Gt => q + 1
    | Eq => if Z.even q then q else q + 1
    end
  | _ => Z.pos m * 2 ^ e
  end.

(** [round(x)] with one argument: an integer, or an exception on an
    infinity or a NaN. *)
Definition py_round (x : spec_float) : outcome Z :=
  match x with
  | S754_zero _ => Return 0
  | S754_finite s m e =>
    Return (if s then - round_half_even m e else round_half_even m e)
  | S754_infinity _ => Raise (lit "cannot convert float infinity to integer")
  | S754_nan => Raise (lit "cannot convert float NaN to integer")
  end.

(** The integer a float is equal to, when it is equal to one. *)
Definition float_exact_int (f : spec_float) : option Z :=
  match f with
  | S754_zero _ => Some 0
  | S754_finite s m e =>
    match e with
    | Zneg k =>
      if Z.pos m mod Z.pow_pos 2 k =? 0
      then Some (let q := Z.pos m / Z.pow_pos 2 k in if s then - q else q)
      else None
    | _ => Some (let q := Z.pos m * 2 ^ e in if s then - q else q)
    end
  | _ => None
  end.

(** [==] on two cells, as a dictionary compares its keys: text with text,
    numbers by value, a NaN with nothing. *)
Definition cell_eqb (a b : cell) : bool :=
  match a, b with
  | CStr s, CStr t => str_eqb s t
  | CInt x, CInt y => x =? y
  | CInt x, CFloat f | CFloat f, CInt x =>
    match float_exact_int f with
    | Some y => x =? y
    | None => false
    end
  | CFloat f, CFloat g => SFeqb f g
  | _, _ => false
  end.

(** [d[key] = d.get(key, 0) + 1] on a dictionary kept as its items in
    insertion order. *)
Fixpoint dict_count (key : cell) (d : list (cell * Z)) : list (cell * Z) :=
  match d with
  | [] => [(key, 1)]
  | (k, n) :: rest =>
    if cell_eqb k key then (k, n + 1) :: rest else (k, n) :: dict_count key rest
  end.

(** [sum(...)] of a list of integers. *)
Definition py_sum (l : list Z) : Z := fold_left Z.add l 0.

Definition is_text (c : cell) : bool :=
  match c with
  | CStr _ => true
  | _ => false
  end.

(** [sorted] on the keys of a dictionary returns when the keys are all text
    or all numbers (integers and floats compare with each other, a NaN
    included); text and a number cannot be compared, and whatever pair the
    sort starts with, it ends up comparing two such keys and raises
    [TypeError]. *)
Definition can_be_sorted (keys : list cell) : bool :=
  forallb is_text keys || forallb (fun key => negb (is_text key)) keys.

(** A finite float (or a zero) whose mantissa has at most 53 digits and
    whose exponent is at most [bound]. *)
Definition finite_below (bound : Z) (x : spec_float) : Prop :=
  match x with
  | S754_zero _ => True
  | S754_finite _ m e => Z.pos m < 2 ^ 53 /\ e <= bound
  | _ => False
  end.

(** ** [webhook_api.py] *)

Module Webhook.

(** A reading of the clock in America/Sao_Paulo, as [datetime.now(tz)]
    returns it. *)
Record datetime := {
  year : N; month : N; day : N; hour : N; minute : N; second : N
}.

Definition dec (n : N) : str := int_repr (Z.of_N n).

(** A two-digit [strftime] field ([%d], [%m], [%H], [%M], [%S]). *)
Definition pad2 (n : N) : str := if (n <? 10)%N then lit "0" ++ dec n else dec n.

(** [format_timestamp]: the reading [now] printed as [%d/%m/%Y %H:%M:%S]. *)
Definition format_timestamp (now : datetime) : str :=
  pad2 (day now) ++ lit "/" ++ pad2 (month now) ++ lit "/" ++ dec (year now)
  ++ lit " " ++ pad2 (hour now) ++ lit ":" ++ pad2 (minute now) ++ lit ":"
  ++ pad2 (second now).

(** [generate_id]: [now] is its own reading of the clock and [random_part]
    the four characters [random.choices] drew. *)
Definition generate_id (now : datetime) (random_part : str) : str :=
  let timestamp :=
    dec (year now) ++ pad2 (month now) ++ pad2 (day now)
    ++ pad2 (hour now) ++ pad2 (minute now) ++ pad2 (second now) in
  lit "IMV_" ++ timestamp ++ lit "_" ++ random_part.

(** What one request reads from its environment: the clock, once for the
    timestamp and once for the identifier, and the random source. *)
Record readings := {
  clock_timestamp : datetime;
  clock_id : datetime;
  random_part : str
}.

(** The spreadsheet: its tabs by title, each a list of rows.  A store that
    cannot be reached (no client, no spreadsheet) is [None]. *)
Abbreviation worksheet := (list (list json)) (only parsing).
Abbreviation spreadsheet := (gmap (list N) (list (list json))) (only parsing).

Definition headers : list str :=
  [lit "Data/Hora"; lit "Nome"; lit "Telefone"; lit "Imóvel/Referência";
   lit "Interesse Visita"; lit "Resumo Conversa"; lit "Origem"; lit "ID";
   lit "Status"; lit "Tipo Imóvel"].

(** [setup_headers]: writes the header row over [A1:J1]. *)
Definition setup_headers (ws : worksheet) : worksheet :=
  match ws with
  | [] => [List.map JStr headers]
  | r :: rest => (List.map JStr headers ++ drop 10 r) :: rest
  end.

Definition worksheet_names : list str :=
  [lit "Leads_Todos_Imoveis"; lit "Leads_Lancamentos"; lit "Sheet1"].

(** [get_worksheet]: the first tab of [worksheet_names] that exists, or a
    new tab with the headers; the result names the tab. *)
Definition get_worksheet (store : option spreadsheet) : option (str * spreadsheet) :=
  match store with
  | None => None
  | Some sheet =>
    match List.find (fun name => bool_decide (is_Some (sheet !! name))) worksheet_names with
    | Some name => Some (name, sheet)
    | None =>
      Some (lit "Leads_Todos_Imoveis",
            <[lit "Leads_Todos_Imoveis" := setup_headers []]> sheet)
    end
  end.

(** [worksheet.append_row(row)] on the tab [name]. *)
Definition append_row (name : str) (row : list json) (sheet : spreadsheet) : spreadsheet :=
  alter (fun ws => ws ++ [row]) name sheet.

(** The aggregate view [dados_dashboard] returns for a sheet with leads. *)
Record painel := {
  total_leads : Z;
  interesse_visita : Z;
  taxa_interesse : Z;
  wind_oceanica : Z;
  tresor_camboinhas : Z;
  tipos_imovel : list (cell * Z);
  dados : list (gmap (list N) cell);
  ultima_atualizacao : str
}.

(** The JSON bodies the endpoints answer with.  [Failure] carries the HTTP
    status, which is also the body's [status]; the others answer 200. *)
Inductive response :=
| Failure (status : Z) (error : str)
| LaunchCaptured (lead_id : str) (lancamento : json) (timestamp : str)
| PropertyCaptured (lead_id : str) (imovel_referencia : json)
    (tipo_imovel : str) (timestamp : str)
| NoLeads
| Aggregate (view : painel).

(** The value under a key of the answer's body, [None] when the body has no
    such key. *)
Definition response_status (r : response) : Z :=
  match r with
  | Failure status _ => status
  | _ => 200
  end.

Definition response_total_leads (r : response) : option Z :=
  match r with
  | NoLeads => Some 0
  | Aggregate view => Some (total_leads view)
  | _ => None
  end.

Definition response_dados (r : response) : option (list (gmap (list N) cell)) :=
  match r with
  | NoLeads => Some []
  | Aggregate view => Some (dados view)
  | _ => None
  end.

Definition response_interesse_visita (r : response) : option Z :=
  match r with Aggregate view => Some (interesse_visita view) | _ => None end.

Definition response_taxa_interesse (r : response) : option Z :=
  match r with Aggregate view => Some (taxa_interesse view) | _ => None end.

Definition response_wind_oceanica (r : response) : option Z :=
  match r with Aggregate view => Some (wind_oceanica view) | _ => None end.

Definition response_tresor_camboinhas (r : response) : option Z :=
  match r with Aggregate view => Some (tresor_camboinhas view) | _ => None end.

Definition response_tipos_imovel (r : response) : option (list (cell * Z)) :=
  match r with Aggregate view => Some (tipos_imovel view) | _ => None end.

Definition response_ultima_atualizacao (r : response) : option str :=
  match r with Aggregate view => Some (ultima_atualizacao view) | _ => None end.

(** [field not in data or not data[field]]. *)
Definition absent_or_falsy (data : gmap (list N) json) (field : str) : bool :=
  match data !! field with
  | None => true
  | Some v => negb (truthy v)
  end.

(** [v in names] for a JSON value and a list of strings. *)
Definition json_in (v : json) (names : list str) : bool :=
  match v with
  | JStr s => str_in s names
  | _ => false
  end.

Definition campo_ausente (field : str) : str :=
  lit "Campo obrigatório ausente: " ++ field.

Definition valid_launches : list str :=
  [lit "Wind Oceanica"; lit "Tresor Camboinhas"].

Definition required_lancamento : list str :=
  [lit "user_name"; lit "user_phone"; lit "lancamento"; lit "visit_interest";
   lit "summary"].

Definition required_imovel_geral : list str :=
  [lit "user_name"; lit "user_phone"; lit "imovel_referencia";
   lit "visit_interest"; lit "summary"].

(** [captura_lancamento] on a body that is a JSON object.  [data] is the
    dictionary of the request body, [env] what the request reads from the
    clock and the random source, [store] the spreadsheet before the
    request; the result is the answer and the spreadsheet after the
    request.  On a dictionary nothing in the handler raises; the handler on
    any body, with its [except] branch, is [captura_lancamento_handler]
    below, which agrees with this one on objects. *)
Definition captura_lancamento (env : readings) (store : option spreadsheet)
    (data : gmap (list N) json) : response * option spreadsheet :=
  match List.find (absent_or_falsy data) required_lancamento with
  | Some field => (Failure 400 (campo_ausente field), store)
  | None =>
    if negb (json_in (data !!! lit "lancamento") valid_launches) then
      (Failure 400 (lit "Lançamento deve ser: " ++ join (lit " ou ") valid_launches),
       store)
    else
      match get_worksheet store with
      | None => (Failure 500 (lit "Erro ao acessar planilha"), store)
      | Some (name, sheet) =>
        let row_data :=
          [JStr (format_timestamp (clock_timestamp env));
           data !!! lit "user_name";
           data !!! lit "user_phone";
           data !!! lit "lancamento";
           data !!! lit "visit_interest";
           data !!! lit "summary";
           JStr (lit "IA Gabriela - Lançamento");
           JStr (generate_id (clock_id env) (random_part env));
           JStr (lit "Novo");
           JStr (lit "Lançamento")] in
        (LaunchCaptured (generate_id (clock_id env) (random_part env))
           (data !!! lit "lancamento")
           (format_timestamp (clock_timestamp env)),
         Some (append_row name row_data sheet))
      end
  end.

Section WithRuntime.
Context `{PyRuntime}.

(** [identify_property_type] of [webhook_api.py]. *)
Definition identify_property_type (reference : json) : str :=
  if negb (truthy reference) then lit "Indefinido"
  else
    let ref := py_strip (py_upper (py_str reference)) in
    if startswith ref (lit "CA") then lit "Casa"
    else if startswith ref (lit "AP") then lit "Apartamento"
    else if startswith ref (lit "TR") then lit "Terreno"
    else if startswith ref (lit "CO") then lit "Comercial"
    else if str_in ref [lit "WIND OCEANICA"; lit "TRESOR CAMBOINHAS"]
    then lit "Lançamento"
    else if contains (lit "CASA") ref then lit "Casa"
    else if existsb (fun word => contains word ref)
              [lit "APARTAMENTO"; lit "APT"]
    then lit "Apartamento"
    else if contains (lit "TERRENO") ref then lit "Terreno"
    else if existsb (fun word => contains word ref)
              [lit "COMERCIAL"; lit "LOJA"; lit "SALA"]
    then lit "Comercial"
    else if existsb (fun word => contains word ref)
              [lit "LANÇAMENTO"; lit "LANCAMENTO"]
    then lit "Lançamento"
    else lit "Outros".

(** [captura_imovel_geral] on a body that is a JSON object, with the same
    arguments and result; the handler on any body is
    [captura_imovel_geral_handler] below. *)
Definition captura_imovel_geral (env : readings) (store : option spreadsheet)
    (data : gmap (list N) json) : response * option spreadsheet :=
  match List.find (absent_or_falsy data) required_imovel_geral with
  | Some field => (Failure 400 (campo_ausente field), store)
  | None =>
    match get_worksheet store with
    | None => (Failure 500 (lit "Erro ao acessar planilha"), store)
    | Some (name, sheet) =>
      let property_type := identify_property_type (data !!! lit "imovel_referencia") in
      let row_data :=
        [JStr (format_timestamp (clock_timestamp env));
         data !!! lit "user_name";
         data !!! lit "user_phone";
         data !!! lit "imovel_referencia";
         data !!! lit "visit_interest";
         data !!! lit "summary";
         JStr (lit "IA Gabriela - Imóvel");
         JStr (generate_id (clock_id env) (random_part env));
         JStr (lit "Novo");
         JStr property_type] in
      (PropertyCaptured (generate_id (clock_id env) (random_part env))
         (data !!! lit "imovel_referencia") property_type
         (format_timestamp (clock_timestamp env)),
       Some (append_row name row_data sheet))
    end
  end.

(** [str(row.get('Interesse Visita', '')).lower() in ['true', 'sim', 'yes']]. *)
Definition interested (row : gmap (list N) cell) : bool :=
  str_in (py_lower (cell_str (default (CStr []) (row !! lit "Interesse Visita"))))
    [lit "true"; lit "sim"; lit "yes"].

(** [row.get('Imóvel/Referência') == name]. *)
Definition reference_is (name : str) (row : gmap (list N) cell) : bool :=
  match row !! lit "Imóvel/Referência" with
  | Some (CStr s) => str_eqb s name
  | _ => false
  end.

(** The loop that fills [tipos_count]. *)
Definition tipos_count (data : list (gmap (list N) cell)) : list (cell * Z) :=
  fold_left
    (fun counts row =>
       dict_count (default (CStr (lit "Outros")) (row !! lit "Tipo Imóvel")) counts)
    data [].

(** [jsonify] of the view.  It serialises with [sort_keys], so it sorts the
    keys of every dictionary of the body.  The keys of the body and of the
    records are strings; the keys of [tipos_imovel] are cells, and sorting
    them raises [TypeError] when text and numbers are mixed.  What it returns
    is kept as the view it was given.  (The other bodies the handlers build
    have string keys only, and serialising them raises nothing.) *)
Definition jsonify (view : painel) : outcome painel :=
  let keys := List.map fst (tipos_imovel view) in
  if can_be_sorted keys then Return view
  else Raise (type_error_str (Unorderable keys)).

(** [dados_dashboard]: [records] is what [get_all_records] returned, or
    [None] when there is no worksheet; [now] is the clock when the answer
    is built.  An exception raised on the way, by [round] or by [jsonify],
    is answered by the [except] branch with status 500. *)
Definition dados_dashboard (now : datetime)
    (records : option (list (gmap (list N) cell))) : response :=
  match records with
  | None => Failure 500 (lit "Erro ao acessar planilha")
  | Some data =>
    if is_nil data then NoLeads
    else
      let total := Z.of_nat (length data) in
      let interesse := py_sum (List.map (fun _ => 1) (List.filter interested data)) in
      let wind :=
        py_sum (List.map (fun _ => 1)
                  (List.filter (reference_is (lit "Wind Oceanica")) data)) in
      let tresor :=
        py_sum (List.map (fun _ => 1)
                  (List.filter (reference_is (lit "Tresor Camboinhas")) data)) in
      let taxa :=
        if 0 <? total
        then q ← int_truediv interesse total; py_round (float_mul_int q 100)
        else Return 0 in
      let answer :=
        taxa ← taxa;
        jsonify {|
          total_leads := total;
          interesse_visita := interesse;
          taxa_interesse := taxa;
          wind_oceanica := wind;
          tresor_camboinhas := tresor;
          tipos_imovel := tipos_count data;
          dados := data;
          ultima_atualizacao := format_timestamp now
        |} in
      match answer with
      | Raise message => Failure 500 message
      | Return view => Aggregate view
      end
  end.

(** *** The handlers on any request body *)







End WithRuntime.

End Webhook.

(** ** [dashboard_streamlit.py]: the classifier and the rate card *)

Module Dashboard.
Section WithRuntime.
Context `{PyRuntime}.

(** [pd.isna] on a scalar: [None] and NaN are missing, a string or an
    integer never is. *)
Definition isna (reference : option cell) : bool :=
  match reference with
  | None => true
  | Some (CFloat f) => float_is_nan f
  | Some _ => false
  end.

(** [str] of a value of a data frame column. *)
Definition str_of (reference : option cell) : str :=
  match reference with
  | None => lit "None"
  | Some c => cell_str c
  end.

(** [identify_property_type] of [dashboard_streamlit.py]. *)
Definition identify_property_type (reference : option cell) : str :=
  if isna reference then lit "Indefinido"
  else
    let ref := py_strip (py_upper (str_of reference)) in
    if startswith ref (lit "CA") then lit "Casa"
    else if startswith ref (lit "AP") then lit "Apartamento"
    else if startswith ref (lit "TR") then lit "Terreno"
    else if startswith ref (lit "CO") then lit "Comercial"
    else if str_in ref [lit "WIND OCEANICA"; lit "TRESOR CAMBOINHAS"]
    then lit "Lançamento"
    else if contains (lit "CASA") ref then lit "Casa"
    else if existsb (fun word => contains word ref)
              [lit "APARTAMENTO"; lit "APT"]
    then lit "Apartamento"
    else if contains (lit "TERRENO") ref then lit "Terreno"
    else if existsb (fun word => contains word ref)
              [lit "COMERCIAL"; lit "LOJA"; lit "SALA"]
    then lit "Comercial"
    else if existsb (fun word => contains word ref)
              [lit "LANÇAMENTO"; lit "LANCAMENTO"]
    then lit "Lançamento"
    else lit "Outros".
End WithRuntime.

(** [f"{x:.1f}"]: [x] to the nearest tenth, ties to even. *)
Definition format_1f (x : spec_float) : str :=
  match x with
  | S754_zero s => (if s then lit "-" else []) ++ lit "0.0"
  | S754_finite s m e =>
    let tenths := round_half_even (m * 10) e in
    (if s then lit "-" else [])
    ++ int_repr (tenths / 10) ++ lit "." ++ int_repr (tenths mod 10)
  | S754_infinity s => if s then lit "-inf" else lit "inf"
  | S754_nan => lit "nan"
  end.

(** The rate [create_metrics_cards] computes from the number of records
    with interest and the number of records: the quotient of the two as
    floats, times 100, not rounded. *)
Definition taxa_interesse (interesse_leads total_leads : Z) : spec_float :=
  if 0 <? total_leads
  then float_mul_int
         (SFdiv 53 1024 (float_of_int interesse_leads) (float_of_int total_leads)) 100
  else S754_zero false.

(** The text of the card "Taxa de Interesse". *)
Definition taxa_interesse_card (interesse_leads total_leads : Z) : str :=
  format_1f (taxa_interesse interesse_leads total_leads) ++ lit "%".
End Dashboard.

(** * Vocabulary of the statements *)

Definition prefix_rules : list (str * str) :=
  [(lit "CA", lit "Casa"); (lit "AP", lit "Apartamento");
   (lit "TR", lit "Terreno"); (lit "CO", lit "Comercial")].

(** The tests of the classifier that follow the prefix rules: the two
    campaign names and the keywords. *)
Definition later_rule_matches (ref : str) : bool :=
  str_in ref [lit "WIND OCEANICA"; lit "TRESOR CAMBOINHAS"]
  || existsb (fun word => contains word ref)
       [lit "CASA"; lit "APARTAMENTO"; lit "APT"; lit "TERRENO"; lit "COMERCIAL";
        lit "LOJA"; lit "SALA"; lit "LANÇAMENTO"; lit "LANCAMENTO"].

Definition prefix_rule_matches (ref : str) : bool :=
  existsb (fun rule => startswith ref (fst rule)) prefix_rules.

(** The chain of tests both classifiers run on the normalised reference. *)
Definition classify_normalised (ref : str) : str :=
  if startswith ref (lit "CA") then lit "Casa"
  else if startswith ref (lit "AP") then lit "Apartamento"
  else if startswith ref (lit "TR") then lit "Terreno"
  else if startswith ref (lit "CO") then lit "Comercial"
  else if str_in ref [lit "WIND OCEANICA"; lit "TRESOR CAMBOINHAS"]
  then lit "Lançamento"
  else if contains (lit "CASA") ref then lit "Casa"
  else if existsb (fun word => contains word ref) [lit "APARTAMENTO"; lit "APT"]
  then lit "Apartamento"
  else if contains (lit "TERRENO") ref then lit "Terreno"
  else if existsb (fun word => contains word ref)
            [lit "COMERCIAL"; lit "LOJA"; lit "SALA"]
  then lit "Comercial"
  else if existsb (fun word => contains word ref)
            [lit "LANÇAMENTO"; lit "LANCAMENTO"]
  then lit "Lançamento"
  else lit "Outros".

(** A field that is present with a value of true truth value. *)
Definition present (data : gmap (list N) json) (field : str) : Prop :=
  exists v, data !! field = Some v /\ truthy v = true.

(** A field that is missing, or empty: present with a value of false truth
    value (the empty string, [null], [false], a zero, an empty container). *)
Definition missing_or_empty (data : gmap (list N) json) (field : str) : Prop :=
  data !! field = None \/ exists v, data !! field = Some v /\ truthy v = false.

Definition sample_readings : Webhook.readings := {|
  Webhook.clock_timestamp :=
    {| Webhook.year := 2024; Webhook.month := 1; Webhook.day := 2;
       Webhook.hour := 9; Webhook.minute := 5; Webhook.second := 7 |};
  Webhook.clock_id :=
    {| Webhook.year := 2024; Webhook.month := 1; Webhook.day := 2;
       Webhook.hour := 9; Webhook.minute := 5; Webhook.second := 8 |};
  Webhook.random_part := lit "A1B2"
|}.

(** A general-property payload with every required field but [summary]. *)
Definition payload_without_summary : gmap (list N) json :=
  <[lit "user_name" := JStr (lit "Ana")]>
  (<[lit "user_phone" := JStr (lit "21999990000")]>
  (<[lit "imovel_referencia" := JStr (lit "CA123")]>
  (<[lit "visit_interest" := JStr (lit "Sim")]> ∅))).

(** The launch name a payload carries, when it is one of the two campaign
    names, letter for letter. *)
Definition exact_launch (data : gmap (list N) json) (launch : str) : Prop :=
  In launch [lit "Wind Oceanica"; lit "Tresor Camboinhas"]
  /\ data !! lit "lancamento" = Some (JStr launch).

(** A launch payload, complete but for its launch name. *)
Definition launch_payload (launch : str) : gmap (list N) json :=
  <[lit "user_name" := JStr (lit "Ana")]>
  (<[lit "user_phone" := JStr (lit "21999990000")]>
  (<[lit "lancamento" := JStr launch]>
  (<[lit "visit_interest" := JStr (lit "Sim")]>
  (<[lit "summary" := JStr (lit "Quer visitar no sabado")]> ∅)))).

(** A complete general-property payload. *)
Definition general_payload : gmap (list N) json :=
  <[lit "summary" := JStr (lit "Quer visitar no sabado")]> payload_without_summary.

(** [named] is the first field of [required] that is missing or empty. *)
Definition first_missing (required : list str) (data : gmap (list N) json)
    (named : str) : Prop :=
  exists before after,
    required = before ++ named :: after
    /\ Forall (present data) before
    /\ missing_or_empty data named.

(** A general-property payload without [user_name] and with
    [visit_interest] bound to [false]. *)
Definition payload_two_faults : gmap (list N) json :=
  <[lit "user_phone" := JStr (lit "21999990000")]>
  (<[lit "imovel_referencia" := JStr (lit "CA123")]>
  (<[lit "visit_interest" := JBool false]>
  (<[lit "summary" := JStr (lit "Quer visitar no sabado")]> ∅))).

(** A payload whose only fault is [visit_interest] bound to [false]. *)
Definition payload_false_interest : gmap (list N) json :=
  <[lit "user_name" := JStr (lit "Ana")]> payload_two_faults.

#[global] Instance spec_float_eq_dec : EqDecision spec_float.
Proof. solve_decision. Defined.

#[global] Instance cell_eq_dec : EqDecision cell.
Proof. solve_decision. Defined.

(** A record whose reference is the text [name], letter for letter. *)
Definition refers_to (name : str) (row : gmap (list N) cell) : Prop :=
  row !! lit "Imóvel/Referência" = Some (CStr name).

#[global] Instance refers_to_dec name row : Decision (refers_to name row).
Proof. unfold refers_to. apply _. Defined.

(** The number of records of [data] that refer to [name]. *)
Definition count_references (name : str) (data : list (gmap (list N) cell)) : Z :=
  Z.of_nat (length (filter (refers_to name) data)).

(** Two collections that differ at most in the type of their records. *)
Definition differ_only_in_type (data data' : list (gmap (list N) cell)) : Prop :=
  Forall2 (fun row row' => forall key, key <> lit "Tipo Imóvel" -> row !! key = row' !! key)
    data data'.

(** The rate as the claim words it, [round(interest / total * 100, 1)], in
    tenths of a percent: the multiple of 0.1 nearest to the exact
    quotient, ties to even. *)
Definition rate_to_one_decimal_tenths (interest total : Z) : Z :=
  let q := (1000 * interest) / total in
  let r := (1000 * interest) mod total in
  match 2 * r ?= total with
  | Lt => q
  | Gt => q + 1
  | Eq => if Z.even q then q else q + 1
  end.

(** The answer with the time of its making blanked. *)
Definition without_timestamp (r : Webhook.response) : Webhook.response :=
  match r with
  | Webhook.Aggregate view =>
    Webhook.Aggregate {|
      Webhook.total_leads := Webhook.total_leads view;
      Webhook.interesse_visita := Webhook.interesse_visita view;
      Webhook.taxa_interesse := Webhook.taxa_interesse view;
      Webhook.wind_oceanica := Webhook.wind_oceanica view;
      Webhook.tresor_camboinhas := Webhook.tresor_camboinhas view;
      Webhook.tipos_imovel := Webhook.tipos_imovel view;
      Webhook.dados := Webhook.dados view;
      Webhook.ultima_atualizacao := []
    |}
  | _ => r
  end.

(** A record as [get_all_records] returns it, with the ten columns. *)
Definition lead_row (reference interest tipo : str) : gmap (list N) cell :=
  <[lit "Data/Hora" := CStr (lit "02/01/2024 09:05:07")]>
  (<[lit "Nome" := CStr (lit "Ana")]>
  (<[lit "Telefone" := CInt 21999990000]>
  (<[lit "Imóvel/Referência" := CStr reference]>
  (<[lit "Interesse Visita" := CStr interest]>
  (<[lit "Resumo Conversa" := CStr (lit "Quer visitar no sabado")]>
  (<[lit "Origem" := CStr (lit "IA Gabriela - Imóvel")]>
  (<[lit "ID" := CStr (lit "IMV_20240102090508_A1B2")]>
  (<[lit "Status" := CStr (lit "Novo")]>
  (<[lit "Tipo Imóvel" := CStr tipo]> ∅))))))))).

(** Three records, two of them with interest in a visit. *)
Definition three_records : list (gmap (list N) cell) :=
  [lead_row (lit "Wind Oceanica") (lit "Sim") (lit "Lançamento");
   lead_row (lit "CA123") (lit "Sim") (lit "Casa");
   lead_row (lit "Wind Oceanica") (lit "Não") (lit "Lançamento")].

Definition new_year : Webhook.datetime :=
  {| Webhook.year := 2024; Webhook.month := 1; Webhook.day := 1;
     Webhook.hour := 0; Webhook.minute := 0; Webhook.second := 0 |}.

Definition a_second_later : Webhook.datetime :=
  {| Webhook.year := 2024; Webhook.month := 1; Webhook.day := 1;
     Webhook.hour := 0; Webhook.minute := 0; Webhook.second := 1 |}.

(** The three records with the types of the first two changed. *)
Definition three_records_retyped : list (gmap (list N) cell) :=
  [lead_row (lit "Wind Oceanica") (lit "Sim") (lit "Outros");
   lead_row (lit "CA123") (lit "Sim") (lit "Comercial");
   lead_row (lit "Wind Oceanica") (lit "Não") (lit "Lançamento")].

(** ** Vocabulary of the further properties *)

(** The seven property types. *)
Definition categories : list str :=
  [lit "Casa"; lit "Apartamento"; lit "Terreno"; lit "Comercial";
   lit "Lançamento"; lit "Outros"; lit "Indefinido"].

(** Text made of ASCII characters only. *)
Definition ascii_text (s : str) : Prop := Forall (fun c => (c < 128)%N) s.

(** Text made of ASCII white space only. *)
Definition ascii_blank (s : str) : Prop :=
  Forall (fun c => is_whitespace c = true /\ (c < 128)%N) s.

(** A reading of the clock with a four-digit year and fields in their
    ranges, as [datetime.now] yields. *)
Definition valid_reading (now : Webhook.datetime) : Prop :=
  (1000 <= Webhook.year now <= 9999)%N
  /\ (1 <= Webhook.month now <= 12)%N
  /\ (1 <= Webhook.day now <= 31)%N
  /\ (Webhook.hour now <= 23)%N
  /\ (Webhook.minute now <= 59)%N
  /\ (Webhook.second now <= 59)%N.

(** The row [captura_lancamento] appends for a payload. *)
Definition launch_row (env : Webhook.readings) (data : gmap (list N) json) : list json :=
  [JStr (Webhook.format_timestamp (Webhook.clock_timestamp env));
   data !!! lit "user_name";
   data !!! lit "user_phone";
   data !!! lit "lancamento";
   data !!! lit "visit_interest";
   data !!! lit "summary";
   JStr (lit "IA Gabriela - Lançamento");
   JStr (Webhook.generate_id (Webhook.clock_id env) (Webhook.random_part env));
   JStr (lit "Novo");
   JStr (lit "Lançamento")].

(** The row [captura_imovel_geral] appends for a payload. *)
Definition general_row `{PyRuntime} (env : Webhook.readings)
    (data : gmap (list N) json) : list json :=
  [JStr (Webhook.format_timestamp (Webhook.clock_timestamp env));
   data !!! lit "user_name";
   data !!! lit "user_phone";
   data !!! lit "imovel_referencia";
   data !!! lit "visit_interest";
   data !!! lit "summary";
   JStr (lit "IA Gabriela - Imóvel");
   JStr (Webhook.generate_id (Webhook.clock_id env) (Webhook.random_part env));
   JStr (lit "Novo");
   JStr (Webhook.identify_property_type (data !!! lit "imovel_referencia"))].

(** The [lead_id] and the [timestamp] of an answer, [None] when the body has
    no such key. *)
Definition response_lead_id (r : Webhook.response) : option str :=
  match r with
  | Webhook.LaunchCaptured lead_id _ _ => Some lead_id
  | Webhook.PropertyCaptured lead_id _ _ _ => Some lead_id
  | _ => None
  end.

Definition response_timestamp (r : Webhook.response) : option str :=
  match r with
  | Webhook.LaunchCaptured _ _ timestamp => Some timestamp
  | Webhook.PropertyCaptured _ _ _ timestamp => Some timestamp
  | _ => None
  end.

(** A launch payload with a wrong launch name and no summary. *)
Definition launch_payload_two_faults : gmap (list N) json :=
  delete (lit "summary") (launch_payload (lit "Wind Oceanica Tower")).

(** A launch payload whose launch name is an array holding a valid name. *)
Definition launch_payload_array : gmap (list N) json :=
  <[lit "lancamento" := JArr [JStr (lit "Wind Oceanica")]]>
    (launch_payload (lit "Wind Oceanica")).

(** A float that is at most one, up to one unit in the last place: zero, or
    [m * 2^(n - k)] with [m * 2^n <= 2^k + 2^(k - 52)]. *)
Definition near_unit (x : spec_float) : Prop :=
  match x with
  | S754_zero s => s = false
  | S754_finite s m e =>
    s = false /\ exists k n, 53 <= k /\ 0 <= n <= k /\ e = n - k
      /\ Z.pos m * 2 ^ n <= 2 ^ k + 2 ^ (k - 52)
  | _ => False
  end.

(** The type [dados_dashboard] counts a record under. *)
Definition tipo_of (row : gmap (list N) cell) : cell :=
  default (CStr (lit "Outros")) (row !! lit "Tipo Imóvel").

(** The types of the records can be sorted as keys: they are all text (a
    record without the column counts as the text Outros) or all numbers. *)
Definition types_sortable (data : list (gmap (list N) cell)) : bool :=
  forallb (fun row => is_text (tipo_of row)) data
  || forallb (fun row => negb (is_text (tipo_of row))) data.

(** [d.get(key)] on a dictionary kept as its items. *)
Definition dict_get (key : cell) (d : list (cell * Z)) : option Z :=
  match List.find (fun kv => cell_eqb (fst kv) key) d with
  | Some kv => Some (snd kv)
  | None => None
  end.


(** The number of records of [data] whose type is the text [tipo]. *)
Definition count_type (tipo : str) (data : list (gmap (list N) cell)) : nat :=
  length (filter (fun row => tipo_of row = CStr tipo) data).


(** An ASCII letter. *)
Definition ascii_letter (c : N) : bool :=
  (((65 <=? c) && (c <=? 90)) || ((97 <=? c) && (c <=? 122)))%N.

(** ASCII text without a letter: digits, signs, punctuation, white space. *)
Definition letterless (s : str) : Prop :=
  Forall (fun c => (c < 128)%N /\ ascii_letter c = false) s.

(** A word that begins with an ASCII letter. *)
Definition begins_with_letter (w : str) : bool :=
  match w with
  | c :: _ => ascii_letter c
  | [] => false
  end.

(** Two records of a sheet that has only the column of names. *)
Definition records_of_names : list (gmap (list N) cell) :=
  [<[lit "Nome" := CStr (lit "Ana")]> ∅; <[lit "Nome" := CStr (lit "Bia")]> ∅].

(** A cell that holds no word: missing, an integer, or text without a
    letter. *)
Definition wordless (c : option cell) : Prop :=
  match c with
  | None | Some (CInt _) => True
  | Some (CStr text) => letterless text
  | Some (CFloat _) => False
  end.

(** An ASCII digit. *)
Definition ascii_digit (c : N) : bool := ((48 <=? c) && (c <=? 57))%N.

(** Two records whose types are a number and a text. *)
Definition mixed_records : list (gmap (list N) cell) :=
  [<[lit "Tipo Imóvel" := CInt 5]> ∅; <[lit "Tipo Imóvel" := CStr (lit "Casa")]> ∅].


(** * Properties *)

(** ** The classifier *)

Lemma startswith_two (ref : str) (a b : N) :
  startswith ref [a; b] = true -> exists rest, ref = a :: b :: rest.
Proof.
  destruct ref as [|c1 [|c2 rest]]; simpl; intros Hs.
  - discriminate.
  - rewrite andb_false_r in Hs. discriminate.
  - apply andb_true_iff in Hs as [H1 H2].
    apply andb_true_iff in H2 as [H2 _].
    apply N.eqb_eq in H1, H2. subst. eauto.
Qed.

Lemma normalised_empty `{PyRuntime} : py_strip (py_upper []) = [].
Proof. reflexivity. Qed.

(** C1. A reference string whose upper-cased, trimmed form starts with CA,
    AP, TR or CO is classified Casa, Apartamento, Terreno or Comercial
    respectively by both classifiers, whatever else the string contains:
    the prefix rules are tried before the campaign names and the keywords. *)
Theorem prefix_rules_take_precedence `{PyRuntime} (s prefix kind : str) :
  In (prefix, kind) prefix_rules ->
  startswith (py_strip (py_upper s)) prefix = true ->
  Webhook.identify_property_type (JStr s) = kind
  /\ Dashboard.identify_property_type (Some (CStr s)) = kind.
Proof.
  intros Hin Hs.
  assert (Hne : is_nil s = false).
  { destruct s; [|reflexivity].
    rewrite normalised_empty in Hs.
    repeat destruct Hin as [Hin|Hin]; try contradiction;
      inversion Hin; subst; discriminate Hs. }
  unfold Webhook.identify_property_type, Dashboard.identify_property_type.
  cbn [truthy Dashboard.isna Dashboard.str_of py_str cell_str].
  rewrite Hne. cbn [negb].
  repeat destruct Hin as [Hin|Hin]; try contradiction;
    inversion Hin; subst; clear Hin;
    apply startswith_two in Hs as [rest ->]; split; vm_compute; reflexivity.
Qed.

(** The rule holds on an input that also carries keywords of other rules. *)
Lemma prefix_rules_take_precedence_witness :
  In (lit "CO", lit "Comercial") prefix_rules
  /\ startswith (py_strip (@py_upper latin1_runtime (lit " co-17 casa lançamento")))
       (lit "CO") = true
  /\ later_rule_matches
       (py_strip (@py_upper latin1_runtime (lit " co-17 casa lançamento"))) = true
  /\ @Webhook.identify_property_type latin1_runtime
       (JStr (lit " co-17 casa lançamento")) = lit "Comercial"
  /\ @Dashboard.identify_property_type latin1_runtime
       (Some (CStr (lit " co-17 casa lançamento"))) = lit "Comercial".
Proof.
  assert (Hin : In (lit "CO", lit "Comercial") prefix_rules)
    by (right; right; right; left; reflexivity).
  assert (Hs : startswith
                 (py_strip (@py_upper latin1_runtime (lit " co-17 casa lançamento")))
                 (lit "CO") = true) by reflexivity.
  split; [exact Hin|]. split; [exact Hs|]. split; [reflexivity|].
  exact (@prefix_rules_take_precedence latin1_runtime _ _ _ Hin Hs).
Defined.

Lemma webhook_classifier_unfold `{PyRuntime} (reference : json) :
  Webhook.identify_property_type reference =
  if negb (truthy reference) then lit "Indefinido"
  else classify_normalised (py_strip (py_upper (py_str reference))).
Proof. reflexivity. Qed.

Lemma dashboard_classifier_unfold `{PyRuntime} (reference : option cell) :
  Dashboard.identify_property_type reference =
  if Dashboard.isna reference then lit "Indefinido"
  else classify_normalised (py_strip (py_upper (Dashboard.str_of reference))).
Proof. reflexivity. Qed.

Ltac split_tests :=
  cbn [existsb fst] in *;
  repeat match goal with
         | H : _ || _ = false |- _ => apply orb_false_iff in H as [? ?]
         | H : _ /\ _ |- _ => destruct H
         end.

Ltac use_tests :=
  repeat match goal with
         | H : ?b = false |- context [?b] => rewrite H
         end.

Ltac run_chain :=
  repeat match goal with
         | |- context [if ?b then _ else _] => destruct b eqn:?
         end.

Lemma classify_normalised_never_undefined (ref : str) :
  classify_normalised ref <> lit "Indefinido".
Proof.
  unfold classify_normalised. run_chain; intros Heq; vm_compute in Heq; discriminate.
Qed.

Lemma classify_normalised_other (ref : str) :
  classify_normalised ref = lit "Outros"
  <-> prefix_rule_matches ref = false /\ later_rule_matches ref = false.
Proof.
  unfold prefix_rule_matches, later_rule_matches, prefix_rules. split.
  - unfold classify_normalised. run_chain; intros Heq;
      try (vm_compute in Heq; discriminate).
    split_tests. use_tests. split; reflexivity.
  - intros Hno. split_tests. unfold classify_normalised. cbn [existsb].
    use_tests. reflexivity.
Qed.

(** On text or an absent reference the webhook classifier answers
    Indefinido exactly for the absent and the empty reference. *)
Lemma webhook_undefined_iff `{PyRuntime} (s : str) :
  Webhook.identify_property_type JNull = lit "Indefinido"
  /\ (Webhook.identify_property_type (JStr s) = lit "Indefinido" <-> s = []).
Proof.
  split; [reflexivity|]. rewrite webhook_classifier_unfold.
  destruct s as [|c s]; cbn [truthy is_nil negb py_str].
  - split; reflexivity.
  - split; [intros Heq|discriminate].
    exfalso. exact (classify_normalised_never_undefined _ Heq).
Qed.

(** It answers Outros exactly for a non-empty reference that matches no
    prefix rule, no campaign name and no keyword. *)
Lemma webhook_other_iff `{PyRuntime} (s : str) :
  Webhook.identify_property_type (JStr s) = lit "Outros"
  <-> s <> []
      /\ prefix_rule_matches (py_strip (py_upper s)) = false
      /\ later_rule_matches (py_strip (py_upper s)) = false.
Proof.
  rewrite webhook_classifier_unfold.
  destruct s as [|c s]; cbn [truthy is_nil negb py_str].
  - split; [intros Heq; vm_compute in Heq; discriminate|intros [Hne _]; congruence].
  - rewrite classify_normalised_other. split; [intros [? ?]|intros (_ & ? & ?)]; auto.
Qed.

(** The dashboard classifier answers Indefinido for a missing value only,
    never for text; on text it answers Outros exactly when no rule matches,
    the empty text included. *)
Lemma dashboard_text_iff `{PyRuntime} (s : str) :
  Dashboard.identify_property_type None = lit "Indefinido"
  /\ Dashboard.identify_property_type (Some (CStr s)) <> lit "Indefinido"
  /\ (Dashboard.identify_property_type (Some (CStr s)) = lit "Outros"
      <-> prefix_rule_matches (py_strip (py_upper s)) = false
          /\ later_rule_matches (py_strip (py_upper s)) = false).
Proof.
  split; [reflexivity|]. rewrite dashboard_classifier_unfold.
  cbn [Dashboard.isna Dashboard.str_of cell_str]. split.
  - apply classify_normalised_never_undefined.
  - apply classify_normalised_other.
Qed.

Lemma unclassifiable_reference_is_other `{PyRuntime} :
  Webhook.identify_property_type (JStr (lit "XYZ123")) = lit "Outros"
  /\ Dashboard.identify_property_type (Some (CStr (lit "XYZ123"))) = lit "Outros".
Proof. split; vm_compute; reflexivity. Qed.

(** C2. On the empty reference the two classifiers disagree: the webhook
    answers Indefinido, the dashboard, whose guard is [pd.isna], lets the
    empty text through to the rules and answers Outros. *)
Theorem empty_reference_classification `{PyRuntime} :
  Webhook.identify_property_type (JStr (lit "")) = lit "Indefinido"
  /\ Dashboard.identify_property_type (Some (CStr (lit ""))) = lit "Outros".
Proof. split; vm_compute; reflexivity. Qed.

(** ** Ingestion *)

Lemma absent_or_falsy_true data field :
  Webhook.absent_or_falsy data field = true <-> missing_or_empty data field.
Proof.
  unfold Webhook.absent_or_falsy, missing_or_empty.
  destruct (data !! field) as [v|]; [|tauto].
  rewrite negb_true_iff. split.
  - intros Hv. right. eauto.
  - intros [Hn|(w & Hw & Hf)]; congruence.
Qed.

Lemma absent_or_falsy_false data field :
  Webhook.absent_or_falsy data field = false <-> present data field.
Proof.
  unfold Webhook.absent_or_falsy, present.
  destruct (data !! field) as [v|].
  - rewrite negb_false_iff. split; [eauto|intros (w & Hw & Ht); congruence].
  - split; [discriminate|intros (w & Hw & _); discriminate].
Qed.

Lemma find_first {A} (p : A -> bool) (before after : list A) (x : A) :
  Forall (fun y => p y = false) before -> p x = true ->
  List.find p (before ++ x :: after) = Some x.
Proof.
  induction 1 as [|y before Hy _ IH]; intros Hx; simpl.
  - now rewrite Hx.
  - rewrite Hy. now apply IH.
Qed.

Lemma find_first_inv {A} (p : A -> bool) (l : list A) (x : A) :
  List.find p l = Some x ->
  exists before after,
    l = before ++ x :: after /\ p x = true /\ Forall (fun y => p y = false) before.
Proof.
  induction l as [|y l IH]; simpl; [discriminate|].
  destruct (p y) eqn:Hy.
  - intros [= ->]. exists [], l. auto.
  - intros Hf. destruct (IH Hf) as (before & after & -> & Hx & Hb).
    exists (y :: before), after. auto.
Qed.

Lemma find_none_all {A} (p : A -> bool) (l : list A) :
  List.find p l = None -> Forall (fun y => p y = false) l.
Proof.
  induction l as [|y l IH]; simpl; [constructor|].
  destruct (p y) eqn:Hy; [discriminate|]. auto.
Qed.

Lemma first_missing_found data required before field after :
  required = before ++ field :: after ->
  Forall (present data) before -> missing_or_empty data field ->
  List.find (Webhook.absent_or_falsy data) required = Some field.
Proof.
  intros -> Hb Hf. apply find_first.
  - eapply Forall_impl; [exact Hb|]. intros g Hg. now apply absent_or_falsy_false.
  - now apply absent_or_falsy_true.
Qed.

(** C6. [captura_imovel_geral] answers 400 with an error that names the
    first required field, in the order user_name, user_phone,
    imovel_referencia, visit_interest, summary, that is missing or empty,
    and leaves the store as it was. *)
Theorem captura_imovel_geral_names_first_missing `{PyRuntime}
    env store data (before after : list str) (field : str) :
  [lit "user_name"; lit "user_phone"; lit "imovel_referencia";
   lit "visit_interest"; lit "summary"] = before ++ field :: after ->
  Forall (present data) before ->
  missing_or_empty data field ->
  Webhook.captura_imovel_geral env store data =
  (Webhook.Failure 400 (lit "Campo obrigatório ausente: " ++ field), store).
Proof.
  intros Hreq Hb Hf.
  unfold Webhook.captura_imovel_geral, Webhook.required_imovel_geral.
  now rewrite (first_missing_found data _ before field after Hreq Hb Hf).
Qed.

Lemma captura_imovel_geral_names_first_missing_witness :
  payload_without_summary !! lit "summary" = None
  /\ @Webhook.captura_imovel_geral latin1_runtime sample_readings (Some ∅)
       payload_without_summary =
     (Webhook.Failure 400 (lit "Campo obrigatório ausente: summary"), Some ∅).
Proof.
  split; [reflexivity|].
  refine (@captura_imovel_geral_names_first_missing latin1_runtime sample_readings
            (Some ∅) payload_without_summary
            [lit "user_name"; lit "user_phone"; lit "imovel_referencia";
             lit "visit_interest"] [] (lit "summary") _ _ _).
  - reflexivity.
  - repeat constructor; eexists; (split; [reflexivity|reflexivity]).
  - left. reflexivity.
Defined.

Lemma str_in_In (s : str) (l : list str) : str_in s l = true <-> In s l.
Proof.
  unfold str_in. rewrite existsb_exists. split.
  - intros (t & Hin & Heq). apply bool_decide_eq_true in Heq. now subst.
  - intros Hin. exists s. split; [exact Hin|]. now apply bool_decide_eq_true.
Qed.

Lemma get_worksheet_tab store name sheet :
  Webhook.get_worksheet store = Some (name, sheet) -> is_Some (sheet !! name).
Proof.
  unfold Webhook.get_worksheet. destruct store as [sheet0|]; [|discriminate].
  destruct (List.find _ _) as [found|] eqn:Hfind.
  - intros [= <- <-]. apply find_some in Hfind as [_ Hsome].
    now apply bool_decide_eq_true in Hsome.
  - intros [= <- <-]. rewrite lookup_insert_eq. eauto.
Qed.

Lemma append_row_last name row sheet ws :
  sheet !! name = Some ws ->
  Webhook.append_row name row sheet = <[name := ws ++ [row]]> sheet.
Proof.
  intros Hws. unfold Webhook.append_row. apply map_eq. intros k.
  destruct (decide (name = k)) as [->|Hne].
  - now rewrite lookup_alter_eq, lookup_insert_eq, Hws.
  - now rewrite lookup_alter_ne, lookup_insert_ne.
Qed.

(** A store that can be reached always yields a worksheet; when none of the
    expected tabs exists the new one holds the header row alone. *)
Lemma get_worksheet_provisions sheet :
  Forall (fun name => sheet !! name = None) Webhook.worksheet_names ->
  Webhook.get_worksheet (Some sheet) =
  Some (lit "Leads_Todos_Imoveis",
        <[lit "Leads_Todos_Imoveis" := [List.map JStr Webhook.headers]]> sheet).
Proof.
  intros Hnone. unfold Webhook.get_worksheet.
  destruct (List.find _ _) as [found|] eqn:Hfind; [|reflexivity].
  apply find_some in Hfind as [Hin Hsome].
  apply bool_decide_eq_true in Hsome. rewrite Forall_forall in Hnone.
  rewrite (Hnone found) in Hsome; [|now apply list_elem_of_In].
  destruct Hsome; discriminate.
Qed.

(** C7. [captura_lancamento] answers 400 and leaves the store as it was
    whenever [lancamento] is not, letter for letter, Wind Oceanica or
    Tresor Camboinhas; when it answers with a captured lead, the row it
    appended to the worksheet has the launch name as its reference (fourth
    field) and the fixed type Lançamento (tenth field), without any call of
    the classifier. *)
Theorem captura_lancamento_exact_launch_name env store data :
  ((forall launch, ~ exact_launch data launch) ->
   exists error,
     Webhook.captura_lancamento env store data = (Webhook.Failure 400 error, store))
  /\ (forall lead_id lancamento timestamp store',
        Webhook.captura_lancamento env store data =
        (Webhook.LaunchCaptured lead_id lancamento timestamp, store') ->
        exists launch name sheet ws row,
          exact_launch data launch
          /\ lancamento = JStr launch
          /\ Webhook.get_worksheet store = Some (name, sheet)
          /\ sheet !! name = Some ws
          /\ store' = Some (<[name := ws ++ [row]]> sheet)
          /\ length row = 10%nat
          /\ row !! 3%nat = Some (JStr launch)
          /\ row !! 9%nat = Some (JStr (lit "Lançamento"))).
Proof.
  unfold Webhook.captura_lancamento.
  destruct (List.find _ _) as [field|] eqn:Hfind.
  { split; [eauto|intros ? ? ? ? [=]]. }
  apply find_none_all in Hfind.
  assert (Hl : present data (lit "lancamento")).
  { apply absent_or_falsy_false. rewrite Forall_forall in Hfind.
    apply Hfind. apply list_elem_of_In. right; right; left; reflexivity. }
  destruct Hl as (v & Hv & _). rewrite (lookup_total_correct _ _ _ Hv).
  destruct (Webhook.json_in v Webhook.valid_launches) eqn:Hvalid; cbn [negb].
  - assert (Hex : exists launch, v = JStr launch /\ exact_launch data launch).
    { destruct v as [| | | |s| |]; try discriminate Hvalid.
      exists s. split; [reflexivity|]. split; [|exact Hv].
      now apply str_in_In in Hvalid. }
    destruct Hex as (launch & -> & Hex). split.
    + intros Hno. destruct (Hno launch Hex).
    + destruct (Webhook.get_worksheet store) as [[name sheet]|] eqn:Hws;
        [|intros ? ? ? ? [=]].
      intros lead_id lancamento timestamp store' [= <- <- <- <-].
      destruct (get_worksheet_tab _ _ _ Hws) as [ws Hlook].
      eexists launch, name, sheet, ws, _.
      split; [exact Hex|]. split; [reflexivity|]. split; [reflexivity|].
      split; [exact Hlook|]. split; [now rewrite (append_row_last _ _ _ _ Hlook)|].
      repeat split.
  - split; [eauto|intros ? ? ? ? [=]].
Qed.

Lemma not_exact_launch (name : str) :
  name <> lit "Wind Oceanica" -> name <> lit "Tresor Camboinhas" ->
  forall launch, ~ exact_launch (launch_payload name) launch.
Proof.
  intros H1 H2 launch [Hin Hlook].
  assert (Hname : launch_payload name !! lit "lancamento" = Some (JStr name))
    by reflexivity.
  rewrite Hname in Hlook. injection Hlook as ->.
  destruct Hin as [<-|[<-|[]]]; congruence.
Qed.

Lemma captura_lancamento_exact_launch_name_witness :
  (exists error,
     Webhook.captura_lancamento sample_readings (Some ∅)
       (launch_payload (lit "Wind Oceanica Tower")) =
     (Webhook.Failure 400 error, Some ∅))
  /\ (exists error,
        Webhook.captura_lancamento sample_readings (Some ∅)
          (launch_payload (lit "wind oceanica")) =
        (Webhook.Failure 400 error, Some ∅))
  /\ exists lead_id timestamp store' name sheet ws row,
       Webhook.captura_lancamento sample_readings (Some ∅)
         (launch_payload (lit "Wind Oceanica")) =
       (Webhook.LaunchCaptured lead_id (JStr (lit "Wind Oceanica")) timestamp, store')
       /\ Webhook.get_worksheet (Some ∅) = Some (name, sheet)
       /\ sheet !! name = Some ws
       /\ store' = Some (<[name := ws ++ [row]]> sheet)
       /\ row !! 3%nat = Some (JStr (lit "Wind Oceanica"))
       /\ row !! 9%nat = Some (JStr (lit "Lançamento")).
Proof.
  split; [|split].
  - apply (proj1 (captura_lancamento_exact_launch_name sample_readings (Some ∅)
                    (launch_payload (lit "Wind Oceanica Tower")))).
    apply not_exact_launch; discriminate.
  - apply (proj1 (captura_lancamento_exact_launch_name sample_readings (Some ∅)
                    (launch_payload (lit "wind oceanica")))).
    apply not_exact_launch; discriminate.
  - destruct (Webhook.captura_lancamento sample_readings (Some ∅)
                (launch_payload (lit "Wind Oceanica"))) as [resp store'] eqn:Hrun.
    assert (Hresp : exists lead_id timestamp,
               resp = Webhook.LaunchCaptured lead_id (JStr (lit "Wind Oceanica")) timestamp).
    { apply (f_equal fst) in Hrun. cbn [fst] in Hrun. subst resp.
      eexists _, _. vm_compute. reflexivity. }
    destruct Hresp as (lead_id & timestamp & ->).
    destruct (proj2 (captura_lancamento_exact_launch_name sample_readings (Some ∅)
                       (launch_payload (lit "Wind Oceanica")))
                _ _ _ _ Hrun)
      as (launch & name & sheet & ws & row & _ & Hl & Hws & Hlook & Hst & _ & H3 & H9).
    injection Hl as <-.
    exists lead_id, timestamp, store', name, sheet, ws, row. auto 10.
Defined.

(** C8. A request to either ingestion endpoint leaves the store as it was
    or appends one row to the worksheet; that row has ten fields, one under
    each of the ten headers and in their order: timestamp, name, phone,
    reference, visit interest, summary, source, id, status, type; and its
    status is Novo. *)
Theorem persisted_row_has_ten_fields `{PyRuntime} env store data resp store' :
  Webhook.captura_lancamento env store data = (resp, store')
  \/ Webhook.captura_imovel_geral env store data = (resp, store') ->
  store' = store
  \/ exists name sheet ws row reference source tipo,
       Webhook.get_worksheet store = Some (name, sheet)
       /\ sheet !! name = Some ws
       /\ store' = Some (<[name := ws ++ [row]]> sheet)
       /\ length row = 10%nat
       /\ length Webhook.headers = 10%nat
       /\ row !! 8%nat = Some (JStr (lit "Novo"))
       /\ ((reference, source, tipo) =
           (data !!! lit "lancamento", lit "IA Gabriela - Lançamento", lit "Lançamento")
           \/ (reference, source, tipo) =
              (data !!! lit "imovel_referencia", lit "IA Gabriela - Imóvel",
               Webhook.identify_property_type (data !!! lit "imovel_referencia")))
       /\ zip Webhook.headers row =
          [(lit "Data/Hora", JStr (Webhook.format_timestamp (Webhook.clock_timestamp env)));
           (lit "Nome", data !!! lit "user_name");
           (lit "Telefone", data !!! lit "user_phone");
           (lit "Imóvel/Referência", reference);
           (lit "Interesse Visita", data !!! lit "visit_interest");
           (lit "Resumo Conversa", data !!! lit "summary");
           (lit "Origem", JStr source);
           (lit "ID", JStr (Webhook.generate_id (Webhook.clock_id env)
                              (Webhook.random_part env)));
           (lit "Status", JStr (lit "Novo"));
           (lit "Tipo Imóvel", JStr tipo)].
Proof.
  unfold Webhook.captura_lancamento, Webhook.captura_imovel_geral.
  intros [Hrun|Hrun];
    destruct (List.find _ _) as [field|]; try (injection Hrun as <- <-; now left).
  - destruct (negb _); [injection Hrun as <- <-; now left|].
    destruct (Webhook.get_worksheet store) as [[name sheet]|] eqn:Hws;
      [|injection Hrun as <- <-; now left].
    injection Hrun as <- <-. right.
    destruct (get_worksheet_tab _ _ _ Hws) as [ws Hlook].
    eexists name, sheet, ws, _, _, _, _.
    split; [reflexivity|]. split; [exact Hlook|].
    split; [now rewrite (append_row_last _ _ _ _ Hlook)|].
    split; [reflexivity|]. split; [reflexivity|]. split; [reflexivity|].
    split; [left; reflexivity|reflexivity].
  - destruct (Webhook.get_worksheet store) as [[name sheet]|] eqn:Hws;
      [|injection Hrun as <- <-; now left].
    injection Hrun as <- <-. right.
    destruct (get_worksheet_tab _ _ _ Hws) as [ws Hlook].
    eexists name, sheet, ws, _, _, _, _.
    split; [reflexivity|]. split; [exact Hlook|].
    split; [now rewrite (append_row_last _ _ _ _ Hlook)|].
    split; [reflexivity|]. split; [reflexivity|]. split; [reflexivity|].
    split; [right; reflexivity|reflexivity].
Qed.

Lemma persisted_row_has_ten_fields_witness :
  exists name sheet ws row,
    Webhook.get_worksheet (Some ∅) = Some (name, sheet)
    /\ sheet !! name = Some ws
    /\ snd (@Webhook.captura_imovel_geral latin1_runtime sample_readings (Some ∅)
              general_payload) = Some (<[name := ws ++ [row]]> sheet)
    /\ length row = 10%nat
    /\ row !! 8%nat = Some (JStr (lit "Novo")).
Proof.
  destruct (@persisted_row_has_ten_fields latin1_runtime sample_readings (Some ∅)
              general_payload _ _ (or_intror (surjective_pairing _)))
    as [Hsame|(name & sheet & ws & row & reference & source & tipo
               & Hws & Hlook & Hst & Hlen & _ & Hnovo & _ & _)].
  - vm_compute in Hsame. discriminate Hsame.
  - exists name, sheet, ws, row. auto.
Defined.

(** ** Falsy values of required fields *)

Lemma absent_or_falsy_delete data field v (g : str) :
  data !! field = Some v -> truthy v = false ->
  Webhook.absent_or_falsy (delete field data) g = Webhook.absent_or_falsy data g.
Proof.
  intros Hv Hf. unfold Webhook.absent_or_falsy.
  destruct (decide (field = g)) as [<-|Hne].
  - now rewrite lookup_delete_eq, Hv, Hf.
  - now rewrite lookup_delete_ne.
Qed.

Lemma find_ext {A} (p q : A -> bool) (l : list A) :
  (forall x, p x = q x) -> List.find p l = List.find q l.
Proof.
  intros Hpq. induction l as [|y l IH]; simpl; [reflexivity|].
  now rewrite Hpq, IH.
Qed.

Lemma find_first_missing required data named :
  List.find (Webhook.absent_or_falsy data) required = Some named
  <-> first_missing required data named.
Proof.
  split.
  - intros Hfind. apply find_first_inv in Hfind as (before & after & -> & Hx & Hb).
    exists before, after. split; [reflexivity|]. split.
    + eapply Forall_impl; [exact Hb|]. intros g Hg. now apply absent_or_falsy_false.
    + now apply absent_or_falsy_true.
  - intros (before & after & Hreq & Hb & Hm).
    now apply (first_missing_found data required before named after).
Qed.

Lemma falsy_field_is_found required data field v :
  In field required -> data !! field = Some v -> truthy v = false ->
  exists named,
    List.find (Webhook.absent_or_falsy data) required = Some named
    /\ List.find (Webhook.absent_or_falsy (delete field data)) required = Some named.
Proof.
  intros Hin Hv Hf.
  destruct (List.find (Webhook.absent_or_falsy data) required) as [named|] eqn:Hfind.
  - exists named. split; [reflexivity|]. rewrite <- Hfind. apply find_ext.
    intros g. now apply (absent_or_falsy_delete data field v).
  - apply find_none_all in Hfind. rewrite Forall_forall in Hfind.
    specialize (Hfind field (proj2 (list_elem_of_In _ _) Hin)).
    unfold Webhook.absent_or_falsy in Hfind. rewrite Hv, Hf in Hfind. discriminate.
Qed.

(** C10 (as amended). A required field bound to a value of false truth
    value is treated as an absent one: the request is answered 400, the
    store is left as it was, and the answer is the one the payload without
    that field gets.  The error names the first required field, in the
    order of the check, that is missing or empty; that is the field in
    question when every required field before it is present. *)
Theorem falsy_required_field_is_rejected `{PyRuntime} env store data field v :
  data !! field = Some v -> truthy v = false ->
  (In field Webhook.required_lancamento ->
   exists named,
     first_missing Webhook.required_lancamento data named
     /\ Webhook.captura_lancamento env store data =
        (Webhook.Failure 400 (lit "Campo obrigatório ausente: " ++ named), store)
     /\ Webhook.captura_lancamento env store (delete field data) =
        Webhook.captura_lancamento env store data
     /\ (forall before after,
           Webhook.required_lancamento = before ++ field :: after ->
           Forall (present data) before -> named = field))
  /\ (In field Webhook.required_imovel_geral ->
      exists named,
        first_missing Webhook.required_imovel_geral data named
        /\ Webhook.captura_imovel_geral env store data =
           (Webhook.Failure 400 (lit "Campo obrigatório ausente: " ++ named), store)
        /\ Webhook.captura_imovel_geral env store (delete field data) =
           Webhook.captura_imovel_geral env store data
        /\ (forall before after,
              Webhook.required_imovel_geral = before ++ field :: after ->
              Forall (present data) before -> named = field)).
Proof.
  intros Hv Hf.
  assert (Hm : missing_or_empty data field) by (right; eauto).
  split; intros Hin;
    destruct (falsy_field_is_found _ data field v Hin Hv Hf) as (named & H1 & H2);
    exists named; (split; [now apply find_first_missing|]);
    unfold Webhook.captura_lancamento, Webhook.captura_imovel_geral;
    rewrite H1, H2; (split; [reflexivity|]); (split; [reflexivity|]);
    intros before after Hreq Hb;
    pose proof (first_missing_found data _ before field after Hreq Hb Hm) as H3;
    congruence.
Qed.

Lemma falsy_required_field_is_rejected_witness :
  @Webhook.captura_imovel_geral latin1_runtime sample_readings (Some ∅)
    payload_false_interest =
  (Webhook.Failure 400 (lit "Campo obrigatório ausente: visit_interest"), Some ∅)
  /\ @Webhook.captura_imovel_geral latin1_runtime sample_readings (Some ∅)
       (delete (lit "visit_interest") payload_false_interest) =
     @Webhook.captura_imovel_geral latin1_runtime sample_readings (Some ∅)
       payload_false_interest.
Proof.
  destruct (proj2 (@falsy_required_field_is_rejected latin1_runtime sample_readings
                     (Some ∅) payload_false_interest (lit "visit_interest")
                     (JBool false) eq_refl eq_refl))
    as (named & _ & Hrun & Hdel & Hname).
  { right; right; right; left; reflexivity. }
  rewrite (Hname [lit "user_name"; lit "user_phone"; lit "imovel_referencia"]
             [lit "summary"]) in Hrun.
  - split; [exact Hrun|exact Hdel].
  - reflexivity.
  - repeat constructor; eexists; (split; [reflexivity|reflexivity]).
Defined.

(** With [user_name] missing as well, the error names [user_name], not the
    field bound to [false]. *)
Lemma falsy_field_is_not_always_named :
  payload_two_faults !! lit "visit_interest" = Some (JBool false)
  /\ truthy (JBool false) = false
  /\ @Webhook.captura_imovel_geral latin1_runtime sample_readings (Some ∅)
       payload_two_faults =
     (Webhook.Failure 400 (lit "Campo obrigatório ausente: user_name"), Some ∅)
  /\ @Webhook.captura_imovel_geral latin1_runtime sample_readings (Some ∅)
       payload_two_faults <>
     (Webhook.Failure 400 (lit "Campo obrigatório ausente: visit_interest"), Some ∅).
Proof.
  assert (Hrun : @Webhook.captura_imovel_geral latin1_runtime sample_readings (Some ∅)
                   payload_two_faults =
                 (Webhook.Failure 400 (lit "Campo obrigatório ausente: user_name"),
                  Some ∅)) by reflexivity.
  split; [reflexivity|]. split; [reflexivity|]. split; [exact Hrun|].
  rewrite Hrun. intros Heq. injection Heq as Heq. vm_compute in Heq. discriminate Heq.
Qed.

(** ** Floats: the interest rate is always a number *)

Local Open Scope Z_scope.

Lemma digits2_pos_size p : digits2_pos p = Pos.size p.
Proof. induction p; simpl; congruence. Qed.

Lemma Zdigits2_nonneg m : 0 <= Zdigits2 m.
Proof. destruct m; simpl; lia. Qed.

Lemma Zdigits2_gt m : 0 <= m -> m < 2 ^ Zdigits2 m.
Proof.
  destruct m as [|p|p]; simpl; intros Hm; try lia.
  rewrite digits2_pos_size.
  pose proof (Pos.size_gt p) as Hp.
  apply Pos2Z.pos_lt_pos in Hp. now rewrite Pos2Z.inj_pow in Hp.
Qed.

Lemma Zdigits2_le m k : 0 <= m < 2 ^ k -> 0 <= k -> Zdigits2 m <= k.
Proof.
  destruct m as [|p|p]; simpl; intros [Hm Hlt] Hk; try lia.
  rewrite digits2_pos_size.
  pose proof (Pos.size_le p) as Hp.
  apply Pos2Z.pos_le_pos in Hp. rewrite Pos2Z.inj_pow in Hp.
  destruct (Z_lt_le_dec k (Z.pos (Pos.size p))) as [Hlt'|]; [|assumption].
  exfalso.
  assert (Hpow : 2 ^ (k + 1) <= 2 ^ Z.pos (Pos.size p))
    by (apply Z.pow_le_mono_r; lia).
  rewrite Z.pow_add_r in Hpow by lia.
  change (Z.pos p~0) with (2 * Z.pos p) in Hp. lia.
Qed.

Lemma shr_1_m mrs : 0 <= shr_m mrs -> shr_m (shr_1 mrs) = shr_m mrs / 2.
Proof.
  destruct mrs as [m r s]; simpl. intros Hm.
  rewrite <- Z.div2_div.
  destruct m as [|[p|p|]|p]; simpl; try reflexivity; lia.
Qed.

Lemma iter_shr_1_m p : forall mrs, 0 <= shr_m mrs ->
  shr_m (SpecFloat.iter_pos shr_1 p mrs) = shr_m mrs / 2 ^ Z.pos p.
Proof.
  induction p as [p IH|p IH|]; intros mrs Hm; simpl SpecFloat.iter_pos.
  - assert (H1 : 0 <= shr_m (shr_1 mrs))
      by (rewrite shr_1_m by assumption; apply Z.div_pos; lia).
    assert (H2 : 0 <= shr_m (SpecFloat.iter_pos shr_1 p (shr_1 mrs)))
      by (rewrite IH by assumption; apply Z.div_pos; lia).
    rewrite IH, IH, shr_1_m by assumption.
    rewrite !Z.div_div by lia. f_equal.
    replace (Z.pos p~1) with (1 + Z.pos p + Z.pos p) by lia.
    rewrite !Z.pow_add_r by lia. change (2 ^ 1) with 2. ring.
  - assert (H2 : 0 <= shr_m (SpecFloat.iter_pos shr_1 p mrs))
      by (rewrite IH by assumption; apply Z.div_pos; lia).
    rewrite IH, IH by assumption.
    rewrite !Z.div_div by lia. f_equal.
    replace (Z.pos p~0) with (Z.pos p + Z.pos p) by lia.
    rewrite !Z.pow_add_r by lia. ring.
  - rewrite shr_1_m by assumption. reflexivity.
Qed.

Lemma shr_record_of_loc_m m l : shr_m (shr_record_of_loc m l) = m.
Proof. destruct l as [|[]]; reflexivity. Qed.

Lemma fexp64 k : fexp 53 1024 k = Z.max (k - 53) (-1074).
Proof. reflexivity. Qed.

(** After a shift to the format's exponent the mantissa has at most 53
    digits, and the exponent is the larger of the old one and the one the
    format asks for. *)
Lemma shr_fexp_bound m e l :
  0 <= m ->
  0 <= shr_m (fst (shr_fexp 53 1024 m e l)) < 2 ^ 53
  /\ snd (shr_fexp 53 1024 m e l) = Z.max e (fexp 53 1024 (Zdigits2 m + e)).
Proof.
  intros Hm. unfold shr_fexp, shr.
  pose proof (Zdigits2_gt m Hm) as Hd.
  pose proof (Zdigits2_nonneg m) as Hd0.
  rewrite fexp64.
  set (d := Zdigits2 m) in *.
  destruct (Z.max (d + e - 53) (-1074) - e) as [|n|n] eqn:Hn; simpl fst; simpl snd.
  - rewrite shr_record_of_loc_m. split; [|lia].
    split; [assumption|].
    apply Z.lt_le_trans with (1 := Hd). apply Z.pow_le_mono_r; lia.
  - rewrite iter_shr_1_m by (rewrite shr_record_of_loc_m; assumption).
    rewrite shr_record_of_loc_m. split; [|lia].
    split; [apply Z.div_pos; lia|].
    apply Z.div_lt_upper_bound; [lia|].
    rewrite <- Z.pow_add_r by lia.
    apply Z.lt_le_trans with (1 := Hd). apply Z.pow_le_mono_r; lia.
  - rewrite shr_record_of_loc_m. split; [|lia].
    split; [assumption|].
    apply Z.lt_le_trans with (1 := Hd). apply Z.pow_le_mono_r; lia.
Qed.

Lemma round_nearest_even_bound m l :
  m <= round_nearest_even m l <= m + 1.
Proof. destruct l as [|[]]; simpl; try lia. destruct (Z.even m); lia. Qed.

(** Rounding a non-negative binary number whose exponent is small enough
    gives a finite float. *)
Lemma binary_round_aux_finite sx mx ex lx :
  0 <= mx ->
  Z.max ex (fexp 53 1024 (Zdigits2 mx + ex)) + 1 <= 971 ->
  finite_below (Z.max ex (fexp 53 1024 (Zdigits2 mx + ex)) + 1)
    (binary_round_aux 53 1024 sx mx ex lx).
Proof.
  intros Hm HE. unfold binary_round_aux.
  destruct (shr_fexp_bound mx ex lx Hm) as [[H1 H2] H3].
  destruct (shr_fexp 53 1024 mx ex lx) as [mrs' e'] eqn:E1. simpl in H1, H2, H3.
  pose proof (round_nearest_even_bound (shr_m mrs') (loc_of_shr_record mrs')) as Hr.
  set (m1 := round_nearest_even (shr_m mrs') (loc_of_shr_record mrs')) in *.
  assert (Hm1 : 0 <= m1) by lia.
  destruct (shr_fexp_bound m1 e' loc_Exact Hm1) as [[H4 H5] H6].
  destruct (shr_fexp 53 1024 m1 e' loc_Exact) as [mrs'' e''] eqn:E2.
  simpl in H4, H5, H6.
  assert (Hd1 : Zdigits2 m1 <= 54).
  { apply Zdigits2_le; [|lia]. change (2 ^ 54) with (2 * 2 ^ 53). lia. }
  rewrite fexp64 in *.
  assert (He'' : e'' <= e' + 1) by lia.
  destruct (shr_m mrs'') as [|m|m]; [exact I| |lia].
  subst e'. replace (e'' <=? 1024 - 53) with true by (symmetry; apply Z.leb_le; lia).
  simpl. lia.
Qed.

(** The quotient of a positive integer by one at least as large is a
    finite float. *)
Lemma SFdiv_finite a b :
  (a <= b)%positive ->
  finite_below 1 (SFdiv 53 1024 (S754_finite false a 0) (S754_finite false b 0)).
Proof.
  intros Hab. unfold SFdiv, SFdiv_core_binary.
  set (e' := Z.min _ _).
  assert (He' : e' <= 0) by (unfold e'; lia).
  assert (He'' : -1074 <= e').
  { unfold e'. rewrite fexp64.
    pose proof (Zdigits2_nonneg (Z.pos b)).
    assert (Zdigits2 (Z.pos a) <= Zdigits2 (Z.pos b)).
    { apply Zdigits2_le; [|assumption]. split; [lia|].
      apply Z.le_lt_trans with (Z.pos b); [lia|]. apply Zdigits2_gt; lia. }
    lia. }
  set (m' := match 0 - 0 - e' with Z.pos _ => _ | _ => _ end).
  assert (Hm' : m' = Z.pos a * 2 ^ (- e')).
  { unfold m'. replace (0 - 0 - e') with (- e') by lia.
    destruct (- e') as [|k|k] eqn:Ek; try lia.
    rewrite Z.shiftl_mul_pow2 by lia. reflexivity. }
  clearbody m' e'.
  pose proof (Z.div_eucl_eq m' (Z.pos b) ltac:(lia)) as Heq.
  pose proof (Z.mod_pos_bound m' (Z.pos b) ltac:(lia)) as Hmod.
  unfold Z.modulo in Hmod.
  destruct (Z.div_eucl m' (Z.pos b)) as [q r].
  assert (Hp : 0 < 2 ^ (- e')) by (apply Z.pow_pos_nonneg; lia).
  assert (Hq0 : 0 <= q) by nia.
  assert (Hq1 : q <= 2 ^ (- e')) by nia.
  assert (Hdq : Zdigits2 q <= - e' + 1).
  { apply Zdigits2_le; [|lia]. rewrite Z.pow_add_r by lia. lia. }
  pose proof (Zdigits2_nonneg q).
  pose proof (binary_round_aux_finite (xorb false false) q e'
                (new_location (Z.pos b) r) Hq0) as HF.
  rewrite fexp64 in HF.
  assert (HE : Z.max e' (Z.max (Zdigits2 q + e' - 53) (-1074)) + 1 <= 1) by lia.
  specialize (HF ltac:(lia)).
  destruct (binary_round_aux 53 1024 (xorb false false) q e'
              (new_location (Z.pos b) r)); unfold finite_below in *; try tauto.
  lia.
Qed.

Lemma SFmul_100_finite x :
  finite_below 1 x -> finite_below 9 (float_mul_int x 100).
Proof.
  unfold float_mul_int.
  change (float_of_int 100) with (S754_finite false 7036874417766400 (-46)).
  destruct x as [s|s| |s m e]; simpl; try tauto.
  intros [Hm He].
  assert (Hp : 0 <= Z.pos (m * 7036874417766400)) by lia.
  pose proof (binary_round_aux_finite (xorb s false) _ (e + -46) loc_Exact Hp) as HF.
  assert (Hd : Zdigits2 (Z.pos (m * 7036874417766400)) <= 106).
  { apply Zdigits2_le; [|lia]. rewrite Pos2Z.inj_mul.
    change (2 ^ 106) with (2 ^ 53 * 2 ^ 53).
    assert (7036874417766400 < 2 ^ 53) by reflexivity. nia. }
  pose proof (Zdigits2_nonneg (Z.pos (m * 7036874417766400))).
  rewrite fexp64 in HF. specialize (HF ltac:(lia)).
  destruct (binary_round_aux 53 1024 (xorb s false) _ (e + -46) loc_Exact);
    unfold finite_below in *; try tauto.
  lia.
Qed.

(** The rate of [a] leads out of [b] is computed without an exception. *)
Lemma rate_returns (a b : Z) :
  0 <= a <= b -> 0 < b ->
  exists taxa, (q ← int_truediv a b; py_round (float_mul_int q 100)) = Return taxa.
Proof.
  intros Ha Hb. unfold int_truediv.
  replace (b =? 0) with false by (symmetry; apply Z.eqb_neq; lia).
  cbn [mbind outcome_bind].
  assert (HF : finite_below 1 (SFdiv 53 1024 (exact_int a) (exact_int b))).
  { destruct b as [|pb|pb]; try lia. destruct a as [|pa|pa]; try lia.
    - exact I.
    - apply SFdiv_finite. lia. }
  apply SFmul_100_finite in HF.
  destruct (float_mul_int _ 100) as [s|s| |s m e]; simpl in HF; try tauto;
    cbn [py_round]; eauto.
Qed.

(** ** The interest rate is a percentage *)

Lemma shr_fexp_value m e l :
  0 <= m ->
  shr_m (fst (shr_fexp 53 1024 m e l)) =
    m / 2 ^ Z.max 0 (fexp 53 1024 (Zdigits2 m + e) - e)
  /\ snd (shr_fexp 53 1024 m e l) = e + Z.max 0 (fexp 53 1024 (Zdigits2 m + e) - e).
Proof.
  intros Hm. unfold shr_fexp, shr.
  destruct (fexp 53 1024 (Zdigits2 m + e) - e) as [|n|n] eqn:Hn; simpl fst; simpl snd.
  - rewrite shr_record_of_loc_m. change (Z.max 0 0) with 0.
    rewrite Z.div_1_r. split; [reflexivity|lia].
  - rewrite iter_shr_1_m by (rewrite shr_record_of_loc_m; assumption).
    rewrite shr_record_of_loc_m. replace (Z.max 0 (Z.pos n)) with (Z.pos n) by lia.
    split; reflexivity.
  - rewrite shr_record_of_loc_m. replace (Z.max 0 (Z.neg n)) with 0 by lia.
    rewrite Z.div_1_r. split; [reflexivity|lia].
Qed.

(** The rounded number is at most one unit in the last place above the
    number that was rounded. *)
Lemma binary_round_aux_value sx mx ex lx :
  0 <= mx ->
  Z.max ex (fexp 53 1024 (Zdigits2 mx + ex)) + 1 <= 971 ->
  match binary_round_aux 53 1024 sx mx ex lx with
  | S754_zero s => s = sx
  | S754_finite s m e =>
    s = sx /\ exists n, 0 <= n /\ e = ex + n
      /\ Z.pos m * 2 ^ n <= mx + 2 ^ Z.max 0 (fexp 53 1024 (Zdigits2 mx + ex) - ex)
  | _ => False
  end.
Proof.
  intros Hm HE. unfold binary_round_aux.
  destruct (shr_fexp_bound mx ex lx Hm) as [[H1 H2] H3].
  destruct (shr_fexp_value mx ex lx Hm) as [V1 V2].
  destruct (shr_fexp 53 1024 mx ex lx) as [mrs' e'] eqn:E1.
  simpl in H1, H2, H3, V1, V2.
  pose proof (round_nearest_even_bound (shr_m mrs') (loc_of_shr_record mrs')) as Hr.
  set (m1 := round_nearest_even (shr_m mrs') (loc_of_shr_record mrs')) in *.
  assert (Hm1 : 0 <= m1) by lia.
  destruct (shr_fexp_bound m1 e' loc_Exact Hm1) as [[H4 H5] H6].
  destruct (shr_fexp_value m1 e' loc_Exact Hm1) as [V3 V4].
  destruct (shr_fexp 53 1024 m1 e' loc_Exact) as [mrs'' e''] eqn:E2.
  simpl in H4, H5, H6, V3, V4.
  assert (Hd1 : Zdigits2 m1 <= 54).
  { apply Zdigits2_le; [|lia]. change (2 ^ 54) with (2 * 2 ^ 53). lia. }
  set (n1 := Z.max 0 (fexp 53 1024 (Zdigits2 mx + ex) - ex)) in *.
  set (n2 := Z.max 0 (fexp 53 1024 (Zdigits2 m1 + e') - e')) in *.
  rewrite fexp64 in *.
  assert (He'' : e'' <= e' + 1) by lia.
  destruct (shr_m mrs'') as [|m|m] eqn:Hm''; [reflexivity| |lia].
  replace (e'' <=? 1024 - 53) with true by (symmetry; apply Z.leb_le; lia).
  split; [reflexivity|]. exists (n1 + n2). split; [lia|]. split; [lia|].
  assert (P1 : 0 < 2 ^ n1) by (apply Z.pow_pos_nonneg; lia).
  assert (P2 : 0 < 2 ^ n2) by (apply Z.pow_pos_nonneg; lia).
  rewrite Z.pow_add_r by lia.
  assert (A : Z.pos m * 2 ^ n2 <= m1).
  { rewrite V3. rewrite Z.mul_comm. apply Z.mul_div_le. exact P2. }
  assert (B : shr_m mrs' * 2 ^ n1 <= mx).
  { rewrite V1. rewrite Z.mul_comm. apply Z.mul_div_le. exact P1. }
  nia.
Qed.

Lemma SFdiv_near_unit a b :
  (a <= b)%positive ->
  near_unit (SFdiv 53 1024 (S754_finite false a 0) (S754_finite false b 0)).
Proof.
  intros Hab. unfold SFdiv, SFdiv_core_binary.
  set (e' := Z.min _ _).
  assert (Hd : Zdigits2 (Z.pos a) <= Zdigits2 (Z.pos b)).
  { apply Zdigits2_le; [|apply Zdigits2_nonneg]. split; [lia|].
    apply Z.le_lt_trans with (Z.pos b); [lia|]. apply Zdigits2_gt; lia. }
  assert (He' : -1074 <= e' <= -53) by (unfold e'; rewrite fexp64; lia).
  set (m' := match 0 - 0 - e' with Z.pos _ => _ | _ => _ end).
  assert (Hm' : m' = Z.pos a * 2 ^ (- e')).
  { unfold m'. replace (0 - 0 - e') with (- e') by lia.
    destruct (- e') as [|k|k] eqn:Ek; try lia.
    rewrite Z.shiftl_mul_pow2 by lia. reflexivity. }
  clearbody m' e'.
  pose proof (Z.div_eucl_eq m' (Z.pos b) ltac:(lia)) as Heq.
  pose proof (Z.mod_pos_bound m' (Z.pos b) ltac:(lia)) as Hmod.
  unfold Z.modulo in Hmod.
  destruct (Z.div_eucl m' (Z.pos b)) as [q r].
  assert (Hp : 0 < 2 ^ (- e')) by (apply Z.pow_pos_nonneg; lia).
  assert (Hq0 : 0 <= q) by nia.
  assert (Hq1 : q <= 2 ^ (- e')) by nia.
  assert (Hdq : Zdigits2 q <= - e' + 1).
  { apply Zdigits2_le; [|lia]. rewrite Z.pow_add_r by lia. lia. }
  pose proof (Zdigits2_nonneg q) as Hdq0.
  pose proof (binary_round_aux_value (xorb false false) q e'
                (new_location (Z.pos b) r) Hq0) as HV.
  rewrite fexp64 in HV. specialize (HV ltac:(lia)).
  destruct (binary_round_aux 53 1024 (xorb false false) q e'
              (new_location (Z.pos b) r)) as [s|s| |s m e]; try exact HV.
  destruct HV as (-> & n & Hn & -> & HV). split; [reflexivity|].
  assert (Hn1 : 2 ^ Z.max 0 (Z.max (Zdigits2 q + e' - 53) (-1074) - e')
                <= 2 ^ (- e' - 52)) by (apply Z.pow_le_mono_r; lia).
  exists (- e'), n.
  assert (Hbound : Z.pos m * 2 ^ n <= 2 ^ (- e') + 2 ^ (- e' - 52)) by lia.
  split; [lia|]. split; [|split; [lia|exact Hbound]].
  split; [exact Hn|].
  destruct (Z_le_gt_dec n (- e')) as [|Hgt]; [assumption|exfalso].
  assert (2 ^ (- e' + 1) <= 2 ^ n) by (apply Z.pow_le_mono_r; lia).
  assert (2 ^ (- e' - 52) < 2 ^ (- e')) by (apply Z.pow_lt_mono_r; lia).
  rewrite Z.pow_add_r in H by lia. nia.
Qed.

Lemma round_half_even_percent (m : positive) (e n K : Z) :
  0 <= n -> 0 <= K -> e = n - K ->
  2 * (Z.pos m * 2 ^ n) < 201 * 2 ^ K ->
  0 <= round_half_even m e <= 100.
Proof.
  intros Hn HK He Hlt. unfold round_half_even.
  assert (Pn : 0 < 2 ^ n) by (apply Z.pow_pos_nonneg; lia).
  assert (PK : 0 < 2 ^ K) by (apply Z.pow_pos_nonneg; lia).
  destruct e as [|p|p].
  - assert (n = K) by lia. subst K. change (2 ^ 0) with 1. nia.
  - assert (Hsplit : n = Z.pos p + K) by lia.
    rewrite Hsplit, Z.pow_add_r in Hlt by lia.
    assert (Pp : 0 < 2 ^ Z.pos p) by (apply Z.pow_pos_nonneg; lia).
    nia.
  - rewrite Z.pow_pos_fold.
    assert (Hsplit : K = Z.pos p + n) by lia.
    rewrite Hsplit, Z.pow_add_r in Hlt by lia.
    set (d := 2 ^ Z.pos p) in *.
    assert (Pd : 0 < d) by (apply Z.pow_pos_nonneg; lia).
    assert (Hm : 2 * Z.pos m < 201 * d) by nia.
    pose proof (Z.div_mod (Z.pos m) d ltac:(lia)) as Hdm.
    pose proof (Z.mod_pos_bound (Z.pos m) d Pd) as Hr.
    set (q := Z.pos m / d) in *. set (r := Z.pos m mod d) in *.
    assert (Hq0 : 0 <= q) by (apply Z.div_pos; lia).
    assert (Hq : q <= 100) by nia.
    destruct (2 * r ?= d) eqn:Hcmp.
    + apply Z.compare_eq in Hcmp. destruct (Z.even q) eqn:Hev; [lia|].
      assert (q <> 100) by (intros ->; discriminate Hev). lia.
    + lia.
    + apply Z.compare_gt_iff in Hcmp. assert (q <> 100) by nia. lia.
Qed.

Lemma rate_of_near_unit x :
  near_unit x ->
  exists taxa, py_round (float_mul_int x 100) = Return taxa /\ 0 <= taxa <= 100.
Proof.
  unfold float_mul_int.
  change (float_of_int 100) with (S754_finite false 7036874417766400 (-46)).
  destruct x as [s|s| |s m e]; simpl; try tauto.
  - intros ->. exists 0. split; [reflexivity|lia].
  - intros (-> & k & n & Hk & Hn & -> & Hval).
    assert (Pn : 0 < 2 ^ n) by (apply Z.pow_pos_nonneg; lia).
    assert (Hk52 : 2 ^ (k - 52) < 2 ^ k) by (apply Z.pow_lt_mono_r; lia).
    assert (Hm : Z.pos m < 2 ^ (k + 1 - n)).
    { apply Z.mul_lt_mono_pos_r with (p := 2 ^ n); [exact Pn|].
      rewrite <- Z.pow_add_r by lia. replace (k + 1 - n + n) with (k + 1) by lia.
      rewrite Z.pow_add_r by lia. lia. }
    assert (Hp : 0 <= Z.pos (m * 7036874417766400)) by lia.
    assert (Hd : Zdigits2 (Z.pos (m * 7036874417766400)) <= k + 54 - n).
    { apply Zdigits2_le; [|lia]. rewrite Pos2Z.inj_mul.
      replace (k + 54 - n) with (k + 1 - n + 53) by lia. rewrite Z.pow_add_r by lia.
      assert (7036874417766400 < 2 ^ 53) by reflexivity.
      assert (0 < 2 ^ (k + 1 - n)) by (apply Z.pow_pos_nonneg; lia). nia. }
    pose proof (Zdigits2_nonneg (Z.pos (m * 7036874417766400))) as Hd0.
    pose proof (binary_round_aux_value (xorb false false)
                  (Z.pos (m * 7036874417766400)) (n - k + -46) loc_Exact Hp) as HV.
    rewrite fexp64 in HV. specialize (HV ltac:(lia)).
    destruct (binary_round_aux 53 1024 (xorb false false)
                (Z.pos (m * 7036874417766400)) (n - k + -46) loc_Exact)
      as [s|s| |s mp ep]; try tauto.
    + exists 0. split; [reflexivity|lia].
    + destruct HV as (-> & n' & Hn' & -> & HV). cbn [py_round xorb].
      eexists. split; [reflexivity|].
      apply (round_half_even_percent mp _ n' (k + 46 - n)); [lia|lia|lia|].
      assert (Hn1 : 2 ^ Z.max 0 (Z.max (Zdigits2 (Z.pos (m * 7036874417766400))
                                          + (n - k + -46) - 53) (-1074)
                                   - (n - k + -46))
                    <= 2 ^ (k + 1 - n)) by (apply Z.pow_le_mono_r; lia).
      rewrite Pos2Z.inj_mul in HV.
      apply Z.mul_lt_mono_pos_r with (p := 2 ^ n); [exact Pn|].
      replace (201 * 2 ^ (k + 46 - n) * 2 ^ n) with (201 * 2 ^ (k + 46))
        by (rewrite <- Z.mul_assoc, <- Z.pow_add_r by lia; f_equal; f_equal; lia).
      assert (E1 : 2 ^ (k + 1 - n) * 2 ^ n = 2 ^ (k - 6) * 2 ^ 7)
        by (rewrite <- !Z.pow_add_r by lia; f_equal; lia).
      assert (E2 : 2 ^ (k + 46) = 2 ^ (k - 6) * 2 ^ 52)
        by (rewrite <- Z.pow_add_r by lia; f_equal; lia).
      assert (E3 : 2 ^ k = 2 ^ (k - 6) * 2 ^ 6)
        by (rewrite <- Z.pow_add_r by lia; f_equal; lia).
      assert (E4 : 2 ^ (k - 52) * 2 ^ 46 = 2 ^ (k - 6))
        by (rewrite <- Z.pow_add_r by lia; f_equal; lia).
      assert (P6 : 0 < 2 ^ (k - 6)) by (apply Z.pow_pos_nonneg; lia).
      change 7036874417766400 with (100 * 2 ^ 46) in HV.
      set (X := Z.pos m * 2 ^ n) in *. set (Y := Z.pos mp * 2 ^ n') in *.
      set (U := 2 ^ Z.max _ _) in *.
      assert (HY : Y * 2 ^ n <= X * (100 * 2 ^ 46) + 2 ^ (k - 6) * 2 ^ 7).
      { rewrite <- E1. unfold X. nia. }
      rewrite E2. 
      assert (HX : X * (100 * 2 ^ 46) <= 2 ^ (k - 6) * (2 ^ 6 * (100 * 2 ^ 46)) + 100 * 2 ^ (k - 6)).
      { rewrite <- E4. rewrite E3 in Hval. nia. }
      change (2 ^ 7) with 128 in *. change (2 ^ 52) with 4503599627370496 in *.
      change (2 ^ 6) with 64 in *. change (2 ^ 46) with 70368744177664 in *.
      nia.
Qed.

Lemma SFdiv_same a :
  SFdiv 53 1024 (S754_finite false a 0) (S754_finite false a 0) =
  S754_finite false 4503599627370496 (-52).
Proof.
  unfold SFdiv, SFdiv_core_binary.
  replace (Zdigits2 (Z.pos a) + 0 - (Zdigits2 (Z.pos a) + 0)) with 0 by lia.
  change (Z.min (fexp 53 1024 0) (0 - 0)) with (-53).
  change (0 - 0 - -53) with 53. cbv iota.
  rewrite Z.shiftl_mul_pow2 by lia.
  pose proof (Z.div_eucl_eq (Z.pos a * 2 ^ 53) (Z.pos a) ltac:(lia)) as Heq.
  pose proof (Z.mod_pos_bound (Z.pos a * 2 ^ 53) (Z.pos a) ltac:(lia)) as Hmod.
  unfold Z.modulo in Hmod.
  destruct (Z.div_eucl (Z.pos a * 2 ^ 53) (Z.pos a)) as [q r].
  assert (Hq : q = 2 ^ 53) by nia. assert (Hr : r = 0) by nia. subst q r.
  unfold new_location, new_location_even, new_location_odd.
  destruct (Z.even (Z.pos a)); reflexivity.
Qed.

(** The rate of [a] leads out of [b] is a whole number of percent between
    0 and 100; it is 0 for no lead and 100 for all of them. *)
Lemma rate_bounded (a b : Z) :
  0 <= a <= b -> 0 < b ->
  exists taxa,
    (q ← int_truediv a b; py_round (float_mul_int q 100)) = Return taxa
    /\ 0 <= taxa <= 100
    /\ (a = 0 -> taxa = 0)
    /\ (a = b -> taxa = 100).
Proof.
  intros Ha Hb. unfold int_truediv.
  replace (b =? 0) with false by (symmetry; apply Z.eqb_neq; lia).
  cbn [mbind outcome_bind].
  destruct b as [|pb|pb]; try lia. destruct a as [|pa|pa]; try lia.
  - exists 0. split; [reflexivity|]. split; [lia|]. split; [reflexivity|discriminate].
  - destruct (rate_of_near_unit (SFdiv 53 1024 (exact_int (Z.pos pa))
                                   (exact_int (Z.pos pb))))
      as (taxa & Htaxa & Hbound).
    { apply SFdiv_near_unit. lia. }
    exists taxa. split; [exact Htaxa|]. split; [exact Hbound|].
    split; [discriminate|].
    intros [= ->]. cbn [exact_int] in Htaxa. rewrite SFdiv_same in Htaxa.
    vm_compute in Htaxa. congruence.
Qed.

(** ** Aggregation *)

Lemma py_sum_from (l : list Z) (acc : Z) : fold_left Z.add l acc = acc + py_sum l.
Proof.
  unfold py_sum. revert acc.
  induction l as [|x l IH]; intros acc; simpl; [lia|].
  rewrite (IH (acc + x)), (IH (0 + x)). lia.
Qed.

Lemma py_sum_ones {A} (l : list A) :
  py_sum (List.map (fun _ => 1) l) = Z.of_nat (length l).
Proof.
  induction l as [|x l IH]; [reflexivity|].
  unfold py_sum. cbn [List.map fold_left length].
  rewrite py_sum_from, IH. lia.
Qed.

Lemma filter_length_le {A} (p : A -> bool) (l : list A) :
  (length (List.filter p l) <= length l)%nat.
Proof. induction l as [|x l IH]; simpl; [lia|]. destruct (p x); simpl; lia. Qed.

Lemma reference_is_refers_to `{PyRuntime} name row :
  Webhook.reference_is name row = true <-> refers_to name row.
Proof.
  unfold Webhook.reference_is, refers_to.
  destruct (row !! lit "Imóvel/Referência") as [[s|z|f]|]; try (split; congruence).
  unfold str_eqb. rewrite bool_decide_eq_true. split; congruence.
Qed.

Lemma count_references_filter `{PyRuntime} name data :
  Z.of_nat (length (List.filter (Webhook.reference_is name) data)) =
  count_references name data.
Proof.
  unfold count_references. f_equal.
  induction data as [|row data IH]; [reflexivity|]. cbn [List.filter].
  destruct (Webhook.reference_is name row) eqn:Href.
  - apply reference_is_refers_to in Href. rewrite filter_cons_True by assumption.
    simpl. now rewrite IH.
  - rewrite filter_cons_False; [exact IH|].
    intros Hr. apply reference_is_refers_to in Hr. congruence.
Qed.

Lemma is_text_cell_eqb (k key : cell) :
  cell_eqb k key = true -> is_text k = is_text key.
Proof. destruct k, key; cbn; congruence. Qed.

Lemma forallb_keys_dict_count (P : cell -> bool) key d :
  (forall k, cell_eqb k key = true -> P k = P key) ->
  forallb P (List.map fst (dict_count key d)) = forallb P (List.map fst d) && P key.
Proof.
  intros HP. induction d as [|[k n] d IH].
  - cbn. now rewrite andb_true_r.
  - cbn [dict_count]. destruct (cell_eqb k key) eqn:E; cbn [List.map forallb fst].
    + rewrite <- (HP k E). destruct (P k), (forallb P (List.map fst d)); reflexivity.
    + rewrite IH. now rewrite andb_assoc.
Qed.

Lemma forallb_keys_tipos_count (P : cell -> bool) data d :
  (forall k key, cell_eqb k key = true -> P k = P key) ->
  forallb P (List.map fst
               (fold_left (fun counts row => dict_count (tipo_of row) counts) data d)) =
  forallb P (List.map fst d) && forallb (fun row => P (tipo_of row)) data.
Proof.
  intros HP. revert d. induction data as [|row data IH]; intros d.
  - cbn. now rewrite andb_true_r.
  - cbn [fold_left forallb]. rewrite IH, forallb_keys_dict_count by (intros k; apply HP).
    now rewrite andb_assoc.
Qed.

(** The keys of [tipos_imovel] can be sorted exactly when the types of the
    records are all text or all numbers. *)
Lemma can_be_sorted_tipos_count `{PyRuntime} data :
  can_be_sorted (List.map fst (Webhook.tipos_count data)) = types_sortable data.
Proof.
  unfold can_be_sorted, types_sortable, Webhook.tipos_count.
  change (fold_left _ data []) with
    (fold_left (fun counts row => dict_count (tipo_of row) counts) data []).
  rewrite !forallb_keys_tipos_count.
  - reflexivity.
  - intros k key E. now rewrite (is_text_cell_eqb k key E).
  - exact is_text_cell_eqb.
Qed.

(** On a sheet with leads whose types can be sorted the endpoint answers
    with the view. *)
Lemma dados_dashboard_view `{PyRuntime} now data :
  data <> [] ->
  types_sortable data = true ->
  exists taxa,
    (q ← int_truediv (Z.of_nat (length (List.filter Webhook.interested data)))
           (Z.of_nat (length data));
     py_round (float_mul_int q 100)) = Return taxa
    /\ Webhook.dados_dashboard now (Some data) =
       Webhook.Aggregate {|
         Webhook.total_leads := Z.of_nat (length data);
         Webhook.interesse_visita :=
           Z.of_nat (length (List.filter Webhook.interested data));
         Webhook.taxa_interesse := taxa;
         Webhook.wind_oceanica := count_references (lit "Wind Oceanica") data;
         Webhook.tresor_camboinhas := count_references (lit "Tresor Camboinhas") data;
         Webhook.tipos_imovel := Webhook.tipos_count data;
         Webhook.dados := data;
         Webhook.ultima_atualizacao := Webhook.format_timestamp now
       |}.
Proof.
  intros Hne Hsort.
  assert (Hlen : 0 < Z.of_nat (length data)) by (destruct data; [congruence|rewrite length_cons; lia]).
  pose proof (filter_length_le Webhook.interested data) as Hle.
  assert (Hbound : 0 <= Z.of_nat (length (List.filter Webhook.interested data))
                   <= Z.of_nat (length data)) by lia.
  destruct (rate_returns _ _ Hbound Hlen) as [taxa Htaxa].
  exists taxa. split; [exact Htaxa|].
  unfold Webhook.dados_dashboard.
  destruct data as [|row data]; [congruence|]. cbn [is_nil].
  rewrite !py_sum_ones, !count_references_filter.
  replace (0 <? Z.of_nat (length (row :: data))) with true
    by (symmetry; apply Z.ltb_lt; exact Hlen).
  rewrite Htaxa. cbn [mbind outcome_bind]. unfold Webhook.jsonify.
  cbn [Webhook.tipos_imovel]. now rewrite can_be_sorted_tipos_count, Hsort.
Qed.

(** When the types of the records mix text and numbers, [jsonify] raises and
    the endpoint answers 500 with the message of the exception. *)
Lemma dados_dashboard_unsortable `{PyRuntime} now data :
  types_sortable data = false ->
  Webhook.dados_dashboard now (Some data) =
  Webhook.Failure 500
    (type_error_str (Unorderable (List.map fst (Webhook.tipos_count data)))).
Proof.
  intros Hsort.
  assert (Hne : data <> []) by (intros ->; discriminate Hsort).
  assert (Hlen : 0 < Z.of_nat (length data)) by (destruct data; [congruence|rewrite length_cons; lia]).
  pose proof (filter_length_le Webhook.interested data) as Hle.
  assert (Hbound : 0 <= Z.of_nat (length (List.filter Webhook.interested data))
                   <= Z.of_nat (length data)) by lia.
  destruct (rate_returns _ _ Hbound Hlen) as [taxa Htaxa].
  unfold Webhook.dados_dashboard.
  destruct data as [|row data]; [congruence|]. cbn [is_nil].
  rewrite !py_sum_ones.
  replace (0 <? Z.of_nat (length (row :: data))) with true
    by (symmetry; apply Z.ltb_lt; exact Hlen).
  rewrite Htaxa. cbn [mbind outcome_bind]. unfold Webhook.jsonify.
  cbn [Webhook.tipos_imovel]. now rewrite can_be_sorted_tipos_count, Hsort.
Qed.

(** A record whose visit interest is text counts as interested exactly when
    the text, in lower case, is true, sim or yes. *)
Lemma interested_text `{PyRuntime} row text :
  row !! lit "Interesse Visita" = Some (CStr text) ->
  Webhook.interested row = true
  <-> In (py_lower text) [lit "true"; lit "sim"; lit "yes"].
Proof.
  intros Hrow. unfold Webhook.interested. rewrite Hrow. cbn [default cell_str].
  apply str_in_In.
Qed.

(** The rate is the rounding of the float product, not of the exact
    percentage: 23 leads with interest out of 40 are 57.5 percent, the
    product is 57.49999999999999, and [round] gives 57. *)
Lemma rate_rounds_the_float_product :
  (q ← int_truediv 23 40; py_round (float_mul_int q 100)) = Return 57.
Proof. vm_compute. reflexivity. Qed.

(** C3 (as amended). On a sheet with leads whose types can be sorted as
    keys (all text or all numbers) the endpoint reports taxa_interesse as
    [round(interesse_visita / total_leads * 100)], the nearest integer and
    not a number with one decimal place, between 0 and 100, where
    interesse_visita counts the records whose visit interest is, in lower
    case, true, sim or yes, and total_leads counts all records.  When the
    types mix text and numbers, [jsonify] raises and the endpoint answers
    500, with no rate. *)
Theorem taxa_interesse_is_rounded_to_an_integer `{PyRuntime} now data :
  data <> [] ->
  (types_sortable data = true ->
   exists taxa,
     Webhook.response_total_leads (Webhook.dados_dashboard now (Some data)) =
     Some (Z.of_nat (length data))
     /\ Webhook.response_interesse_visita (Webhook.dados_dashboard now (Some data)) =
        Some (Z.of_nat (length (List.filter Webhook.interested data)))
     /\ Webhook.response_taxa_interesse (Webhook.dados_dashboard now (Some data)) =
        Some taxa
     /\ (q ← int_truediv (Z.of_nat (length (List.filter Webhook.interested data)))
               (Z.of_nat (length data));
         py_round (float_mul_int q 100)) = Return taxa
     /\ 0 <= taxa <= 100)
  /\ (types_sortable data = false ->
      Webhook.response_status (Webhook.dados_dashboard now (Some data)) = 500
      /\ Webhook.response_taxa_interesse (Webhook.dados_dashboard now (Some data)) = None)
  /\ (forall row text,
        row !! lit "Interesse Visita" = Some (CStr text) ->
        Webhook.interested row = true
        <-> In (py_lower text) [lit "true"; lit "sim"; lit "yes"]).
Proof.
  intros Hne. split; [|split; [|apply interested_text]].
  - intros Hsort.
    destruct (dados_dashboard_view now data Hne Hsort) as (taxa & Htaxa & Hview).
    exists taxa. rewrite Hview. repeat split; try assumption.
    + assert (Hlen : 0 < Z.of_nat (length data))
        by (destruct data; [congruence|rewrite length_cons; lia]).
      pose proof (filter_length_le Webhook.interested data) as Hle.
      assert (Hbound : 0 <= Z.of_nat (length (List.filter Webhook.interested data))
                       <= Z.of_nat (length data)) by lia.
      destruct (rate_bounded _ _ Hbound Hlen) as (taxa' & Htaxa' & Hr & _).
      rewrite Htaxa in Htaxa'. injection Htaxa' as ->. lia.
    + assert (Hlen : 0 < Z.of_nat (length data))
        by (destruct data; [congruence|rewrite length_cons; lia]).
      pose proof (filter_length_le Webhook.interested data) as Hle.
      assert (Hbound : 0 <= Z.of_nat (length (List.filter Webhook.interested data))
                       <= Z.of_nat (length data)) by lia.
      destruct (rate_bounded _ _ Hbound Hlen) as (taxa' & Htaxa' & Hr & _).
      rewrite Htaxa in Htaxa'. injection Htaxa' as ->. lia.
  - intros Hsort. rewrite (dados_dashboard_unsortable now data Hsort).
    split; reflexivity.
Qed.

Lemma taxa_interesse_is_rounded_to_an_integer_witness :
  three_records <> []
  /\ types_sortable three_records = true
  /\ length (List.filter (@Webhook.interested latin1_runtime) three_records) = 2%nat
  /\ Webhook.response_total_leads
       (@Webhook.dados_dashboard latin1_runtime new_year (Some three_records)) = Some 3
  /\ Webhook.response_interesse_visita
       (@Webhook.dados_dashboard latin1_runtime new_year (Some three_records)) = Some 2
  /\ Webhook.response_taxa_interesse
       (@Webhook.dados_dashboard latin1_runtime new_year (Some three_records)) = Some 67.
Proof.
  assert (Hne : three_records <> []) by discriminate.
  assert (Hsort : types_sortable three_records = true) by reflexivity.
  destruct (@taxa_interesse_is_rounded_to_an_integer latin1_runtime new_year
              three_records Hne) as (Hview & _ & _).
  destruct (Hview Hsort) as (taxa & Htotal & Hinterest & Htaxa & Hrate & _).
  assert (Hcount : length (List.filter (@Webhook.interested latin1_runtime)
                             three_records) = 2%nat) by reflexivity.
  rewrite Hcount in Hinterest, Hrate.
  assert (H67 : taxa = 67) by (vm_compute in Hrate; congruence).
  subst taxa.
  exact (conj Hne (conj Hsort (conj Hcount (conj Htotal (conj Hinterest Htaxa))))).
Defined.

(** C3, the claim as worded, fails on three records of which two show
    interest: the endpoint reports 67, the claim 66.7. *)
Lemma taxa_interesse_is_not_rounded_to_one_decimal :
  Webhook.response_interesse_visita
    (@Webhook.dados_dashboard latin1_runtime new_year (Some three_records)) = Some 2
  /\ Webhook.response_total_leads
       (@Webhook.dados_dashboard latin1_runtime new_year (Some three_records)) = Some 3
  /\ Webhook.response_taxa_interesse
       (@Webhook.dados_dashboard latin1_runtime new_year (Some three_records)) = Some 67
  /\ rate_to_one_decimal_tenths 2 3 = 667
  /\ 10 * 67 <> rate_to_one_decimal_tenths 2 3.
Proof. repeat split; try reflexivity. vm_compute. discriminate. Qed.

(** Two records whose types are the number 5 and the text Casa: the keys of
    tipos_imovel cannot be sorted, and the endpoint answers 500 with the
    message of the [TypeError]. *)
Lemma mixed_types_are_answered_500 :
  types_sortable mixed_records = false
  /\ @Webhook.dados_dashboard latin1_runtime new_year (Some mixed_records) =
     Webhook.Failure 500
       (lit "'<' not supported between instances of 'str' and 'int'").
Proof. split; vm_compute; reflexivity. Qed.

(** C5 (as amended). On an empty sheet the endpoint answers with status
    200, total_leads 0 and no record, and with nothing else: the body has no
    rate, no counts and no grouping. *)
Theorem dados_dashboard_on_empty_sheet `{PyRuntime} now :
  Webhook.dados_dashboard now (Some []) = Webhook.NoLeads
  /\ Webhook.response_status (Webhook.dados_dashboard now (Some [])) = 200
  /\ Webhook.response_total_leads (Webhook.dados_dashboard now (Some [])) = Some 0
  /\ Webhook.response_dados (Webhook.dados_dashboard now (Some [])) = Some []
  /\ Webhook.response_interesse_visita (Webhook.dados_dashboard now (Some [])) = None
  /\ Webhook.response_taxa_interesse (Webhook.dados_dashboard now (Some [])) = None
  /\ Webhook.response_tipos_imovel (Webhook.dados_dashboard now (Some [])) = None
  /\ Webhook.response_wind_oceanica (Webhook.dados_dashboard now (Some [])) = None
  /\ Webhook.response_tresor_camboinhas (Webhook.dados_dashboard now (Some [])) = None
  /\ Webhook.response_ultima_atualizacao (Webhook.dados_dashboard now (Some [])) = None.
Proof. repeat split. Qed.

(** C5, the claim as worded, fails: the answer for the empty sheet carries
    neither a rate of 0 nor empty groupings. *)
Lemma empty_sheet_has_no_rate_and_no_groupings :
  Webhook.response_taxa_interesse
    (@Webhook.dados_dashboard latin1_runtime new_year (Some [])) <> Some 0
  /\ Webhook.response_tipos_imovel
       (@Webhook.dados_dashboard latin1_runtime new_year (Some [])) <> Some [].
Proof. split; discriminate. Qed.

(** C4 (as amended). Two runs of the endpoint on the same records agree on
    every field but ultima_atualizacao, which is the time of each run
    whenever the answer is the view (there are records and their types can
    be sorted as keys); they agree on it too when the two runs read the same
    time, and the two answers are the same when there is no such field:
    when there are no records, and when the types mix text and numbers and
    the endpoint answers 500. *)
Theorem dados_dashboard_depends_on_the_clock `{PyRuntime} now1 now2 records :
  without_timestamp (Webhook.dados_dashboard now1 records) =
  without_timestamp (Webhook.dados_dashboard now2 records)
  /\ (Webhook.format_timestamp now1 = Webhook.format_timestamp now2 ->
      Webhook.dados_dashboard now1 records = Webhook.dados_dashboard now2 records)
  /\ (records = None \/ records = Some [] ->
      Webhook.dados_dashboard now1 records = Webhook.dados_dashboard now2 records)
  /\ (forall data, records = Some data -> data <> [] -> types_sortable data = true ->
      Webhook.response_ultima_atualizacao (Webhook.dados_dashboard now1 records) =
      Some (Webhook.format_timestamp now1))
  /\ (forall data, records = Some data -> types_sortable data = false ->
      Webhook.response_status (Webhook.dados_dashboard now1 records) = 500
      /\ Webhook.response_ultima_atualizacao (Webhook.dados_dashboard now1 records) = None
      /\ Webhook.dados_dashboard now1 records = Webhook.dados_dashboard now2 records).
Proof.
  split; [|split; [|split; [|split]]].
  - destruct records as [[|row data]|]; try reflexivity.
    destruct (types_sortable (row :: data)) eqn:Hsort.
    + destruct (dados_dashboard_view now1 (row :: data) ltac:(discriminate) Hsort)
        as (t1 & Ht1 & ->).
      destruct (dados_dashboard_view now2 (row :: data) ltac:(discriminate) Hsort)
        as (t2 & Ht2 & ->).
      rewrite Ht1 in Ht2. injection Ht2 as <-. reflexivity.
    + now rewrite !(dados_dashboard_unsortable _ _ Hsort).
  - intros Hsame. destruct records as [[|row data]|]; try reflexivity.
    destruct (types_sortable (row :: data)) eqn:Hsort.
    + destruct (dados_dashboard_view now1 (row :: data) ltac:(discriminate) Hsort)
        as (t1 & Ht1 & ->).
      destruct (dados_dashboard_view now2 (row :: data) ltac:(discriminate) Hsort)
        as (t2 & Ht2 & ->).
      rewrite Ht1 in Ht2. injection Ht2 as <-. now rewrite Hsame.
    + now rewrite !(dados_dashboard_unsortable _ _ Hsort).
  - intros [->| ->]; reflexivity.
  - intros data -> Hne Hsort.
    destruct (dados_dashboard_view now1 data Hne Hsort) as (t1 & _ & ->). reflexivity.
  - intros data -> Hsort. rewrite !(dados_dashboard_unsortable _ _ Hsort).
    repeat split.
Qed.

Lemma dados_dashboard_depends_on_the_clock_witness :
  three_records <> []
  /\ types_sortable three_records = true
  /\ without_timestamp
       (@Webhook.dados_dashboard latin1_runtime new_year (Some three_records)) =
     without_timestamp
       (@Webhook.dados_dashboard latin1_runtime a_second_later (Some three_records))
  /\ Webhook.response_ultima_atualizacao
       (@Webhook.dados_dashboard latin1_runtime new_year (Some three_records)) =
     Some (lit "01/01/2024 00:00:00").
Proof.
  assert (Hne : three_records <> []) by discriminate.
  assert (Hsort : types_sortable three_records = true) by reflexivity.
  destruct (@dados_dashboard_depends_on_the_clock latin1_runtime new_year
              a_second_later (Some three_records)) as (Hsame & _ & _ & Hstamp & _).
  exact (conj Hne (conj Hsort (conj Hsame (Hstamp three_records eq_refl Hne Hsort)))).
Defined.

(** C4, the claim as worded, fails: two runs on the same three records, a
    second apart, differ in ultima_atualizacao. *)
Lemma two_runs_differ_in_ultima_atualizacao :
  @Webhook.dados_dashboard latin1_runtime new_year (Some three_records) <>
  @Webhook.dados_dashboard latin1_runtime a_second_later (Some three_records).
Proof.
  intros Heq. apply (f_equal Webhook.response_ultima_atualizacao) in Heq.
  vm_compute in Heq. discriminate Heq.
Qed.

Lemma differ_only_in_type_references `{PyRuntime} name data data' :
  differ_only_in_type data data' ->
  count_references name data = count_references name data'.
Proof.
  intros Hd. rewrite <- !count_references_filter.
  assert (Hlen : length (List.filter (Webhook.reference_is name) data) =
                 length (List.filter (Webhook.reference_is name) data'));
    [|now rewrite Hlen].
  induction Hd as [|row row' data data' Hrow _ IH]; [reflexivity|].
  assert (Href : Webhook.reference_is name row = Webhook.reference_is name row').
  { unfold Webhook.reference_is.
    now rewrite (Hrow (lit "Imóvel/Referência")) by discriminate. }
  cbn [List.filter]. rewrite Href.
  destruct (Webhook.reference_is name row'); cbn [length]; now rewrite IH.
Qed.

(** C9 (as amended). On a sheet with leads whose types can be sorted as
    keys, wind_oceanica and tresor_camboinhas are the numbers of records
    whose reference is the text Wind Oceanica, respectively Tresor
    Camboinhas, letter for letter; changing the type of records and nothing
    else changes neither of them, as long as the types can be sorted before
    and after the change.  When the types mix text and numbers the endpoint
    answers 500 and the answer carries neither count. *)
Theorem named_campaign_counts `{PyRuntime} now data :
  (data <> [] -> types_sortable data = true ->
   Webhook.response_wind_oceanica (Webhook.dados_dashboard now (Some data)) =
   Some (count_references (lit "Wind Oceanica") data)
   /\ Webhook.response_tresor_camboinhas (Webhook.dados_dashboard now (Some data)) =
      Some (count_references (lit "Tresor Camboinhas") data))
  /\ (forall data',
        differ_only_in_type data data' ->
        types_sortable data = true -> types_sortable data' = true ->
        Webhook.response_wind_oceanica (Webhook.dados_dashboard now (Some data')) =
        Webhook.response_wind_oceanica (Webhook.dados_dashboard now (Some data))
        /\ Webhook.response_tresor_camboinhas (Webhook.dados_dashboard now (Some data')) =
           Webhook.response_tresor_camboinhas (Webhook.dados_dashboard now (Some data)))
  /\ (types_sortable data = false ->
      Webhook.response_status (Webhook.dados_dashboard now (Some data)) = 500
      /\ Webhook.response_wind_oceanica (Webhook.dados_dashboard now (Some data)) = None
      /\ Webhook.response_tresor_camboinhas (Webhook.dados_dashboard now (Some data))
         = None).
Proof.
  split; [|split].
  - intros Hne Hsort.
    destruct (dados_dashboard_view now data Hne Hsort) as (taxa & _ & ->).
    split; reflexivity.
  - intros data' Hd Hsort Hsort'.
    pose proof (differ_only_in_type_references (lit "Wind Oceanica") _ _ Hd) as Hw.
    pose proof (differ_only_in_type_references (lit "Tresor Camboinhas") _ _ Hd) as Ht.
    destruct Hd as [|row row' data data' Hrow Hd]; [split; reflexivity|].
    destruct (dados_dashboard_view now (row :: data) ltac:(discriminate) Hsort)
      as (t1 & _ & ->).
    destruct (dados_dashboard_view now (row' :: data') ltac:(discriminate) Hsort')
      as (t2 & _ & ->).
    cbn [Webhook.response_wind_oceanica Webhook.response_tresor_camboinhas
         Webhook.wind_oceanica Webhook.tresor_camboinhas].
    rewrite Hw, Ht. split; reflexivity.
  - intros Hsort. rewrite (dados_dashboard_unsortable now data Hsort).
    repeat split.
Qed.

Lemma lead_row_differs_in_type reference interest tipo tipo' :
  forall key, key <> lit "Tipo Imóvel" ->
  lead_row reference interest tipo !! key = lead_row reference interest tipo' !! key.
Proof.
  intros key Hkey. unfold lead_row.
  rewrite !lookup_insert.
  repeat (case_decide; [reflexivity|]).
  case_decide; [congruence|reflexivity].
Qed.

Lemma named_campaign_counts_witness :
  three_records <> []
  /\ types_sortable three_records = true
  /\ differ_only_in_type three_records three_records_retyped
  /\ types_sortable three_records_retyped = true
  /\ Webhook.response_wind_oceanica
       (@Webhook.dados_dashboard latin1_runtime new_year (Some three_records)) = Some 2
  /\ Webhook.response_tresor_camboinhas
       (@Webhook.dados_dashboard latin1_runtime new_year (Some three_records)) = Some 0
  /\ Webhook.response_wind_oceanica
       (@Webhook.dados_dashboard latin1_runtime new_year (Some three_records_retyped)) =
     Some 2.
Proof.
  assert (Hne : three_records <> []) by discriminate.
  assert (Hsort : types_sortable three_records = true) by reflexivity.
  assert (Hsort' : types_sortable three_records_retyped = true) by reflexivity.
  assert (Hd : differ_only_in_type three_records three_records_retyped)
    by (repeat constructor; apply lead_row_differs_in_type).
  destruct (@named_campaign_counts latin1_runtime new_year three_records)
    as (Hcount & Hsame & _).
  destruct (Hcount Hne Hsort) as [Hw Ht].
  destruct (Hsame three_records_retyped Hd Hsort Hsort') as [Hw' _].
  rewrite Hw in Hw'.
  exact (conj Hne (conj Hsort (conj Hd (conj Hsort' (conj Hw (conj Ht Hw')))))).
Defined.

(** C9, the claim as worded, fails on the empty sheet: no record refers to
    Wind Oceanica, and the answer carries no count at all. *)
Lemma empty_sheet_has_no_campaign_counts :
  count_references (lit "Wind Oceanica") [] = 0
  /\ Webhook.response_wind_oceanica
       (@Webhook.dados_dashboard latin1_runtime new_year (Some [])) <> Some 0
  /\ Webhook.response_tresor_camboinhas
       (@Webhook.dados_dashboard latin1_runtime new_year (Some [])) <> Some 0.
Proof. repeat split; discriminate. Qed.

(** The dashboard's card shows the rate with one decimal place: 66.7% for
    two records with interest out of three. *)
Lemma dashboard_card_shows_one_decimal :
  Dashboard.taxa_interesse_card 2 3 = lit "66.7%"
  /\ Dashboard.taxa_interesse_card 115 200 = lit "57.5%".
Proof. split; vm_compute; reflexivity. Qed.

(** * Further properties of the code *)

(** ** The classifiers on arbitrary values *)

Lemma classify_normalised_category (ref : str) :
  In (classify_normalised ref) categories.
Proof.
  unfold classify_normalised, categories. run_chain; simpl; auto 10.
Qed.

(** X1. Whatever value it is given, each classifier answers one of the
    seven property types; the type of a lead is never blank. *)
Theorem classifiers_answer_a_category `{PyRuntime} :
  (forall reference : json,
     In (Webhook.identify_property_type reference) categories)
  /\ (forall reference : option cell,
        In (Dashboard.identify_property_type reference) categories).
Proof.
  split; intros reference.
  - rewrite webhook_classifier_unfold.
    destruct (negb (truthy reference)); [|apply classify_normalised_category].
    unfold categories. simpl. auto 10.
  - rewrite dashboard_classifier_unfold.
    destruct (Dashboard.isna reference); [|apply classify_normalised_category].
    unfold categories. simpl. auto 10.
Qed.

(** X2. The webhook classifier answers Indefinido exactly for the values of
    false truth value ([null], [false], zero, the empty string, an empty
    array or object); the dashboard classifier exactly for a missing value
    and for NaN. *)
Theorem undefined_exactly_for_falsy_values `{PyRuntime} :
  (forall reference : json,
     Webhook.identify_property_type reference = lit "Indefinido"
     <-> truthy reference = false)
  /\ (forall reference : option cell,
        Dashboard.identify_property_type reference = lit "Indefinido"
        <-> reference = None \/ reference = Some (CFloat S754_nan)).
Proof.
  split; intros reference.
  - rewrite webhook_classifier_unfold. destruct (truthy reference); cbn [negb].
    + split; [intros Heq|discriminate].
      destruct (classify_normalised_never_undefined _ Heq).
    + split; reflexivity.
  - rewrite dashboard_classifier_unfold.
    destruct reference as [[s|z|[b|b| |b m e]]|]; cbn [Dashboard.isna float_is_nan];
      try (split; [intros Heq; destruct (classify_normalised_never_undefined _ Heq)
                  |intros [Hn|Hn]; discriminate Hn]);
      split; auto.
Qed.

(** X3. The campaign-name rule answers only for Wind Oceanica: a reference
    that normalises to TRESOR CAMBOINHAS starts with TR and is classified
    Terreno by both classifiers, one that normalises to WIND OCEANICA is
    classified Lançamento. *)
Theorem tresor_camboinhas_is_classified_terreno `{PyRuntime} (s : str) :
  (py_strip (py_upper s) = lit "TRESOR CAMBOINHAS" ->
   Webhook.identify_property_type (JStr s) = lit "Terreno"
   /\ Dashboard.identify_property_type (Some (CStr s)) = lit "Terreno")
  /\ (py_strip (py_upper s) = lit "WIND OCEANICA" ->
      Webhook.identify_property_type (JStr s) = lit "Lançamento"
      /\ Dashboard.identify_property_type (Some (CStr s)) = lit "Lançamento").
Proof.
  rewrite webhook_classifier_unfold, dashboard_classifier_unfold.
  cbn [Dashboard.isna Dashboard.str_of cell_str py_str truthy].
  split; intros Hnorm; rewrite Hnorm;
    (destruct s as [|c s]; [rewrite normalised_empty in Hnorm; discriminate Hnorm|]);
    split; reflexivity.
Qed.

Lemma tresor_camboinhas_is_classified_terreno_witness :
  @Webhook.identify_property_type latin1_runtime (JStr (lit "Tresor Camboinhas")) =
  lit "Terreno"
  /\ @Webhook.identify_property_type latin1_runtime (JStr (lit " wind oceanica ")) =
     lit "Lançamento".
Proof.
  split.
  - apply (proj1 (@tresor_camboinhas_is_classified_terreno latin1_runtime
                    (lit "Tresor Camboinhas"))). reflexivity.
  - apply (proj2 (@tresor_camboinhas_is_classified_terreno latin1_runtime
                    (lit " wind oceanica "))). reflexivity.
Defined.

Lemma py_upper_ascii `{PyRuntime} (s : str) :
  ascii_text s -> py_upper s = List.map ascii_upper s.
Proof.
  unfold py_upper. induction 1 as [|c s Hc _ IH]; [reflexivity|].
  cbn [flat_map List.map]. rewrite IH. unfold upper_cp.
  now rewrite (proj2 (N.ltb_lt c 128) Hc).
Qed.

(** X4. On ASCII text the classifiers ignore the case of letters: two
    texts that agree once their letters a-z are upper-cased get the same
    type. *)
Theorem classifiers_ignore_ascii_case `{PyRuntime} (s t : str) :
  ascii_text s -> ascii_text t ->
  List.map ascii_upper s = List.map ascii_upper t ->
  Webhook.identify_property_type (JStr s) = Webhook.identify_property_type (JStr t)
  /\ Dashboard.identify_property_type (Some (CStr s)) =
     Dashboard.identify_property_type (Some (CStr t)).
Proof.
  intros Hs Ht Hup.
  rewrite !webhook_classifier_unfold, !dashboard_classifier_unfold.
  cbn [Dashboard.isna Dashboard.str_of cell_str py_str truthy].
  rewrite (py_upper_ascii s Hs), (py_upper_ascii t Ht), Hup.
  assert (Hnil : is_nil s = is_nil t).
  { destruct s, t; try reflexivity; discriminate Hup. }
  rewrite Hnil. split; reflexivity.
Qed.

Lemma classifiers_ignore_ascii_case_witness :
  @Webhook.identify_property_type latin1_runtime (JStr (lit "loja no centro")) =
  @Webhook.identify_property_type latin1_runtime (JStr (lit "Loja No CENTRO"))
  /\ @Dashboard.identify_property_type latin1_runtime (Some (CStr (lit "loja no centro"))) =
     @Dashboard.identify_property_type latin1_runtime (Some (CStr (lit "Loja No CENTRO"))).
Proof.
  apply (@classifiers_ignore_ascii_case latin1_runtime).
  - unfold ascii_text. repeat constructor.
  - unfold ascii_text. repeat constructor.
  - reflexivity.
Defined.

Lemma lstrip_blank_prefix (ws t : str) :
  Forall (fun c => is_whitespace c = true) ws -> lstrip (ws ++ t) = lstrip t.
Proof.
  induction 1 as [|c ws Hc _ IH]; [reflexivity|].
  cbn [app lstrip]. now rewrite Hc.
Qed.

Lemma lstrip_app (t u : str) :
  lstrip (t ++ u) = match lstrip t with [] => lstrip u | _ => lstrip t ++ u end.
Proof.
  induction t as [|c t IH]; cbn [app lstrip].
  - now destruct (lstrip u).
  - destruct (is_whitespace c); [exact IH|reflexivity].
Qed.

Lemma rstrip_blank_suffix (u ws : str) :
  Forall (fun c => is_whitespace c = true) ws -> rstrip (u ++ ws) = rstrip u.
Proof.
  intros Hws. unfold rstrip. rewrite rev_app_distr.
  rewrite lstrip_blank_prefix; [reflexivity|].
  apply Forall_forall. intros c Hc. rewrite Forall_forall in Hws.
  apply Hws. apply list_elem_of_In. apply in_rev. now apply list_elem_of_In.
Qed.

Lemma lstrip_blank (ws : str) :
  Forall (fun c => is_whitespace c = true) ws -> lstrip ws = [].
Proof.
  intros Hws. rewrite <- (app_nil_r ws). now rewrite lstrip_blank_prefix.
Qed.

(** Stripping ignores white space put around a text. *)
Lemma py_strip_surrounded (lead u trail : str) :
  Forall (fun c => is_whitespace c = true) lead ->
  Forall (fun c => is_whitespace c = true) trail ->
  py_strip (lead ++ u ++ trail) = py_strip u.
Proof.
  intros Hl Ht. unfold py_strip.
  rewrite lstrip_blank_prefix by assumption. rewrite lstrip_app.
  destruct (lstrip u) as [|c v] eqn:Hu.
  - now rewrite (lstrip_blank trail Ht).
  - now apply rstrip_blank_suffix.
Qed.

Lemma py_upper_app `{PyRuntime} (s t : str) :
  py_upper (s ++ t) = py_upper s ++ py_upper t.
Proof. unfold py_upper. apply flat_map_app. Qed.

Lemma py_upper_ascii_blank `{PyRuntime} (ws : str) :
  ascii_blank ws -> py_upper ws = ws.
Proof.
  unfold py_upper. induction 1 as [|c ws [Hw Hc] _ IH]; [reflexivity|].
  cbn [flat_map]. rewrite IH. unfold upper_cp.
  rewrite (proj2 (N.ltb_lt c 128) Hc). cbn [app]. f_equal.
  unfold ascii_upper. destruct ((97 <=? c)%N && (c <=? 122)%N) eqn:Hletter;
    [|reflexivity].
  exfalso. apply andb_true_iff in Hletter as [H1 H2].
  apply N.leb_le in H1, H2. unfold is_whitespace in Hw.
  repeat (apply orb_true_iff in Hw as [Hw|Hw]);
    repeat match goal with
           | H : _ && _ = true |- _ => apply andb_true_iff in H as [? ?]
           | H : (_ <=? _)%N = true |- _ => apply N.leb_le in H
           | H : (_ =? _)%N = true |- _ => apply N.eqb_eq in H
           end; lia.
Qed.

Lemma ascii_blank_whitespace (ws : str) :
  ascii_blank ws -> Forall (fun c => is_whitespace c = true) ws.
Proof. intros Hws. eapply Forall_impl; [exact Hws|]. now intros c [Hc _]. Qed.

(** X5. ASCII white space around a non-empty reference does not change its
    type, for either classifier. *)
Theorem classifiers_ignore_surrounding_whitespace `{PyRuntime} (lead s trail : str) :
  s <> [] -> ascii_blank lead -> ascii_blank trail ->
  Webhook.identify_property_type (JStr (lead ++ s ++ trail)) =
  Webhook.identify_property_type (JStr s)
  /\ Dashboard.identify_property_type (Some (CStr (lead ++ s ++ trail))) =
     Dashboard.identify_property_type (Some (CStr s)).
Proof.
  intros Hne Hl Ht.
  rewrite !webhook_classifier_unfold, !dashboard_classifier_unfold.
  cbn [Dashboard.isna Dashboard.str_of cell_str py_str truthy].
  rewrite !py_upper_app, (py_upper_ascii_blank lead Hl), (py_upper_ascii_blank trail Ht).
  rewrite py_strip_surrounded by now apply ascii_blank_whitespace.
  assert (Hnil : is_nil (lead ++ s ++ trail) = false).
  { destruct lead; [destruct s; [congruence|reflexivity]|reflexivity]. }
  assert (Hnil' : is_nil s = false) by (destruct s; [congruence|reflexivity]).
  rewrite Hnil, Hnil'. split; reflexivity.
Qed.

Lemma classifiers_ignore_surrounding_whitespace_witness :
  @Webhook.identify_property_type latin1_runtime (JStr (lit "  AP-204 ")) =
  @Webhook.identify_property_type latin1_runtime (JStr (lit "AP-204"))
  /\ @Dashboard.identify_property_type latin1_runtime (Some (CStr (lit "  AP-204 "))) =
     @Dashboard.identify_property_type latin1_runtime (Some (CStr (lit "AP-204"))).
Proof.
  apply (@classifiers_ignore_surrounding_whitespace latin1_runtime
           (lit "  ") (lit "AP-204") (lit " ")).
  - discriminate.
  - unfold ascii_blank. repeat constructor.
  - unfold ascii_blank. repeat constructor.
Defined.

(** X6. A reference that is not empty but holds ASCII white space only is
    classified Outros by both classifiers: for the webhook it is a value of
    true truth value, so it is not Indefinido. *)
Theorem blank_reference_is_other `{PyRuntime} (ws : str) :
  ws <> [] -> ascii_blank ws ->
  Webhook.identify_property_type (JStr ws) = lit "Outros"
  /\ Dashboard.identify_property_type (Some (CStr ws)) = lit "Outros".
Proof.
  intros Hne Hws.
  rewrite webhook_classifier_unfold, dashboard_classifier_unfold.
  cbn [Dashboard.isna Dashboard.str_of cell_str py_str truthy].
  rewrite (py_upper_ascii_blank ws Hws).
  assert (Hstrip : py_strip ws = []).
  { unfold py_strip. now rewrite (lstrip_blank ws (ascii_blank_whitespace ws Hws)). }
  rewrite Hstrip. destruct ws; [congruence|]. split; reflexivity.
Qed.

Lemma blank_reference_is_other_witness :
  @Webhook.identify_property_type latin1_runtime (JStr (lit "   ")) = lit "Outros"
  /\ @Dashboard.identify_property_type latin1_runtime (Some (CStr (lit "   "))) =
     lit "Outros".
Proof.
  apply (@blank_reference_is_other latin1_runtime (lit "   ")).
  - discriminate.
  - unfold ascii_blank. repeat constructor.
Defined.

(** ** Timestamps and identifiers *)

Lemma in_range_N (lo len : nat) (x : N) :
  (N.of_nat lo <= x < N.of_nat (lo + len))%N ->
  In x (List.map N.of_nat (seq lo len)).
Proof.
  intros Hx. apply in_map_iff. exists (N.to_nat x). split; [lia|].
  apply in_seq. lia.
Qed.

Lemma pad2_digits (n : N) :
  (n < 100)%N -> Webhook.pad2 n = [48 + n / 10; 48 + n mod 10]%N.
Proof.
  intros Hn.
  assert (Hall : forallb (fun n => bool_decide
                           (Webhook.pad2 n = [48 + n / 10; 48 + n mod 10]%N))
                   (List.map N.of_nat (seq 0 100)) = true)
    by (vm_compute; reflexivity).
  rewrite forallb_forall in Hall.
  eapply bool_decide_eq_true_1. apply Hall. apply in_range_N. lia.
Qed.

Lemma dec_year_digits (y : N) :
  (1000 <= y <= 9999)%N ->
  Webhook.dec y =
  [48 + y / 1000; 48 + (y / 100) mod 10; 48 + (y / 10) mod 10; 48 + y mod 10]%N.
Proof.
  intros Hy.
  assert (Hall : forallb (fun hi =>
                   forallb (fun lo => bool_decide
                              (Webhook.dec (100 * hi + lo) =
                               [48 + (100 * hi + lo) / 1000;
                                48 + ((100 * hi + lo) / 100) mod 10;
                                48 + ((100 * hi + lo) / 10) mod 10;
                                48 + (100 * hi + lo) mod 10]%N))
                     (List.map N.of_nat (seq 0 100)))
                   (List.map N.of_nat (seq 10 90)) = true)
    by (vm_compute; reflexivity).
  rewrite forallb_forall in Hall.
  assert (Hhi : In (y / 100)%N (List.map N.of_nat (seq 10 90))).
  { apply in_range_N.
    change (N.of_nat 10) with 10%N. change (N.of_nat (10 + 90)) with 100%N.
    split; [apply N.div_le_lower_bound; lia|apply N.Div0.div_lt_upper_bound; lia]. }
  specialize (Hall _ Hhi). rewrite forallb_forall in Hall.
  assert (Hlo : In (y mod 100)%N (List.map N.of_nat (seq 0 100))).
  { apply in_range_N.
    change (N.of_nat 0) with 0%N. change (N.of_nat (0 + 100)) with 100%N.
    split; [apply N.le_0_l|apply N.mod_lt; lia]. }
  specialize (Hall _ Hlo). apply bool_decide_eq_true_1 in Hall.
  now rewrite <- (N.div_mod y 100) in Hall by lia.
Qed.

Lemma two_digits_inj (a b : N) :
  (48 + a / 10 = 48 + b / 10)%N -> (48 + a mod 10 = 48 + b mod 10)%N -> a = b.
Proof.
  intros Hd Hm.
  rewrite (N.div_mod a 10), (N.div_mod b 10) by lia. lia.
Qed.

Lemma four_digits_inj (a b : N) :
  (48 + a / 1000 = 48 + b / 1000)%N ->
  (48 + (a / 100) mod 10 = 48 + (b / 100) mod 10)%N ->
  (48 + (a / 10) mod 10 = 48 + (b / 10) mod 10)%N ->
  (48 + a mod 10 = 48 + b mod 10)%N -> a = b.
Proof.
  intros H1 H2 H3 H4.
  assert (Ha : (a / 100 / 10 = a / 1000)%N) by (rewrite N.Div0.div_div; reflexivity).
  assert (Hb : (b / 100 / 10 = b / 1000)%N) by (rewrite N.Div0.div_div; reflexivity).
  assert (Ha' : (a / 10 / 10 = a / 100)%N) by (rewrite N.Div0.div_div; reflexivity).
  assert (Hb' : (b / 10 / 10 = b / 100)%N) by (rewrite N.Div0.div_div; reflexivity).
  assert (E100 : (a / 100 = b / 100)%N).
  { apply two_digits_inj; [rewrite Ha, Hb; exact H1|exact H2]. }
  assert (E10 : (a / 10 = b / 10)%N).
  { apply two_digits_inj; [rewrite Ha', Hb', E100; reflexivity|exact H3]. }
  apply two_digits_inj; [rewrite E10; reflexivity|exact H4].
Qed.

(** X7. For readings of the clock in range, the timestamp has 19
    characters and determines the reading: two readings printed alike are
    the same second. *)
Theorem format_timestamp_is_injective (now1 now2 : Webhook.datetime) :
  valid_reading now1 -> valid_reading now2 ->
  length (Webhook.format_timestamp now1) = 19%nat
  /\ (Webhook.format_timestamp now1 = Webhook.format_timestamp now2 -> now1 = now2).
Proof.
  intros H1 H2. unfold Webhook.format_timestamp.
  change (lit "/") with [47%N]. change (lit " ") with [32%N].
  change (lit ":") with [58%N].
  destruct now1 as [y1 mo1 d1 h1 mi1 s1], now2 as [y2 mo2 d2 h2 mi2 s2].
  destruct H1 as (Hy1 & Hmo1 & Hd1 & Hh1 & Hmi1 & Hs1).
  destruct H2 as (Hy2 & Hmo2 & Hd2 & Hh2 & Hmi2 & Hs2).
  cbn [Webhook.year Webhook.month Webhook.day Webhook.hour Webhook.minute
       Webhook.second] in *.
  rewrite !pad2_digits, !dec_year_digits by lia.
  split; [reflexivity|].
  cbn [app]. intros Heq.
  injection Heq as D1 D2 M1 M2 Y1 Y2 Y3 Y4 Hh Hh' Mi Mi' S S'.
  f_equal; first [now apply four_digits_inj | now apply two_digits_inj].
Qed.

Lemma format_timestamp_is_injective_witness :
  length (Webhook.format_timestamp new_year) = 19%nat
  /\ (Webhook.format_timestamp new_year = Webhook.format_timestamp new_year ->
      new_year = new_year).
Proof.
  apply format_timestamp_is_injective; unfold valid_reading; cbn; lia.
Defined.

Lemma digit_is_ascii_digit (d : N) : (d < 10)%N -> ascii_digit (48 + d) = true.
Proof.
  intros Hd. unfold ascii_digit. apply andb_true_iff.
  split; [apply N.leb_le|apply N.leb_le]; lia.
Qed.

Lemma pad2_is_digits (n : N) :
  (n < 100)%N -> Forall (fun c => ascii_digit c = true) [48 + n / 10; 48 + n mod 10]%N.
Proof.
  intros Hn. repeat constructor; apply digit_is_ascii_digit.
  - apply N.Div0.div_lt_upper_bound. lia.
  - apply N.mod_lt. lia.
Qed.

Lemma year_is_digits (y : N) :
  (y <= 9999)%N ->
  Forall (fun c => ascii_digit c = true)
    [48 + y / 1000; 48 + (y / 100) mod 10; 48 + (y / 10) mod 10; 48 + y mod 10]%N.
Proof.
  intros Hy. repeat constructor; apply digit_is_ascii_digit;
    first [apply N.mod_lt; lia | apply N.Div0.div_lt_upper_bound; lia].
Qed.

(** X8. For readings of the clock in range, a lead identifier is IMV_,
    fourteen digits, an underscore and the random part, and it determines
    both the second it was made in and the random part: two identifiers
    are equal only for the same second and the same random draw. *)
Theorem generate_id_is_injective (now1 now2 : Webhook.datetime) (random1 random2 : str) :
  valid_reading now1 -> valid_reading now2 ->
  (exists digits,
     Webhook.generate_id now1 random1 = lit "IMV_" ++ digits ++ lit "_" ++ random1
     /\ length digits = 14%nat
     /\ Forall (fun c => ascii_digit c = true) digits)
  /\ startswith (Webhook.generate_id now1 random1) (lit "IMV_") = true
  /\ length (Webhook.generate_id now1 random1) = (19 + length random1)%nat
  /\ (Webhook.generate_id now1 random1 = Webhook.generate_id now2 random2 ->
      now1 = now2 /\ random1 = random2).
Proof.
  intros H1 H2. unfold Webhook.generate_id.
  change (lit "IMV_") with [73; 77; 86; 95]%N. change (lit "_") with [95%N].
  destruct now1 as [y1 mo1 d1 h1 mi1 s1], now2 as [y2 mo2 d2 h2 mi2 s2].
  destruct H1 as (Hy1 & Hmo1 & Hd1 & Hh1 & Hmi1 & Hs1).
  destruct H2 as (Hy2 & Hmo2 & Hd2 & Hh2 & Hmi2 & Hs2).
  cbn [Webhook.year Webhook.month Webhook.day Webhook.hour Webhook.minute
       Webhook.second] in *.
  rewrite !pad2_digits, !dec_year_digits by lia.
  split; [|cbn [app]; split; [reflexivity|]; split; [reflexivity|]].
  - eexists. split; [reflexivity|]. split; [reflexivity|].
    repeat (apply Forall_app; split);
      first [apply year_is_digits; lia | apply pad2_is_digits; lia].
  - intros Heq.
    injection Heq as Y1 Y2 Y3 Y4 M1 M2 D1 D2 Hh Hh' Mi Mi' S S' R.
    split; [|exact R].
    f_equal; first [now apply four_digits_inj | now apply two_digits_inj].
Qed.

Lemma generate_id_is_injective_witness :
  valid_reading new_year
  /\ (exists digits,
        Webhook.generate_id new_year (lit "A1B2") =
        lit "IMV_" ++ digits ++ lit "_" ++ lit "A1B2"
        /\ length digits = 14%nat
        /\ Forall (fun c => ascii_digit c = true) digits)
  /\ startswith (Webhook.generate_id new_year (lit "A1B2")) (lit "IMV_") = true
  /\ length (Webhook.generate_id new_year (lit "A1B2")) = 23%nat
  /\ (Webhook.generate_id new_year (lit "A1B2") =
      Webhook.generate_id new_year (lit "A1B2") ->
      new_year = new_year /\ lit "A1B2" = lit "A1B2").
Proof.
  assert (Hv : valid_reading new_year) by (unfold valid_reading; cbn; lia).
  exact (conj Hv
    (generate_id_is_injective new_year new_year (lit "A1B2") (lit "A1B2") Hv Hv)).
Defined.

(** ** The worksheet *)

Lemma find_tab_ext (sheet sheet' : gmap (list N) (list (list json))) :
  (forall t, is_Some (sheet' !! t) <-> is_Some (sheet !! t)) ->
  List.find (fun name => bool_decide (is_Some (sheet' !! name))) Webhook.worksheet_names =
  List.find (fun name => bool_decide (is_Some (sheet !! name))) Webhook.worksheet_names.
Proof.
  intros Hsame. apply find_ext. intros t. apply bool_decide_ext, Hsame.
Qed.

Lemma get_worksheet_again sheet name sheet' :
  Webhook.get_worksheet (Some sheet) = Some (name, sheet') ->
  Webhook.get_worksheet (Some sheet') = Some (name, sheet').
Proof.
  unfold Webhook.get_worksheet.
  destruct (List.find _ Webhook.worksheet_names) as [found|] eqn:Hfind.
  - intros [= <- <-]. now rewrite Hfind.
  - intros [= <- <-]. cbn [List.find Webhook.worksheet_names].
    rewrite bool_decide_eq_true_2; [reflexivity|].
    rewrite lookup_insert_eq. eauto.
Qed.

Lemma get_worksheet_keeps_tabs sheet name sheet' :
  Webhook.get_worksheet (Some sheet) = Some (name, sheet') ->
  forall t ws, sheet !! t = Some ws -> sheet' !! t = Some ws.
Proof.
  unfold Webhook.get_worksheet.
  destruct (List.find _ Webhook.worksheet_names) as [found|] eqn:Hfind.
  - intros [= <- <-]. auto.
  - intros [= <- <-] t ws Hws.
    apply find_none_all in Hfind. rewrite Forall_forall in Hfind.
    destruct (decide (lit "Leads_Todos_Imoveis" = t)) as [<-|Hne].
    + specialize (Hfind (lit "Leads_Todos_Imoveis")).
      rewrite bool_decide_eq_false in Hfind.
      exfalso. apply Hfind; [|eauto].
      apply list_elem_of_In. left. reflexivity.
    + now rewrite lookup_insert_ne.
Qed.

Lemma get_worksheet_after_append sheet name sheet' rows :
  Webhook.get_worksheet (Some sheet) = Some (name, sheet') ->
  Webhook.get_worksheet (Some (<[name := rows]> sheet')) =
  Some (name, <[name := rows]> sheet').
Proof.
  intros Hws. pose proof (get_worksheet_again _ _ _ Hws) as Hagain.
  destruct (get_worksheet_tab _ _ _ Hws) as [ws Hlook].
  assert (Hsame : forall t, is_Some (<[name := rows]> sheet' !! t)
                            <-> is_Some (sheet' !! t)).
  { intros t. destruct (decide (name = t)) as [<-|Hne].
    - rewrite lookup_insert_eq, Hlook. split; eauto.
    - now rewrite lookup_insert_ne. }
  unfold Webhook.get_worksheet in Hagain |- *.
  rewrite (find_tab_ext sheet' (<[name := rows]> sheet') Hsame).
  destruct (List.find (fun t => bool_decide (is_Some (sheet' !! t)))
              Webhook.worksheet_names) as [found|] eqn:Hfind.
  - injection Hagain as ->. reflexivity.
  - exfalso. apply find_none_all in Hfind. rewrite Forall_forall in Hfind.
    injection Hagain as <- _.
    specialize (Hfind (lit "Leads_Todos_Imoveis")).
    rewrite bool_decide_eq_false in Hfind. apply Hfind; [|eauto].
    apply list_elem_of_In. left. reflexivity.
Qed.

(** X9. A store that can be reached always yields a worksheet, named by
    one of the three expected titles; getting it changes no tab that
    exists, and a second call finds the same worksheet and changes nothing.
    When none of the three titles exists the worksheet is a new tab
    Leads_Todos_Imoveis that holds the row of the ten headers and nothing
    else. *)
Theorem get_worksheet_is_stable (sheet : gmap (list N) (list (list json))) :
  (exists name sheet',
     Webhook.get_worksheet (Some sheet) = Some (name, sheet')
     /\ In name Webhook.worksheet_names
     /\ is_Some (sheet' !! name)
     /\ (forall t ws, sheet !! t = Some ws -> sheet' !! t = Some ws)
     /\ Webhook.get_worksheet (Some sheet') = Some (name, sheet'))
  /\ (Forall (fun name => sheet !! name = None) Webhook.worksheet_names ->
      exists sheet',
        Webhook.get_worksheet (Some sheet) = Some (lit "Leads_Todos_Imoveis", sheet')
        /\ sheet' !! lit "Leads_Todos_Imoveis" = Some [List.map JStr Webhook.headers]
        /\ length (List.map JStr Webhook.headers) = 10%nat).
Proof.
  split.
  - destruct (Webhook.get_worksheet (Some sheet)) as [[name sheet']|] eqn:Hws.
    + exists name, sheet'. split; [reflexivity|].
      split; [|split; [|split]].
      * unfold Webhook.get_worksheet in Hws.
        destruct (List.find _ Webhook.worksheet_names) as [found|] eqn:Hfind.
        -- injection Hws as <- _. apply find_some in Hfind as [Hin _]. exact Hin.
        -- injection Hws as <- _. left. reflexivity.
      * exact (get_worksheet_tab _ _ _ Hws).
      * exact (get_worksheet_keeps_tabs _ _ _ Hws).
      * exact (get_worksheet_again _ _ _ Hws).
    + unfold Webhook.get_worksheet in Hws.
      destruct (List.find _ Webhook.worksheet_names); discriminate Hws.
  - intros Hnone. eexists. split; [exact (get_worksheet_provisions sheet Hnone)|].
    split; [apply lookup_insert_eq|reflexivity].
Qed.

Lemma get_worksheet_is_stable_witness :
  exists sheet',
    Webhook.get_worksheet (Some ∅) = Some (lit "Leads_Todos_Imoveis", sheet')
    /\ sheet' !! lit "Leads_Todos_Imoveis" = Some [List.map JStr Webhook.headers]
    /\ length (List.map JStr Webhook.headers) = 10%nat.
Proof.
  apply (proj2 (get_worksheet_is_stable ∅)).
  unfold Webhook.worksheet_names. repeat constructor.
Defined.

(** ** The ingestion endpoints, case by case *)

Lemma all_present data required :
  List.find (Webhook.absent_or_falsy data) required = None <->
  Forall (present data) required.
Proof.
  split.
  - intros Hfind. apply find_none_all in Hfind.
    eapply Forall_impl; [exact Hfind|]. intros g Hg. now apply absent_or_falsy_false.
  - intros Hall. destruct (List.find _ required) as [field|] eqn:Hfind; [|reflexivity].
    apply find_some in Hfind as [Hin Hbad]. rewrite Forall_forall in Hall.
    apply list_elem_of_In, Hall, absent_or_falsy_false in Hin. congruence.
Qed.

Lemma json_in_valid_launches data v :
  data !! lit "lancamento" = Some v ->
  Webhook.json_in v Webhook.valid_launches = true <->
  exists launch, v = JStr launch /\ exact_launch data launch.
Proof.
  intros Hv. split.
  - destruct v as [| | | |s| |]; try discriminate. intros Hin.
    exists s. split; [reflexivity|]. split; [|exact Hv]. now apply str_in_In in Hin.
  - intros (launch & -> & Hin & _). now apply str_in_In.
Qed.

(** The four outcomes of [captura_lancamento]. *)
Lemma captura_lancamento_cases env store data :
  (exists field,
     first_missing Webhook.required_lancamento data field
     /\ Webhook.captura_lancamento env store data =
        (Webhook.Failure 400 (lit "Campo obrigatório ausente: " ++ field), store))
  \/ (Forall (present data) Webhook.required_lancamento
      /\ (forall launch, ~ exact_launch data launch)
      /\ Webhook.captura_lancamento env store data =
         (Webhook.Failure 400
            (lit "Lançamento deve ser: Wind Oceanica ou Tresor Camboinhas"), store))
  \/ (Forall (present data) Webhook.required_lancamento
      /\ (exists launch, exact_launch data launch)
      /\ store = None
      /\ Webhook.captura_lancamento env store data =
         (Webhook.Failure 500 (lit "Erro ao acessar planilha"), store))
  \/ (Forall (present data) Webhook.required_lancamento
      /\ exists launch name sheet ws,
           exact_launch data launch
           /\ Webhook.get_worksheet store = Some (name, sheet)
           /\ sheet !! name = Some ws
           /\ Webhook.captura_lancamento env store data =
              (Webhook.LaunchCaptured
                 (Webhook.generate_id (Webhook.clock_id env) (Webhook.random_part env))
                 (JStr launch)
                 (Webhook.format_timestamp (Webhook.clock_timestamp env)),
               Some (<[name := ws ++ [launch_row env data]]> sheet))).
Proof.
  unfold Webhook.captura_lancamento.
  destruct (List.find _ Webhook.required_lancamento) as [field|] eqn:Hfind.
  { left. exists field. split; [now apply find_first_missing|reflexivity]. }
  right. apply all_present in Hfind.
  assert (Hl : present data (lit "lancamento")).
  { rewrite Forall_forall in Hfind. apply Hfind, list_elem_of_In.
    right; right; left; reflexivity. }
  destruct Hl as (v & Hv & _). rewrite (lookup_total_correct _ _ _ Hv).
  pose proof (json_in_valid_launches data v Hv) as Hvalid.
  destruct (Webhook.json_in v Webhook.valid_launches); cbn [negb].
  - destruct (proj1 Hvalid eq_refl) as (launch & -> & Hex). right.
    destruct store as [sheet0|].
    + right. split; [exact Hfind|].
      destruct (Webhook.get_worksheet (Some sheet0)) as [[name sheet]|] eqn:Hws.
      * destruct (get_worksheet_tab _ _ _ Hws) as [ws Hlook].
        exists launch, name, sheet, ws. split; [exact Hex|]. split; [reflexivity|].
        split; [exact Hlook|]. rewrite (append_row_last _ _ _ _ Hlook).
        unfold launch_row. rewrite (lookup_total_correct _ _ _ Hv). reflexivity.
      * unfold Webhook.get_worksheet in Hws.
        destruct (List.find _ Webhook.worksheet_names); discriminate Hws.
    + left. split; [exact Hfind|]. split; [eauto|]. split; reflexivity.
  - left. split; [exact Hfind|]. split; [|reflexivity].
    intros launch Hex. assert (Htrue : false = true); [|discriminate Htrue].
    apply Hvalid. exists launch. split; [|exact Hex].
    destruct Hex as [_ Hlook]. congruence.
Qed.

(** The three outcomes of [captura_imovel_geral]. *)
Lemma captura_imovel_geral_cases `{PyRuntime} env store data :
  (exists field,
     first_missing Webhook.required_imovel_geral data field
     /\ Webhook.captura_imovel_geral env store data =
        (Webhook.Failure 400 (lit "Campo obrigatório ausente: " ++ field), store))
  \/ (Forall (present data) Webhook.required_imovel_geral
      /\ store = None
      /\ Webhook.captura_imovel_geral env store data =
         (Webhook.Failure 500 (lit "Erro ao acessar planilha"), store))
  \/ (Forall (present data) Webhook.required_imovel_geral
      /\ exists name sheet ws,
           Webhook.get_worksheet store = Some (name, sheet)
           /\ sheet !! name = Some ws
           /\ Webhook.captura_imovel_geral env store data =
              (Webhook.PropertyCaptured
                 (Webhook.generate_id (Webhook.clock_id env) (Webhook.random_part env))
                 (data !!! lit "imovel_referencia")
                 (Webhook.identify_property_type (data !!! lit "imovel_referencia"))
                 (Webhook.format_timestamp (Webhook.clock_timestamp env)),
               Some (<[name := ws ++ [general_row env data]]> sheet))).
Proof.
  unfold Webhook.captura_imovel_geral.
  destruct (List.find _ Webhook.required_imovel_geral) as [field|] eqn:Hfind.
  { left. exists field. split; [now apply find_first_missing|reflexivity]. }
  right. apply all_present in Hfind.
  destruct store as [sheet0|].
  - right. split; [exact Hfind|].
    destruct (Webhook.get_worksheet (Some sheet0)) as [[name sheet]|] eqn:Hws.
    + destruct (get_worksheet_tab _ _ _ Hws) as [ws Hlook].
      exists name, sheet, ws. split; [reflexivity|]. split; [exact Hlook|].
      now rewrite (append_row_last _ _ _ _ Hlook).
    + unfold Webhook.get_worksheet in Hws.
      destruct (List.find _ Webhook.worksheet_names); discriminate Hws.
  - left. split; [exact Hfind|]. split; reflexivity.
Qed.

Lemma present_not_missing data field :
  present data field -> missing_or_empty data field -> False.
Proof.
  intros (v & Hv & Ht) [Hn|(w & Hw & Hf)]; congruence.
Qed.

Lemma first_missing_not_all_present required data field :
  first_missing required data field -> Forall (present data) required -> False.
Proof.
  intros (before & after & -> & _ & Hm) Hall.
  apply Forall_app in Hall as [_ Hall]. apply Forall_cons in Hall as [Hp _].
  exact (present_not_missing _ _ Hp Hm).
Qed.

(** X10. [captura_lancamento] answers 400 with an error that names the
    first required field, in the order user_name, user_phone, lancamento,
    visit_interest, summary, that is missing or empty, and leaves the store
    as it was; the required fields are checked before the launch name, so a
    payload with a wrong launch name and a missing field is told about the
    field. *)
Theorem captura_lancamento_names_first_missing env store data
    (before after : list str) (field : str) :
  [lit "user_name"; lit "user_phone"; lit "lancamento"; lit "visit_interest";
   lit "summary"] = before ++ field :: after ->
  Forall (present data) before ->
  missing_or_empty data field ->
  Webhook.captura_lancamento env store data =
  (Webhook.Failure 400 (lit "Campo obrigatório ausente: " ++ field), store).
Proof.
  intros Hreq Hb Hf.
  unfold Webhook.captura_lancamento, Webhook.required_lancamento.
  now rewrite (first_missing_found data _ before field after Hreq Hb Hf).
Qed.

Lemma captura_lancamento_names_first_missing_witness :
  (forall launch, ~ exact_launch launch_payload_two_faults launch)
  /\ Webhook.captura_lancamento sample_readings (Some ∅) launch_payload_two_faults =
     (Webhook.Failure 400 (lit "Campo obrigatório ausente: summary"), Some ∅).
Proof.
  split.
  - intros launch [Hin Hlook].
    assert (Hname : launch_payload_two_faults !! lit "lancamento" =
                    Some (JStr (lit "Wind Oceanica Tower"))) by reflexivity.
    rewrite Hname in Hlook. injection Hlook as <-.
    destruct Hin as [Hin|[Hin|[]]]; discriminate Hin.
  - refine (captura_lancamento_names_first_missing sample_readings (Some ∅)
              launch_payload_two_faults
              [lit "user_name"; lit "user_phone"; lit "lancamento";
               lit "visit_interest"] [] (lit "summary") _ _ _).
    + reflexivity.
    + repeat constructor; eexists; (split; [reflexivity|reflexivity]).
    + left. reflexivity.
Defined.

(** X11. With every required field present, a launch name that is not the
    string Wind Oceanica or Tresor Camboinhas (another string, or a value
    that is not a string) is answered 400 with the message that lists the
    two names, whether the store can be reached or not, and the store is
    left as it was. *)
Theorem captura_lancamento_invalid_launch_message env store data :
  Forall (present data)
    [lit "user_name"; lit "user_phone"; lit "lancamento"; lit "visit_interest";
     lit "summary"] ->
  (forall launch, ~ exact_launch data launch) ->
  Webhook.captura_lancamento env store data =
  (Webhook.Failure 400 (lit "Lançamento deve ser: Wind Oceanica ou Tresor Camboinhas"),
   store).
Proof.
  intros Hall Hno.
  destruct (captura_lancamento_cases env store data)
    as [(field & Hm & _)|[(_ & _ & Hrun)|[(_ & (launch & Hex) & _)
                                          |(_ & launch & ? & ? & ? & Hex & _)]]].
  - destruct (first_missing_not_all_present _ _ _ Hm Hall).
  - exact Hrun.
  - destruct (Hno launch Hex).
  - destruct (Hno launch Hex).
Qed.

Lemma captura_lancamento_invalid_launch_message_witness :
  Webhook.captura_lancamento sample_readings None launch_payload_array =
  (Webhook.Failure 400 (lit "Lançamento deve ser: Wind Oceanica ou Tresor Camboinhas"),
   None).
Proof.
  apply captura_lancamento_invalid_launch_message.
  - repeat constructor; eexists; (split; [reflexivity|reflexivity]).
  - intros launch [_ Hlook].
    assert (Hname : launch_payload_array !! lit "lancamento" =
                    Some (JArr [JStr (lit "Wind Oceanica")])) by reflexivity.
    rewrite Hname in Hlook. discriminate Hlook.
Defined.

(** X12. [captura_lancamento] answers 200 exactly when the five required
    fields are present, the launch name is one of the two campaign names and
    the store can be reached; it then appends one row to the worksheet, and
    the lead_id and the timestamp of the answer are the ID (eighth field)
    and the Data/Hora (first field) of that row. *)
Theorem captura_lancamento_success env store data :
  (Webhook.response_status (fst (Webhook.captura_lancamento env store data)) = 200
   <-> Forall (present data) Webhook.required_lancamento
       /\ (exists launch, exact_launch data launch)
       /\ store <> None)
  /\ (Webhook.response_status (fst (Webhook.captura_lancamento env store data)) = 200 ->
      exists name sheet ws row lead_id timestamp,
        Webhook.get_worksheet store = Some (name, sheet)
        /\ sheet !! name = Some ws
        /\ snd (Webhook.captura_lancamento env store data) =
           Some (<[name := ws ++ [row]]> sheet)
        /\ response_lead_id (fst (Webhook.captura_lancamento env store data)) =
           Some lead_id
        /\ response_timestamp (fst (Webhook.captura_lancamento env store data)) =
           Some timestamp
        /\ row !! 7%nat = Some (JStr lead_id)
        /\ row !! 0%nat = Some (JStr timestamp)).
Proof.
  destruct (captura_lancamento_cases env store data)
    as [(field & Hm & Hrun)|[(Hall & Hno & Hrun)|[(Hall & Hex & -> & Hrun)
                                                 |(Hall & launch & name & sheet & ws
                                                   & Hex & Hws & Hlook & Hrun)]]];
    rewrite Hrun; cbn [fst snd Webhook.response_status].
  - split; [split; [discriminate|]|discriminate].
    intros (Hall & _ & _). destruct (first_missing_not_all_present _ _ _ Hm Hall).
  - split; [split; [discriminate|]|discriminate].
    intros (_ & (launch & Hex) & _). destruct (Hno launch Hex).
  - split; [split; [discriminate|]|discriminate].
    intros (_ & _ & Hstore). congruence.
  - split.
    + split; [intros _|reflexivity].
      split; [exact Hall|]. split; [eauto|].
      destruct store; [discriminate|discriminate Hws].
    + intros _. eexists name, sheet, ws, _, _, _.
      repeat (split; [reflexivity || eassumption|]). reflexivity.
Qed.

Lemma captura_lancamento_success_witness :
  Webhook.response_status
    (fst (Webhook.captura_lancamento sample_readings (Some ∅)
            (launch_payload (lit "Tresor Camboinhas")))) = 200
  /\ response_lead_id
       (fst (Webhook.captura_lancamento sample_readings (Some ∅)
               (launch_payload (lit "Tresor Camboinhas")))) =
     Some (lit "IMV_20240102090508_A1B2")
  /\ response_timestamp
       (fst (Webhook.captura_lancamento sample_readings (Some ∅)
               (launch_payload (lit "Tresor Camboinhas")))) =
     Some (lit "02/01/2024 09:05:07").
Proof.
  assert (Hok : Webhook.response_status
                  (fst (Webhook.captura_lancamento sample_readings (Some ∅)
                          (launch_payload (lit "Tresor Camboinhas")))) = 200).
  { apply (proj1 (captura_lancamento_success sample_readings (Some ∅)
                    (launch_payload (lit "Tresor Camboinhas")))).
    split; [|split].
    - repeat constructor; eexists; (split; [reflexivity|reflexivity]).
    - exists (lit "Tresor Camboinhas"). split; [right; left; reflexivity|reflexivity].
    - discriminate. }
  split; [exact Hok|]. split; reflexivity.
Defined.

(** X13. [captura_imovel_geral] answers 200 exactly when the five required
    fields are present and the store can be reached; it then appends one
    row whose reference, type, ID and Data/Hora are the imovel_referencia,
    tipo_imovel, lead_id and timestamp of the answer, the type is the
    classifier's answer for the reference, and it is never Indefinido. *)
Theorem captura_imovel_geral_success `{PyRuntime} env store data :
  (Webhook.response_status (fst (Webhook.captura_imovel_geral env store data)) = 200
   <-> Forall (present data) Webhook.required_imovel_geral /\ store <> None)
  /\ (Webhook.response_status (fst (Webhook.captura_imovel_geral env store data)) = 200 ->
      exists name sheet ws row lead_id reference tipo timestamp,
        Webhook.get_worksheet store = Some (name, sheet)
        /\ sheet !! name = Some ws
        /\ snd (Webhook.captura_imovel_geral env store data) =
           Some (<[name := ws ++ [row]]> sheet)
        /\ fst (Webhook.captura_imovel_geral env store data) =
           Webhook.PropertyCaptured lead_id reference tipo timestamp
        /\ data !! lit "imovel_referencia" = Some reference
        /\ tipo = Webhook.identify_property_type reference
        /\ tipo <> lit "Indefinido"
        /\ row !! 0%nat = Some (JStr timestamp)
        /\ row !! 3%nat = Some reference
        /\ row !! 7%nat = Some (JStr lead_id)
        /\ row !! 9%nat = Some (JStr tipo)).
Proof.
  destruct (captura_imovel_geral_cases env store data)
    as [(field & Hm & Hrun)|[(Hall & -> & Hrun)
                             |(Hall & name & sheet & ws & Hws & Hlook & Hrun)]];
    rewrite Hrun; cbn [fst snd Webhook.response_status].
  - split; [split; [discriminate|]|discriminate].
    intros (Hall & _). destruct (first_missing_not_all_present _ _ _ Hm Hall).
  - split; [split; [discriminate|]|discriminate].
    intros (_ & Hstore). congruence.
  - split.
    + split; [intros _|reflexivity]. split; [exact Hall|].
      destruct store; [discriminate|discriminate Hws].
    + intros _.
      assert (Href : present data (lit "imovel_referencia")).
      { rewrite Forall_forall in Hall. apply Hall, list_elem_of_In.
        right; right; left; reflexivity. }
      destruct Href as (reference & Hv & Htruthy).
      rewrite (lookup_total_correct _ _ _ Hv). unfold general_row.
      rewrite (lookup_total_correct _ _ _ Hv).
      eexists name, sheet, ws, _, _, reference, _, _.
      split; [exact Hws|]. split; [exact Hlook|]. split; [reflexivity|].
      split; [reflexivity|]. split; [exact Hv|]. split; [reflexivity|].
      split; [|repeat split].
      rewrite webhook_classifier_unfold, Htruthy. cbn [negb].
      apply classify_normalised_never_undefined.
Qed.

Lemma captura_imovel_geral_success_witness :
  Webhook.response_status
    (fst (@Webhook.captura_imovel_geral latin1_runtime sample_readings (Some ∅)
            general_payload)) = 200
  /\ fst (@Webhook.captura_imovel_geral latin1_runtime sample_readings (Some ∅)
            general_payload) =
     Webhook.PropertyCaptured (lit "IMV_20240102090508_A1B2") (JStr (lit "CA123"))
       (lit "Casa") (lit "02/01/2024 09:05:07").
Proof.
  split; [|reflexivity].
  apply (proj1 (@captura_imovel_geral_success latin1_runtime sample_readings (Some ∅)
                  general_payload)).
  split; [|discriminate].
  repeat constructor; eexists; (split; [reflexivity|reflexivity]).
Defined.

(** *** The handlers on any body *)










(** What a request to either endpoint does to the store. *)
Lemma capture_outcome `{PyRuntime} env store data resp store' :
  Webhook.captura_lancamento env store data = (resp, store')
  \/ Webhook.captura_imovel_geral env store data = (resp, store') ->
  (Webhook.response_status resp <> 200 /\ store' = store)
  \/ (Webhook.response_status resp = 200
      /\ exists name sheet ws row lead_id,
           Webhook.get_worksheet store = Some (name, sheet)
           /\ sheet !! name = Some ws
           /\ store' = Some (<[name := ws ++ [row]]> sheet)
           /\ response_lead_id resp = Some lead_id
           /\ row !! 7%nat = Some (JStr lead_id)
           /\ length row = 10%nat).
Proof.
  intros [Hrun|Hrun].
  - destruct (captura_lancamento_cases env store data)
      as [(field & _ & Hc)|[(_ & _ & Hc)|[(_ & _ & _ & Hc)
                                         |(_ & launch & name & sheet & ws
                                           & _ & Hws & Hlook & Hc)]]];
      rewrite Hc in Hrun; injection Hrun as <- <-;
      try (left; split; [discriminate|reflexivity]).
    right. split; [reflexivity|].
    eexists name, sheet, ws, _, _. repeat split; eassumption || reflexivity.
  - destruct (captura_imovel_geral_cases env store data)
      as [(field & _ & Hc)|[(_ & _ & Hc)|(_ & name & sheet & ws & Hws & Hlook & Hc)]];
      rewrite Hc in Hrun; injection Hrun as <- <-;
      try (left; split; [discriminate|reflexivity]).
    right. split; [reflexivity|].
    eexists name, sheet, ws, _, _. repeat split; eassumption || reflexivity.
Qed.

(** X15. The endpoints only ever append: after a request to either of them
    every tab of the spreadsheet is still there with its rows unchanged and
    in place, followed by at most one new row; a store that cannot be
    reached stays so. *)
Theorem store_is_append_only `{PyRuntime} env store data resp store' :
  Webhook.captura_lancamento env store data = (resp, store')
  \/ Webhook.captura_imovel_geral env store data = (resp, store') ->
  (store = None -> store' = None)
  /\ (forall sheet, store = Some sheet ->
      exists sheet',
        store' = Some sheet'
        /\ forall t ws, sheet !! t = Some ws ->
           exists extra, sheet' !! t = Some (ws ++ extra) /\ (length extra <= 1)%nat).
Proof.
  intros Hrun.
  destruct (capture_outcome env store data resp store' Hrun)
    as [[_ ->]|(_ & name & sheet1 & ws1 & row & lead_id & Hws & Hlook & -> & _)].
  - split; [auto|]. intros sheet ->. exists sheet. split; [reflexivity|].
    intros t ws Ht. exists []. rewrite app_nil_r. split; [exact Ht|simpl; lia].
  - split; [intros ->; discriminate Hws|].
    intros sheet ->. eexists. split; [reflexivity|].
    intros t ws Ht. pose proof (get_worksheet_keeps_tabs _ _ _ Hws t ws Ht) as Ht1.
    destruct (decide (name = t)) as [<-|Hne].
    + rewrite lookup_insert_eq. exists [row].
      rewrite Hlook in Ht1. injection Ht1 as ->. split; [reflexivity|simpl; lia].
    + rewrite lookup_insert_ne by assumption. exists [].
      rewrite app_nil_r. split; [exact Ht1|simpl; lia].
Qed.

Lemma store_is_append_only_witness :
  exists sheet',
    snd (@Webhook.captura_imovel_geral latin1_runtime sample_readings
           (Some {[lit "Sheet1" := [[JStr (lit "old row")]]]}) general_payload) =
    Some sheet'
    /\ exists extra,
         sheet' !! lit "Sheet1" = Some ([[JStr (lit "old row")]] ++ extra)
         /\ (length extra <= 1)%nat.
Proof.
  destruct (@store_is_append_only latin1_runtime sample_readings
              (Some {[lit "Sheet1" := [[JStr (lit "old row")]]]}) general_payload
              _ _ (or_intror (surjective_pairing _))) as [_ Hkeep].
  destruct (Hkeep _ eq_refl) as (sheet' & Hst & Htabs).
  exists sheet'. split; [exact Hst|].
  apply Htabs. reflexivity.
Defined.

(** X16. Two requests answered 200 one after the other, to the same or to
    different endpoints, append their rows to the same worksheet in the
    order of the requests, after the rows that were there; each row carries
    the lead_id its request was answered with. *)
Theorem successive_captures_append_in_order `{PyRuntime}
    env1 env2 store data1 data2 resp1 store1 resp2 store2 :
  Webhook.captura_lancamento env1 store data1 = (resp1, store1)
  \/ Webhook.captura_imovel_geral env1 store data1 = (resp1, store1) ->
  Webhook.captura_lancamento env2 store1 data2 = (resp2, store2)
  \/ Webhook.captura_imovel_geral env2 store1 data2 = (resp2, store2) ->
  Webhook.response_status resp1 = 200 ->
  Webhook.response_status resp2 = 200 ->
  exists name sheet ws row1 row2 id1 id2,
    Webhook.get_worksheet store = Some (name, sheet)
    /\ sheet !! name = Some ws
    /\ store2 = Some (<[name := ws ++ [row1; row2]]> sheet)
    /\ response_lead_id resp1 = Some id1 /\ row1 !! 7%nat = Some (JStr id1)
    /\ response_lead_id resp2 = Some id2 /\ row2 !! 7%nat = Some (JStr id2).
Proof.
  intros Hrun1 Hrun2 Hok1 Hok2.
  destruct (capture_outcome _ _ _ _ _ Hrun1)
    as [[Hno _]|(_ & name & sheet & ws & row1 & id1 & Hws & Hlook & -> & Hid1 & Hrow1 & _)];
    [congruence|].
  destruct (capture_outcome _ _ _ _ _ Hrun2)
    as [[Hno _]|(_ & name2 & sheet2 & ws2 & row2 & id2 & Hws2 & Hlook2 & -> & Hid2
                 & Hrow2 & _)];
    [congruence|].
  destruct store as [sheet0|]; [|discriminate Hws].
  rewrite (get_worksheet_after_append _ _ _ (ws ++ [row1]) Hws) in Hws2.
  injection Hws2 as <- <-.
  rewrite lookup_insert_eq in Hlook2. injection Hlook2 as <-.
  exists name, sheet, ws, row1, row2, id1, id2.
  split; [exact Hws|]. split; [exact Hlook|].
  split; [|auto].
  rewrite insert_insert_eq, <- app_assoc. reflexivity.
Qed.

Lemma successive_captures_append_in_order_witness :
  exists name sheet ws row1 row2 id1 id2,
    Webhook.get_worksheet (Some ∅) = Some (name, sheet)
    /\ sheet !! name = Some ws
    /\ snd (@Webhook.captura_imovel_geral latin1_runtime sample_readings
              (snd (Webhook.captura_lancamento sample_readings (Some ∅)
                      (launch_payload (lit "Wind Oceanica"))))
              general_payload) =
       Some (<[name := ws ++ [row1; row2]]> sheet)
    /\ response_lead_id
         (fst (Webhook.captura_lancamento sample_readings (Some ∅)
                 (launch_payload (lit "Wind Oceanica")))) = Some id1
    /\ row1 !! 7%nat = Some (JStr id1)
    /\ response_lead_id
         (fst (@Webhook.captura_imovel_geral latin1_runtime sample_readings
                 (snd (Webhook.captura_lancamento sample_readings (Some ∅)
                         (launch_payload (lit "Wind Oceanica"))))
                 general_payload)) = Some id2
    /\ row2 !! 7%nat = Some (JStr id2).
Proof.
  assert (H1 : Webhook.response_status
                 (fst (Webhook.captura_lancamento sample_readings (Some ∅)
                         (launch_payload (lit "Wind Oceanica")))) = 200)
    by reflexivity.
  assert (H2 : Webhook.response_status
                 (fst (@Webhook.captura_imovel_geral latin1_runtime sample_readings
                         (snd (Webhook.captura_lancamento sample_readings (Some ∅)
                                 (launch_payload (lit "Wind Oceanica"))))
                         general_payload)) = 200)
    by reflexivity.
  exact (@successive_captures_append_in_order latin1_runtime
           sample_readings sample_readings (Some ∅)
           (launch_payload (lit "Wind Oceanica")) general_payload
           _ _ _ _
           (or_introl (surjective_pairing _)) (or_intror (surjective_pairing _))
           H1 H2).
Defined.

(** ** The aggregate view *)

Lemma count_references_nonneg name data : 0 <= count_references name data.
Proof. unfold count_references. lia. Qed.

Lemma count_references_disjoint name1 name2 data :
  name1 <> name2 ->
  count_references name1 data + count_references name2 data <= Z.of_nat (length data).
Proof.
  intros Hne. unfold count_references.
  induction data as [|row data IH]; [simpl; lia|].
  destruct (decide (refers_to name1 row)) as [H1|H1];
    destruct (decide (refers_to name2 row)) as [H2|H2].
  - unfold refers_to in *. congruence.
  - rewrite filter_cons_True, (filter_cons_False (refers_to name2)) by assumption.
    rewrite !length_cons. lia.
  - rewrite (filter_cons_False (refers_to name1)), filter_cons_True by assumption.
    rewrite !length_cons. lia.
  - rewrite !filter_cons_False by assumption. rewrite length_cons. lia.
Qed.

(** X17. On a sheet with leads the endpoint answers 200 exactly when the
    types of the records can be sorted as keys (all text or all numbers),
    and 500 otherwise.  When it answers 200 its numbers are consistent:
    there is at least one lead, the leads with interest and the two
    campaign counts together are at most the total, and the rate is a
    whole percentage between 0 and 100, 0 when no lead shows interest and
    100 when all do. *)
Theorem aggregate_counts_are_bounded `{PyRuntime} now data :
  data <> [] ->
  (Webhook.response_status (Webhook.dados_dashboard now (Some data)) = 200
   <-> types_sortable data = true)
  /\ (types_sortable data = false ->
      Webhook.response_status (Webhook.dados_dashboard now (Some data)) = 500
      /\ Webhook.response_total_leads (Webhook.dados_dashboard now (Some data)) = None)
  /\ (types_sortable data = true ->
      exists view,
        Webhook.dados_dashboard now (Some data) = Webhook.Aggregate view
        /\ 1 <= Webhook.total_leads view
        /\ 0 <= Webhook.interesse_visita view <= Webhook.total_leads view
        /\ 0 <= Webhook.wind_oceanica view
        /\ 0 <= Webhook.tresor_camboinhas view
        /\ Webhook.wind_oceanica view + Webhook.tresor_camboinhas view
           <= Webhook.total_leads view
        /\ 0 <= Webhook.taxa_interesse view <= 100
        /\ (Webhook.interesse_visita view = 0 -> Webhook.taxa_interesse view = 0)
        /\ (Webhook.interesse_visita view = Webhook.total_leads view ->
            Webhook.taxa_interesse view = 100)).
Proof.
  intros Hne. split; [|split].
  - destruct (types_sortable data) eqn:Hsort.
    + destruct (dados_dashboard_view now data Hne Hsort) as (taxa & _ & ->).
      split; reflexivity.
    + rewrite (dados_dashboard_unsortable now data Hsort). split; discriminate.
  - intros Hsort. rewrite (dados_dashboard_unsortable now data Hsort).
    split; reflexivity.
  - intros Hsort.
    destruct (dados_dashboard_view now data Hne Hsort) as (taxa & Htaxa & Hview).
    eexists. split; [exact Hview|].
    cbn [Webhook.total_leads Webhook.interesse_visita Webhook.wind_oceanica
         Webhook.tresor_camboinhas Webhook.taxa_interesse].
    assert (Hlen : 0 < Z.of_nat (length data))
      by (destruct data; [congruence|rewrite length_cons; lia]).
    pose proof (filter_length_le Webhook.interested data) as Hle.
    assert (Hbound : 0 <= Z.of_nat (length (List.filter Webhook.interested data))
                     <= Z.of_nat (length data)) by lia.
    destruct (rate_bounded _ _ Hbound Hlen) as (taxa' & Htaxa' & Hr & H0 & H100).
    assert (taxa' = taxa) by congruence. subst taxa'.
    pose proof (count_references_nonneg (lit "Wind Oceanica") data).
    pose proof (count_references_nonneg (lit "Tresor Camboinhas") data).
    assert (Hd : lit "Wind Oceanica" <> lit "Tresor Camboinhas") by (vm_compute; congruence).
    pose proof (count_references_disjoint _ _ data Hd).
    repeat split; try lia; assumption.
Qed.

Lemma aggregate_counts_are_bounded_witness :
  three_records <> []
  /\ types_sortable three_records = true
  /\ (exists view,
    Webhook.dados_dashboard (H := latin1_runtime) new_year (Some three_records)
      = Webhook.Aggregate view
    /\ 1 <= Webhook.total_leads view
    /\ 0 <= Webhook.interesse_visita view <= Webhook.total_leads view
    /\ 0 <= Webhook.wind_oceanica view
    /\ 0 <= Webhook.tresor_camboinhas view
    /\ Webhook.wind_oceanica view + Webhook.tresor_camboinhas view
       <= Webhook.total_leads view
    /\ 0 <= Webhook.taxa_interesse view <= 100
    /\ (Webhook.interesse_visita view = 0 -> Webhook.taxa_interesse view = 0)
    /\ (Webhook.interesse_visita view = Webhook.total_leads view ->
        Webhook.taxa_interesse view = 100))
  /\ mixed_records <> []
  /\ types_sortable mixed_records = false
  /\ Webhook.response_status
       (Webhook.dados_dashboard (H := latin1_runtime) new_year (Some mixed_records))
     = 500.
Proof.
  assert (Hne : three_records <> []) by (unfold three_records; congruence).
  assert (Hsort : types_sortable three_records = true) by reflexivity.
  assert (Hne' : mixed_records <> []) by (unfold mixed_records; congruence).
  assert (Hsort' : types_sortable mixed_records = false) by reflexivity.
  exact (conj Hne (conj Hsort (conj
    (proj2 (proj2 (aggregate_counts_are_bounded (H := latin1_runtime) new_year
                     three_records Hne)) Hsort)
    (conj Hne' (conj Hsort'
       (proj1 (proj1 (proj2 (aggregate_counts_are_bounded (H := latin1_runtime)
                               new_year mixed_records Hne')) Hsort'))))))).
Defined.

(** ** The counts by type *)









Lemma cell_eqb_text k tipo : cell_eqb k (CStr tipo) = true <-> k = CStr tipo.
Proof.
  destruct k as [s|z|f]; cbn; try (split; congruence).
  unfold str_eqb. rewrite bool_decide_eq_true. split; congruence.
Qed.

Lemma cell_eqb_text_left k tipo : cell_eqb (CStr tipo) k = true <-> k = CStr tipo.
Proof.
  destruct k as [s|z|f]; cbn; try (split; congruence).
  unfold str_eqb. rewrite bool_decide_eq_true. split; congruence.
Qed.

Lemma dict_get_count_same tipo d :
  dict_get (CStr tipo) (dict_count (CStr tipo) d) =
  Some (default 0 (dict_get (CStr tipo) d) + 1).
Proof.
  unfold dict_get.
  induction d as [|[k n] d IH].
  - cbn [dict_count List.find fst snd].
    replace (cell_eqb (CStr tipo) (CStr tipo)) with true
      by (symmetry; apply cell_eqb_text; reflexivity).
    reflexivity.
  - cbn [dict_count List.find fst snd].
    destruct (cell_eqb k (CStr tipo)) eqn:E.
    + cbn [List.find fst snd]. rewrite E. reflexivity.
    + cbn [List.find fst snd]. rewrite E. exact IH.
Qed.

Lemma dict_get_count_other tipo key d :
  key <> CStr tipo ->
  dict_get (CStr tipo) (dict_count key d) = dict_get (CStr tipo) d.
Proof.
  intros Hne. unfold dict_get.
  assert (Hkey : cell_eqb key (CStr tipo) = false).
  { destruct (cell_eqb key (CStr tipo)) eqn:E; [|reflexivity].
    apply cell_eqb_text in E. congruence. }
  induction d as [|[k n] d IH].
  - cbn [dict_count List.find fst snd]. rewrite Hkey. reflexivity.
  - cbn [dict_count List.find fst snd].
    destruct (cell_eqb k key) eqn:E; cbn [List.find fst snd].
    + destruct (cell_eqb k (CStr tipo)) eqn:E'; [|reflexivity].
      apply cell_eqb_text in E'. subst k.
      apply cell_eqb_text_left in E. congruence.
    + destruct (cell_eqb k (CStr tipo)); [reflexivity|exact IH].
Qed.

Lemma dict_get_tipos_from tipo data d :
  dict_get (CStr tipo)
    (fold_left (fun counts row => dict_count (tipo_of row) counts) data d) =
  match count_type tipo data with
  | O => dict_get (CStr tipo) d
  | n => Some (default 0 (dict_get (CStr tipo) d) + Z.of_nat n)
  end.
Proof.
  revert d. unfold count_type.
  induction data as [|row data IH]; intros d; [reflexivity|].
  cbn [fold_left]. rewrite IH.
  destruct (decide (tipo_of row = CStr tipo)) as [Hrow|Hrow].
  - rewrite filter_cons_True by assumption. rewrite Hrow, dict_get_count_same.
    rewrite length_cons. cbn [default].
    destruct (length (filter (fun row0 => tipo_of row0 = CStr tipo) data)) as [|n];
      apply (f_equal Some); unfold id; lia.
  - rewrite filter_cons_False by assumption.
    rewrite dict_get_count_other by assumption. reflexivity.
Qed.

(** X19. When the endpoint answers with the view, for a type that is text
    the count listed under it is the number of records of that type, a
    record without the column counting as Outros; a type no record has is
    not listed at all. *)
Theorem tipos_imovel_counts_each_type `{PyRuntime} now data (tipo : list N) :
  data <> [] ->
  types_sortable data = true ->
  exists tipos,
    Webhook.response_tipos_imovel (Webhook.dados_dashboard now (Some data)) = Some tipos
    /\ dict_get (CStr tipo) tipos =
       match count_type tipo data with
       | O => None
       | n => Some (Z.of_nat n)
       end.
Proof.
  intros Hne Hsort.
  destruct (dados_dashboard_view now data Hne Hsort) as (taxa & _ & Hview).
  rewrite Hview. cbn [Webhook.response_tipos_imovel Webhook.tipos_imovel].
  eexists. split; [reflexivity|]. unfold Webhook.tipos_count.
  exact (dict_get_tipos_from tipo data []).
Qed.

Lemma tipos_imovel_counts_each_type_witness :
  three_records <> []
  /\ types_sortable three_records = true
  /\ exists tipos,
    Webhook.response_tipos_imovel
      (Webhook.dados_dashboard (H := latin1_runtime) new_year (Some three_records))
      = Some tipos
    /\ dict_get (CStr (lit "Lançamento")) tipos =
       match count_type (lit "Lançamento") three_records with
       | O => None
       | n => Some (Z.of_nat n)
       end.
Proof.
  assert (Hne : three_records <> []) by (unfold three_records; congruence).
  assert (Hsort : types_sortable three_records = true) by reflexivity.
  exact (conj Hne (conj Hsort
    (tipos_imovel_counts_each_type (H := latin1_runtime) new_year
       three_records (lit "Lançamento") Hne Hsort))).
Defined.

(** ** The order of the records *)

Lemma filter_length_Permutation {A} (p : A -> bool) (l l' : list A) :
  l ≡ₚ l' -> length (List.filter p l) = length (List.filter p l').
Proof.
  induction 1 as [|x l l' _ IH|x y l|l l' l'' _ IH1 _ IH2]; cbn [List.filter].
  - reflexivity.
  - destruct (p x); cbn [length]; congruence.
  - destruct (p x), (p y); reflexivity.
  - congruence.
Qed.

Lemma count_type_Permutation (tipo : list N) (l l' : list (gmap (list N) cell)) :
  l ≡ₚ l' -> count_type tipo l = count_type tipo l'.
Proof. intros Hp. unfold count_type. now rewrite Hp. Qed.

Lemma forallb_Permutation {A} (p : A -> bool) (l l' : list A) :
  l ≡ₚ l' -> forallb p l = forallb p l'.
Proof.
  induction 1 as [|x l l' _ IH|x y l|l l' l'' _ IH1 _ IH2]; cbn [forallb].
  - reflexivity.
  - now rewrite IH.
  - destruct (p x), (p y); reflexivity.
  - congruence.
Qed.

Lemma types_sortable_Permutation (data data' : list (gmap (list N) cell)) :
  data ≡ₚ data' -> types_sortable data = types_sortable data'.
Proof.
  intros Hp. unfold types_sortable.
  now rewrite (forallb_Permutation _ _ _ Hp),
    (forallb_Permutation (fun row => negb (is_text (tipo_of row))) _ _ Hp).
Qed.

(** X20. The total, the leads with interest, the rate, the two campaign
    counts and the count of each type do not depend on the order of the
    records in the sheet. *)
Theorem aggregate_ignores_the_order `{PyRuntime} now data data' :
  data ≡ₚ data' ->
  Webhook.response_total_leads (Webhook.dados_dashboard now (Some data)) =
  Webhook.response_total_leads (Webhook.dados_dashboard now (Some data'))
  /\ Webhook.response_interesse_visita (Webhook.dados_dashboard now (Some data)) =
     Webhook.response_interesse_visita (Webhook.dados_dashboard now (Some data'))
  /\ Webhook.response_taxa_interesse (Webhook.dados_dashboard now (Some data)) =
     Webhook.response_taxa_interesse (Webhook.dados_dashboard now (Some data'))
  /\ Webhook.response_wind_oceanica (Webhook.dados_dashboard now (Some data)) =
     Webhook.response_wind_oceanica (Webhook.dados_dashboard now (Some data'))
  /\ Webhook.response_tresor_camboinhas (Webhook.dados_dashboard now (Some data)) =
     Webhook.response_tresor_camboinhas (Webhook.dados_dashboard now (Some data'))
  /\ forall tipo : list N,
       (Webhook.response_tipos_imovel (Webhook.dados_dashboard now (Some data))
          ≫= dict_get (CStr tipo)) =
       (Webhook.response_tipos_imovel (Webhook.dados_dashboard now (Some data'))
          ≫= dict_get (CStr tipo)).
Proof.
  intros Hp.
  destruct data as [|row rest] eqn:Hdata.
  { apply Permutation_nil_l in Hp. subst data'. repeat split; reflexivity. }
  rewrite <- Hdata in *.
  assert (Hne : data <> []) by (subst data; congruence).
  assert (Hne' : data' <> []).
  { intros ->. apply Permutation_nil_r in Hp. congruence. }
  clear Hdata row rest.
  pose proof (types_sortable_Permutation _ _ Hp) as Hsame.
  destruct (types_sortable data) eqn:Hsort; symmetry in Hsame.
  2:{ rewrite (dados_dashboard_unsortable now data Hsort),
              (dados_dashboard_unsortable now data' Hsame).
      repeat split; reflexivity. }
  destruct (dados_dashboard_view now data Hne Hsort) as (taxa & Htaxa & Hview).
  destruct (dados_dashboard_view now data' Hne' Hsame) as (taxa' & Htaxa' & Hview').
  assert (Hlen : length data = length data') by (apply Permutation_length, Hp).
  pose proof (filter_length_Permutation Webhook.interested _ _ Hp) as Hint.
  rewrite <- Hlen, <- Hint in Htaxa'.
  assert (taxa' = taxa) by congruence. subst taxa'.
  rewrite Hview, Hview'.
  cbn [Webhook.response_total_leads Webhook.response_interesse_visita
       Webhook.response_taxa_interesse Webhook.response_wind_oceanica
       Webhook.response_tresor_camboinhas Webhook.response_tipos_imovel
       Webhook.total_leads Webhook.interesse_visita Webhook.taxa_interesse
       Webhook.wind_oceanica Webhook.tresor_camboinhas Webhook.tipos_imovel].
  rewrite <- !count_references_filter.
  rewrite !(filter_length_Permutation _ _ _ Hp), Hlen.
  repeat split; try reflexivity.
  intros tipo. cbn [mbind option_bind]. unfold Webhook.tipos_count.
  change (fold_left _ data []) with
    (fold_left (fun counts row => dict_count (tipo_of row) counts) data []).
  change (fold_left _ data' []) with
    (fold_left (fun counts row => dict_count (tipo_of row) counts) data' []).
  rewrite !dict_get_tipos_from.
  now rewrite (count_type_Permutation tipo _ _ Hp).
Qed.

Lemma aggregate_ignores_the_order_witness :
  three_records ≡ₚ rev three_records
  /\ Webhook.response_taxa_interesse
       (Webhook.dados_dashboard (H := latin1_runtime) new_year (Some three_records)) =
     Webhook.response_taxa_interesse
       (Webhook.dados_dashboard (H := latin1_runtime) new_year
          (Some (rev three_records))).
Proof.
  assert (Hp : three_records ≡ₚ rev three_records) by (symmetry; apply Permutation_rev).
  split; [exact Hp|].
  exact (proj1 (proj2 (proj2
    (aggregate_ignores_the_order (H := latin1_runtime) new_year three_records
       (rev three_records) Hp)))).
Defined.

(** ** Records without a column *)

Lemma filter_none {A} (p : A -> bool) (l : list A) :
  Forall (fun x => p x = false) l -> List.filter p l = [].
Proof.
  induction 1 as [|x l Hx _ IH]; [reflexivity|]. cbn [List.filter]. now rewrite Hx.
Qed.

Lemma tipos_count_one_type (key : cell) (data : list (gmap (list N) cell)) (n : Z) :
  cell_eqb key key = true ->
  Forall (fun row => tipo_of row = key) data ->
  fold_left (fun counts row => dict_count (tipo_of row) counts) data [(key, n)] =
  [(key, n + Z.of_nat (length data))].
Proof.
  intros Hkey Hall. revert n.
  induction Hall as [|row data Hrow _ IH]; intros n.
  - cbn. f_equal. f_equal. lia.
  - cbn [fold_left dict_count]. rewrite Hrow, Hkey, IH, length_cons.
    f_equal. f_equal. lia.
Qed.

(** X21. A column the sheet does not have counts as its default.  Without
    the type column every lead is listed under Outros, and the endpoint
    answers with the view.  Whenever it answers with the view: without the
    interest column no lead shows interest and the rate is 0, and without
    the reference column both campaign counts are 0. *)
Theorem missing_columns_count_as_defaults `{PyRuntime} now data :
  data <> [] ->
  (Forall (fun row => row !! lit "Tipo Imóvel" = None) data ->
   types_sortable data = true
   /\ Webhook.response_status (Webhook.dados_dashboard now (Some data)) = 200
   /\ Webhook.response_tipos_imovel (Webhook.dados_dashboard now (Some data)) =
      Some [(CStr (lit "Outros"), Z.of_nat (length data))])
  /\ (types_sortable data = true ->
      Forall (fun row => row !! lit "Interesse Visita" = None) data ->
      Webhook.response_interesse_visita (Webhook.dados_dashboard now (Some data)) = Some 0
      /\ Webhook.response_taxa_interesse (Webhook.dados_dashboard now (Some data))
         = Some 0)
  /\ (types_sortable data = true ->
      Forall (fun row => row !! lit "Imóvel/Referência" = None) data ->
      Webhook.response_wind_oceanica (Webhook.dados_dashboard now (Some data)) = Some 0
      /\ Webhook.response_tresor_camboinhas (Webhook.dados_dashboard now (Some data))
         = Some 0).
Proof.
  intros Hne.
  assert (Hlen : 0 < Z.of_nat (length data))
    by (destruct data; [congruence|rewrite length_cons; lia]).
  split; [|split].
  - intros Hall.
    assert (Hsort : types_sortable data = true).
    { unfold types_sortable. apply orb_true_iff. left. apply forallb_forall.
      intros row Hin. rewrite Forall_forall in Hall.
      unfold tipo_of. rewrite (Hall row) by (apply list_elem_of_In, Hin). reflexivity. }
    split; [exact Hsort|].
    destruct (dados_dashboard_view now data Hne Hsort) as (taxa & _ & Hview).
    rewrite Hview. split; [reflexivity|].
    cbn [Webhook.response_tipos_imovel Webhook.tipos_imovel].
    f_equal. unfold Webhook.tipos_count.
    change (fold_left _ data []) with
      (fold_left (fun counts row => dict_count (tipo_of row) counts) data []).
    destruct data as [|row data]; [congruence|].
    inversion Hall as [|? ? Hrow Hrest]; subst.
    cbn [fold_left dict_count]. unfold tipo_of at 2. rewrite Hrow. cbn [default].
    rewrite tipos_count_one_type.
    + rewrite length_cons. f_equal. f_equal. lia.
    + apply cell_eqb_text. reflexivity.
    + eapply Forall_impl; [exact Hrest|].
      intros r Hr. unfold tipo_of. rewrite Hr. reflexivity.
  - intros Hsort Hall.
    destruct (dados_dashboard_view now data Hne Hsort) as (taxa & Htaxa & Hview).
    rewrite Hview.
    cbn [Webhook.response_interesse_visita Webhook.response_taxa_interesse
         Webhook.interesse_visita Webhook.taxa_interesse].
    assert (Hnone : List.filter Webhook.interested data = []).
    { apply filter_none. eapply Forall_impl; [exact Hall|].
      intros row Hrow. unfold Webhook.interested. rewrite Hrow. reflexivity. }
    rewrite Hnone in *. cbn [length] in *. change (Z.of_nat 0) with 0 in *.
    split; [reflexivity|]. f_equal.
    assert (Hbound : 0 <= 0 <= Z.of_nat (length data)) by lia.
    destruct (rate_bounded _ _ Hbound Hlen) as (taxa' & Htaxa' & _ & H0 & _).
    rewrite Htaxa in Htaxa'. injection Htaxa' as ->. apply H0. reflexivity.
  - intros Hsort Hall.
    destruct (dados_dashboard_view now data Hne Hsort) as (taxa & _ & Hview).
    rewrite Hview.
    cbn [Webhook.response_wind_oceanica Webhook.response_tresor_camboinhas
         Webhook.wind_oceanica Webhook.tresor_camboinhas].
    rewrite <- !count_references_filter.
    rewrite !filter_none; [split; reflexivity| |];
      (eapply Forall_impl; [exact Hall|]; intros row Hrow;
       unfold Webhook.reference_is; rewrite Hrow; reflexivity).
Qed.

Lemma missing_columns_count_as_defaults_witness :
  records_of_names <> []
  /\ Forall (fun row => row !! lit "Tipo Imóvel" = None) records_of_names
  /\ types_sortable records_of_names = true
  /\ Forall (fun row => row !! lit "Interesse Visita" = None) records_of_names
  /\ Forall (fun row => row !! lit "Imóvel/Referência" = None) records_of_names
  /\ Webhook.response_tipos_imovel
       (Webhook.dados_dashboard (H := latin1_runtime) new_year (Some records_of_names))
     = Some [(CStr (lit "Outros"), Z.of_nat (length records_of_names))]
  /\ Webhook.response_taxa_interesse
       (Webhook.dados_dashboard (H := latin1_runtime) new_year (Some records_of_names))
     = Some 0
  /\ Webhook.response_wind_oceanica
       (Webhook.dados_dashboard (H := latin1_runtime) new_year (Some records_of_names))
     = Some 0.
Proof.
  assert (Hne : records_of_names <> []) by (unfold records_of_names; congruence).
  assert (H1 : Forall (fun row => row !! lit "Interesse Visita" = None) records_of_names)
    by (repeat constructor).
  assert (H2 : Forall (fun row => row !! lit "Tipo Imóvel" = None) records_of_names)
    by (repeat constructor).
  assert (H3 : Forall (fun row => row !! lit "Imóvel/Referência" = None) records_of_names)
    by (repeat constructor).
  pose proof (missing_columns_count_as_defaults (H := latin1_runtime) new_year
                records_of_names Hne) as (A & B & C).
  exact (conj Hne (conj H2 (conj (proj1 (A H2)) (conj H1 (conj H3
           (conj (proj2 (proj2 (A H2)))
              (conj (proj2 (B (proj1 (A H2)) H1)) (proj1 (C (proj1 (A H2)) H3))))))))).
Defined.

(** ** References and cells without a letter *)

Lemma lit_cons (c : ascii) (s : string) :
  (N_of_ascii c < 128)%N -> lit (String c s) = N_of_ascii c :: lit s.
Proof.
  intros Hc. unfold lit. cbn [list_ascii_of_string List.map utf8_decode].
  now rewrite (proj2 (N.ltb_lt _ _) Hc).
Qed.

Lemma string_of_uint_letterless (d : Decimal.uint) :
  letterless (lit (NilEmpty.string_of_uint d)).
Proof.
  induction d; cbn [NilEmpty.string_of_uint];
    [constructor|rewrite lit_cons by (vm_compute; reflexivity);
                 constructor; [split; vm_compute; reflexivity|assumption]..].
Qed.

Lemma int_repr_letterless (z : Z) : letterless (int_repr z).
Proof.
  unfold int_repr. destruct (Z.to_int z) as [d|d]; cbn [NilEmpty.string_of_int].
  - apply string_of_uint_letterless.
  - rewrite lit_cons by (vm_compute; reflexivity).
    constructor; [split; vm_compute; reflexivity|apply string_of_uint_letterless].
Qed.

Lemma letterless_ascii (s : str) : letterless s -> ascii_text s.
Proof. intros Hs. eapply Forall_impl; [exact Hs|]. cbn. tauto. Qed.

Lemma ascii_upper_letterless (s : str) :
  letterless s -> List.map ascii_upper s = s.
Proof.
  induction 1 as [|c s [_ Hc] _ IH]; [reflexivity|].
  cbn [List.map]. rewrite IH. f_equal.
  unfold ascii_upper, ascii_letter in *.
  destruct ((97 <=? c)%N && (c <=? 122)%N); [|reflexivity].
  rewrite orb_true_r in Hc. discriminate.
Qed.

Lemma ascii_lower_letterless (s : str) :
  letterless s -> List.map ascii_lower s = s.
Proof.
  induction 1 as [|c s [_ Hc] _ IH]; [reflexivity|].
  cbn [List.map]. rewrite IH. f_equal.
  unfold ascii_lower, ascii_letter in *.
  destruct ((65 <=? c)%N && (c <=? 90)%N); [|reflexivity].
  discriminate.
Qed.

Lemma concat_imap_pointwise (g : N -> N) (s : str) (f : nat -> N -> str) :
  (forall i c, s !! i = Some c -> f i c = [g c]) ->
  concat (imap f s) = List.map g s.
Proof.
  revert f. induction s as [|c s IH]; intros f Hf; [reflexivity|].
  cbn [imap concat List.map]. rewrite (Hf O c) by reflexivity.
  rewrite (IH (f ∘ S)); [reflexivity|].
  intros i x Hi. apply (Hf (S i) x). exact Hi.
Qed.

Lemma py_lower_ascii `{PyRuntime} (s : str) :
  ascii_text s -> py_lower s = List.map ascii_lower s.
Proof.
  intros Hs. unfold py_lower. apply concat_imap_pointwise.
  intros i c Hi. unfold lower_cp.
  assert (Hc : (c < 128)%N) by exact (Forall_lookup_1 _ _ _ _ Hs Hi).
  now rewrite (proj2 (N.ltb_lt _ _) Hc).
Qed.

Lemma lstrip_letterless (s : str) : letterless s -> letterless (lstrip s).
Proof.
  induction 1 as [|c s Hc Hs IH]; [constructor|].
  cbn [lstrip]. destruct (is_whitespace c); [exact IH|constructor; assumption].
Qed.

Lemma py_strip_letterless (s : str) : letterless s -> letterless (py_strip s).
Proof.
  intros Hs. unfold py_strip, rstrip, letterless in *.
  apply Forall_rev. apply lstrip_letterless. apply Forall_rev.
  apply lstrip_letterless. exact Hs.
Qed.

Lemma startswith_letter (s w : str) :
  letterless s -> begins_with_letter w = true -> startswith s w = false.
Proof.
  intros Hs Hw. destruct w as [|p w]; [discriminate|]. cbn in Hw.
  destruct Hs as [|c s [_ Hc] _]; [reflexivity|]. cbn [startswith].
  destruct (N.eqb_spec c p) as [->|_]; [congruence|reflexivity].
Qed.

Lemma contains_letter (s w : str) :
  letterless s -> begins_with_letter w = true -> contains w s = false.
Proof.
  intros Hs Hw. induction Hs as [|c s Hc Hs IH].
  - cbn [contains]. rewrite startswith_letter; [reflexivity|constructor|exact Hw].
  - cbn [contains]. rewrite startswith_letter; [exact IH|constructor; assumption|exact Hw].
Qed.

Lemma str_eqb_letter (s w : str) :
  letterless s -> begins_with_letter w = true -> str_eqb s w = false.
Proof.
  intros Hs Hw. unfold str_eqb. apply bool_decide_eq_false. intros ->.
  destruct w as [|p w]; [discriminate|]. cbn in Hw.
  inversion Hs as [|? ? [_ Hp] _]; subst. congruence.
Qed.

Lemma classify_normalised_letterless (ref : str) :
  letterless ref -> classify_normalised ref = lit "Outros".
Proof.
  intros Href. apply classify_normalised_other.
  unfold prefix_rule_matches, later_rule_matches, prefix_rules, str_in.
  cbn [existsb fst].
  rewrite !(startswith_letter ref) by (assumption || reflexivity).
  rewrite !(contains_letter ref) by (assumption || reflexivity).
  rewrite !(str_eqb_letter ref) by (assumption || reflexivity).
  split; reflexivity.
Qed.

Lemma normalised_letterless `{PyRuntime} (s : str) :
  letterless s -> classify_normalised (py_strip (py_upper s)) = lit "Outros".
Proof.
  intros Hs. rewrite py_upper_ascii by (apply letterless_ascii, Hs).
  rewrite ascii_upper_letterless by exact Hs.
  apply classify_normalised_letterless, py_strip_letterless, Hs.
Qed.

(** X22. A reference without a letter (digits, signs, punctuation) is
    classified Outros by both classifiers, and so is a reference that is a
    number: any integer for the dashboard, any integer but zero for the
    webhook. *)
Theorem references_without_letters_are_other `{PyRuntime} :
  (forall s : str, letterless s -> s <> [] ->
     Webhook.identify_property_type (JStr s) = lit "Outros")
  /\ (forall z : Z, z <> 0 -> Webhook.identify_property_type (JInt z) = lit "Outros")
  /\ (forall s : str, letterless s ->
        Dashboard.identify_property_type (Some (CStr s)) = lit "Outros")
  /\ (forall z : Z, Dashboard.identify_property_type (Some (CInt z)) = lit "Outros").
Proof.
  repeat split.
  - intros s Hs Hne. rewrite webhook_classifier_unfold.
    destruct s as [|c s]; [congruence|]. cbn [truthy is_nil negb py_str].
    apply normalised_letterless, Hs.
  - intros z Hz. rewrite webhook_classifier_unfold. cbn [truthy].
    replace (z =? 0) with false by (symmetry; apply Z.eqb_neq, Hz).
    cbn [negb py_str py_repr]. apply normalised_letterless, int_repr_letterless.
  - intros s Hs. rewrite dashboard_classifier_unfold.
    cbn [Dashboard.isna Dashboard.str_of cell_str].
    apply normalised_letterless, Hs.
  - intros z. rewrite dashboard_classifier_unfold.
    cbn [Dashboard.isna Dashboard.str_of cell_str].
    apply normalised_letterless, int_repr_letterless.
Qed.

Lemma references_without_letters_are_other_witness :
  letterless (lit "2024/15")
  /\ lit "2024/15" <> []
  /\ 42 <> 0
  /\ Webhook.identify_property_type (H := latin1_runtime) (JStr (lit "2024/15"))
     = lit "Outros"
  /\ Webhook.identify_property_type (H := latin1_runtime) (JInt 42) = lit "Outros"
  /\ Dashboard.identify_property_type (H := latin1_runtime) (Some (CStr (lit "2024/15")))
     = lit "Outros".
Proof.
  assert (Hs : letterless (lit "2024/15")) by (vm_compute; repeat constructor).
  assert (Hne : lit "2024/15" <> []) by (vm_compute; congruence).
  assert (Hz : 42 <> 0) by lia.
  pose proof (references_without_letters_are_other (H := latin1_runtime))
    as (A & B & C & _).
  exact (conj Hs (conj Hne (conj Hz
           (conj (A _ Hs Hne) (conj (B 42 Hz) (C _ Hs)))))).
Defined.

(** X23. A record whose interest cell is missing, is an integer, or is
    text without a letter does not count as interested: a 1 in the sheet
    is not a yes. *)
Theorem interest_needs_a_word `{PyRuntime} (row : gmap (list N) cell) :
  wordless (row !! lit "Interesse Visita") ->
  Webhook.interested row = false.
Proof.
  intros Hrow. unfold Webhook.interested.
  assert (Hcell : letterless
            (cell_str (default (CStr []) (row !! lit "Interesse Visita")))).
  { destruct (row !! lit "Interesse Visita") as [[text|z|f]|]; cbn [default cell_str].
    - exact Hrow.
    - apply int_repr_letterless.
    - contradiction.
    - constructor. }
  rewrite py_lower_ascii by (apply letterless_ascii, Hcell).
  rewrite ascii_lower_letterless by exact Hcell.
  unfold str_in. cbn [existsb].
  rewrite !(str_eqb_letter _) by (assumption || reflexivity).
  reflexivity.
Qed.

Lemma interest_needs_a_word_witness :
  wordless ((<[lit "Interesse Visita" := CInt 1]> ∅ : gmap (list N) cell)
              !! lit "Interesse Visita")
  /\ Webhook.interested (H := latin1_runtime)
       (<[lit "Interesse Visita" := CInt 1]> ∅) = false.
Proof.
  assert (Hw : wordless ((<[lit "Interesse Visita" := CInt 1]> ∅ : gmap (list N) cell)
                           !! lit "Interesse Visita")) by (vm_compute; exact I).
  exact (conj Hw (interest_needs_a_word (H := latin1_runtime) _ Hw)).
Defined.

(** X24. The two classifiers agree on every text but the empty one and on
    every integer but zero; on zero the webhook answers Indefinido and the
    dashboard Outros. *)
Theorem classifiers_agree_on_truthy_references `{PyRuntime} :
  (forall s : str, s <> [] ->
     Webhook.identify_property_type (JStr s) =
     Dashboard.identify_property_type (Some (CStr s)))
  /\ (forall z : Z, z <> 0 ->
        Webhook.identify_property_type (JInt z) =
        Dashboard.identify_property_type (Some (CInt z)))
  /\ Webhook.identify_property_type (JInt 0) = lit "Indefinido"
  /\ Dashboard.identify_property_type (Some (CInt 0)) = lit "Outros".
Proof.
  split; [|split; [|split]].
  - intros s Hs. rewrite webhook_classifier_unfold, dashboard_classifier_unfold.
    destruct s as [|c s]; [congruence|]. reflexivity.
  - intros z Hz. rewrite webhook_classifier_unfold, dashboard_classifier_unfold.
    cbn [truthy]. replace (z =? 0) with false by (symmetry; apply Z.eqb_neq, Hz).
    reflexivity.
  - reflexivity.
  - rewrite dashboard_classifier_unfold.
    cbn [Dashboard.isna Dashboard.str_of cell_str].
    apply normalised_letterless, int_repr_letterless.
Qed.

Lemma classifiers_agree_on_truthy_references_witness :
  lit "Cobertura Icarai" <> []
  /\ 42 <> 0
  /\ Webhook.identify_property_type (H := latin1_runtime) (JStr (lit "Cobertura Icarai")) =
     Dashboard.identify_property_type (H := latin1_runtime)
       (Some (CStr (lit "Cobertura Icarai")))
  /\ Webhook.identify_property_type (H := latin1_runtime) (JInt 42) =
     Dashboard.identify_property_type (H := latin1_runtime) (Some (CInt 42)).
Proof.
  assert (Hne : lit "Cobertura Icarai" <> []) by (vm_compute; congruence).
  assert (Hz : 42 <> 0) by lia.
  pose proof (classifiers_agree_on_truthy_references (H := latin1_runtime))
    as (A & B & _).
  exact (conj Hne (conj Hz (conj (A _ Hne) (B 42 Hz)))).
Defined.
